(** * Lanzat: county vulnerability scoring and real-time hurricane threats

    A shallow embedding of the scoring and threat-classification code of
    the Lanzat repository, followed by the properties established about it.

    Numbers.  The Python code computes with IEEE doubles.  A finite double
    is idealised here as an exact rational ([Q]); the three special values
    that the code can meet -- [nan], [+inf] and [-inf] -- are kept, because
    pandas uses [nan] for a missing cell and the distance code returns
    [+inf] on purpose.  Overflow is modelled: a sum, product or quotient
    whose magnitude reaches [2^1024 - 2^970] is an infinity, as it is for
    doubles.  Rounding error and signed zeros are not modelled, so the
    theorems state what survives rounding: comparisons, bounds, the
    results that are exact in doubles, and values of formulas up to a
    tolerance.

    Layout.  Part I holds the definitions, one module per source file;
    Part II holds the lemmas and theorems; Part III holds further
    properties of the same code. *)

From Stdlib Require Import QArith Qround Qminmax Qabs Lqa Lia ZArith.
From Stdlib Require Import String Ascii Bool List Sorted Permutation.
Import ListNotations.
Open Scope Q_scope.

(* ================================================================== *)
(** * Part I -- definitions                                            *)
(* ================================================================== *)

(** ** Extended floats *)

Module Num.

Inductive xfloat : Type :=
| Fin (q : Q)
| PInf
| NInf
| NaN.

Definition Qltb (a b : Q) : bool := negb (Qle_bool b a).

Definition is_nan (x : xfloat) : bool :=
  match x with NaN => true | _ => false end.

(** Comparisons: every comparison with [nan] is false. *)
Definition xlt (a b : xfloat) : bool :=
  match a, b with
  | NaN, _ | _, NaN => false
  | Fin p, Fin q => Qltb p q
  | NInf, Fin _ | NInf, PInf | Fin _, PInf => true
  | _, _ => false
  end.

Definition xeq (a b : xfloat) : bool :=
  match a, b with
  | Fin p, Fin q => Qeq_bool p q
  | PInf, PInf | NInf, NInf => true
  | _, _ => false
  end.

Definition xle (a b : xfloat) : bool := xlt a b || xeq a b.
Definition xge (a b : xfloat) : bool := xle b a.

Definition xopp (a : xfloat) : xfloat :=
  match a with
  | Fin q => Fin (- q)
  | PInf => NInf
  | NInf => PInf
  | NaN => NaN
  end.

(** The least magnitude that rounds to an infinity: the largest
    double is [2^1024 - 2^971], and a result from [2^1024 - 2^970] on
    overflows. *)
Definition overflow_limit : Q := inject_Z (2 ^ 1024 - 2 ^ 970).

(** The result of an arithmetic operation whose exact value is [r]. *)
Definition finite (r : Q) : xfloat :=
  if Qle_bool overflow_limit r then PInf
  else if Qle_bool r (- overflow_limit) then NInf
  else Fin r.

Arguments overflow_limit : simpl never.
Arguments finite r : simpl never.

Definition xadd (a b : xfloat) : xfloat :=
  match a, b with
  | NaN, _ | _, NaN => NaN
  | Fin p, Fin q => finite (p + q)
  | PInf, NInf | NInf, PInf => NaN
  | PInf, _ | _, PInf => PInf
  | NInf, _ | _, NInf => NInf
  end.

Definition xsub (a b : xfloat) : xfloat := xadd a (xopp b).

(** [signed_inf c]: the infinity whose sign is that of a number
    comparing as [c] with zero; [inf * 0] is [nan]. *)
Definition signed_inf (c : comparison) : xfloat :=
  match c with Gt => PInf | Lt => NInf | Eq => NaN end.

Definition xmul (a b : xfloat) : xfloat :=
  match a, b with
  | NaN, _ | _, NaN => NaN
  | Fin p, Fin q => finite (p * q)
  | Fin p, PInf | PInf, Fin p => signed_inf (p ?= 0)
  | Fin p, NInf | NInf, Fin p => signed_inf (0 ?= p)
  | PInf, PInf | NInf, NInf => PInf
  | PInf, NInf | NInf, PInf => NInf
  end.

(** numpy division: [x / 0] is an infinity of the sign of [x], and
    [0 / 0] and [inf / inf] are [nan] (a zero divisor counts as [+0]). *)
Definition xdiv (a b : xfloat) : xfloat :=
  match a, b with
  | NaN, _ | _, NaN => NaN
  | Fin p, Fin q =>
      if Qeq_bool q 0 then signed_inf (p ?= 0) else finite (p / q)
  | Fin _, PInf | Fin _, NInf => Fin 0
  | PInf, Fin q => if Qltb q 0 then NInf else PInf
  | NInf, Fin q => if Qltb q 0 then PInf else NInf
  | _, _ => NaN
  end.

(** Round half to even, the rule of Python's [round], applied to the
    exact value. *)
Definition round_half_even (x : Q) : Z :=
  let f := Qfloor x in
  match Qcompare (x - inject_Z f) (1 # 2) with
  | Lt => f
  | Gt => (f + 1)%Z
  | Eq => if Z.even f then f else (f + 1)%Z
  end.

Definition Qround_digits (x : Q) (ndigits : nat) : Q :=
  let s := inject_Z (10 ^ Z.of_nat ndigits) in
  inject_Z (round_half_even (x * s)) / s.

(** [round(x, ndigits)]: [nan] and the infinities are returned as is. *)
Definition py_round (x : xfloat) (ndigits : nat) : xfloat :=
  match x with
  | Fin q => Fin (Qround_digits q ndigits)
  | _ => x
  end.

(** The builtin [min(a, b)]: keeps [a] unless [b < a]. *)
Definition py_min (a b : xfloat) : xfloat := if xlt b a then b else a.

(** [Series.clip(lower, upper)] on one cell: [nan] stays [nan]. *)
Definition clip (lower upper : Q) (x : xfloat) : xfloat :=
  match x with
  | NaN => NaN
  | PInf => Fin upper
  | NInf => Fin lower
  | Fin q => Fin (Qmin upper (Qmax lower q))
  end.

(** [Series.fillna(value)] on one cell. *)
Definition fillna (value : xfloat) (x : xfloat) : xfloat :=
  if is_nan x then value else x.

(** [Series.min()] and [Series.max()]: [nan] cells are skipped; the
    result is [nan] when nothing is left. *)
Definition series_min (values : list xfloat) : xfloat :=
  fold_left (fun acc v => if is_nan acc then v
                          else if xlt v acc then v else acc) values NaN.

Definition series_max (values : list xfloat) : xfloat :=
  fold_left (fun acc v => if is_nan acc then v
                          else if xlt acc v then v else acc) values NaN.

(** Is the value inside the closed unit interval? *)
Definition in_unit (x : xfloat) : bool :=
  xle (Fin 0) x && xle x (Fin 1).

End Num.
Import Num.

(** ** Stable descending sort and competition ranking *)

Module Order.
Section Sorting.
Context {A : Type}.
(** [lt x y]: the key of [x] is strictly below the key of [y]. *)
Variable lt : A -> A -> bool.

(** [list.sort(key=..., reverse=True)] is stable: among equal keys
    the original order is kept.  An element is placed in front of
    the first element that is not strictly larger. *)
Fixpoint insert_desc (x : A) (l : list A) : list A :=
  match l with
  | [] => [x]
  | y :: ys => if lt x y then y :: insert_desc x ys else x :: y :: ys
  end.

Definition sort_desc (l : list A) : list A :=
  fold_right insert_desc [] l.

Variable eqb : A -> A -> bool.

(** Position (from 0) of the first element equal to [x]. *)
Fixpoint first_index (x : A) (l : list A) : nat :=
  match l with
  | [] => O
  | y :: ys => if eqb x y then O else S (first_index x ys)
  end.

(** [Series.rank(ascending=False, method='min')]: the values are
    put in descending order, positions are counted from 1, and a
    group of equal values receives the lowest position of the group. *)
Definition rank_min_desc (l : list A) : list nat :=
  let sorted := sort_desc l in
  map (fun x => S (first_index x sorted)) l.
End Sorting.
End Order.

(** ** Python values, exceptions and dictionaries *)

Module Py.

Inductive pyexn : Type :=
| TypeError
| ValueError
| OverflowError
| KeyError.

(** The outcome of a call that may raise. *)
Inductive result (A : Type) : Type :=
| Ok (a : A)
| Raise (e : pyexn).
Arguments Ok {A} a.
Arguments Raise {A} e.

Definition bind {A B : Type} (r : result A) (k : A -> result B)
  : result B :=
  match r with
  | Ok a => k a
  | Raise e => Raise e
  end.

Fixpoint map_result {A B : Type} (f : A -> result B) (l : list A)
  : result (list B) :=
  match l with
  | [] => Ok []
  | a :: rest =>
      bind (f a) (fun b =>
      bind (map_result f rest) (fun bs => Ok (b :: bs)))
  end.

(** A value as [json.load] produces it. *)
Inductive pyval : Type :=
| PyNone
| PyBool (b : bool)
| PyInt (z : Z)
| PyFloat (x : xfloat)
| PyStr (s : string)
| PyList
| PyDict.

(** [dict.get(key)] on a dictionary kept as its list of items. *)
Fixpoint dict_get {V : Type} (key : string) (d : list (string * V))
  : option V :=
  match d with
  | [] => None
  | (k, v) :: rest => if String.eqb key k then Some v else dict_get key rest
  end.

(** [dict(zip(keys, values))]: a later pair replaces an earlier one
    with the same key, so a lookup finds the last pair. *)
Definition dict_of_zip {V : Type} (pairs : list (string * V))
  : list (string * V) := rev pairs.

(** An integer converts to a double unless it is too large: the
    largest double is [2^1024 - 2^971], and integers from
    [2^1024 - 2^970] on round out of range. *)
Definition float_int_limit : Z := (2 ^ 1024 - 2 ^ 970)%Z.

Section Float.
(** The grammar of numeric strings accepted by [float] is a
    parameter; [None] stands for a string it rejects. *)
Variable parse_float : string -> option xfloat.

(** The builtin [float(v)]. *)
Definition py_float (v : pyval) : result xfloat :=
  match v with
  | PyNone | PyList | PyDict => Raise TypeError
  | PyBool b => Ok (Fin (if b then 1 else 0))
  | PyInt z =>
      if (Z.abs z <? float_int_limit)%Z then Ok (Fin (inject_Z z))
      else Raise OverflowError
  | PyFloat x => Ok x
  | PyStr s =>
      match parse_float s with
      | Some x => Ok x
      | None => Raise ValueError
      end
  end.
End Float.

End Py.
Import Py.

(** ** pandas rows and frames *)

Module Pandas.

Inductive cell : Type :=
| CNum (x : xfloat)
| CStr (s : string).

(** A row [Series]: the column labels with their cells. *)
Definition row : Type := list (string * cell).

Record frame : Type := { columns : list string; rows : list row }.

(** [Series.get(key, default)]: the default is used only when the
    label is absent; a present cell is returned even if it is [nan]. *)
Definition get (r : row) (key : string) (default : cell) : cell :=
  match dict_get key r with
  | Some c => c
  | None => default
  end.

Definition has_column (f : frame) (c : string) : bool :=
  existsb (String.eqb c) (columns f).

(** Equality of join keys; a missing key matches a missing key. *)
Definition key_eqb (a b : cell) : bool :=
  match a, b with
  | CStr s, CStr t => String.eqb s t
  | CNum x, CNum y => xeq x y || (is_nan x && is_nan y)
  | _, _ => false
  end.

(** [frame[[c1, ..., cn]]]. *)
Definition select (cols : list string) (f : frame) : frame :=
  {| columns := cols;
     rows := map (fun r => map (fun c => (c, get r c (CNum NaN))) cols)
                 (rows f) |}.

(** [left.merge(right, on=key, how='left', suffixes=('', suffix))]:
    every left row is kept, in order; it is paired with each right row
    of the same key, or once with [nan] cells when there is none.  A
    right column whose label the left frame already has is renamed. *)
Definition merge_left (left right : frame) (key suffix : string) : frame :=
  let rcols := filter (fun c => negb (String.eqb c key)) (columns right) in
  let rename c :=
    if has_column left c then String.append c suffix else c in
  let absent := map (fun c => (rename c, CNum NaN)) rcols in
  let joined (r : row) :=
    map (fun c => (rename c, get r c (CNum NaN))) rcols in
  {| columns := columns left ++ map rename rcols;
     rows :=
       flat_map
         (fun l =>
            let matches :=
              filter (fun r => key_eqb (get l key (CNum NaN))
                                       (get r key (CNum NaN)))
                     (rows right) in
            match matches with
            | [] => [l ++ absent]
            | _ => map (fun r => l ++ joined r) matches
            end)
         (rows left) |}.

(** [frame[c] = values]: the cell is replaced where the label exists
    and appended otherwise. *)
Fixpoint set_cell (c : string) (v : cell) (r : row) : row :=
  match r with
  | [] => [(c, v)]
  | (k, w) :: rest =>
      if String.eqb c k then (k, v) :: rest else (k, w) :: set_cell c v rest
  end.

Definition set_column (f : frame) (c : string) (values : list cell)
  : frame :=
  {| columns := if has_column f c then columns f else columns f ++ [c];
     rows := map (fun rv => set_cell c (snd rv) (fst rv))
                 (combine (rows f) values) |}.

(** A numeric cell; arithmetic on a string cell raises [TypeError]. *)
Definition number (c : cell) : result xfloat :=
  match c with
  | CNum x => Ok x
  | CStr _ => Raise TypeError
  end.

(** [Series.notna().sum()]. *)
Definition count_notna (cells : list cell) : nat :=
  length (filter (fun c => match c with
                           | CNum x => negb (is_nan x)
                           | CStr _ => true
                           end) cells).

(** [Series.median()]: the middle of the sorted cells that are not
    [nan], or the mean of the two middle ones. *)
Definition series_median (values : list xfloat) : xfloat :=
  let kept := filter (fun v => negb (is_nan v)) values in
  let sorted := rev (Order.sort_desc xlt kept) in
  let n := length sorted in
  match n with
  | O => NaN
  | _ =>
      if Nat.even n then
        xdiv (xadd (nth (n / 2 - 1) sorted NaN) (nth (n / 2) sorted NaN))
             (Fin 2)
      else nth (n / 2) sorted NaN
  end.

End Pandas.
Import Pandas.

(** ** scripts/process_data.py *)

Module ProcessData.
Local Open Scope string_scope.

(** [normalize_score(values, inverse=False)]. *)
Definition normalize_score (values : list xfloat) (inverse : bool)
  : list xfloat :=
  let min_val := series_min values in
  let max_val := series_max values in
  if xeq max_val min_val then
    repeat (Fin 0.5) (length values)
  else
    let normalized :=
      map (fun v => xdiv (xsub v min_val) (xsub max_val min_val)) values in
    if inverse then map (fun n => xsub (Fin 1) n) normalized
    else normalized.

(** [categorize_risk(score)]; the same function is repeated in the
    other scoring scripts. *)
Definition categorize_risk (score : xfloat) : string :=
  if xge score (Fin 0.8) then "Critical"
  else if xge score (Fin 0.6) then "High"
  else if xge score (Fin 0.4) then "Moderate"
  else if xge score (Fin 0.2) then "Low"
  else "Very Low".

(** One row of the scored layer. *)
Record county : Type := {
  NAME : string;
  vulnerability_score : xfloat;
  hurricane_risk : xfloat;
  social_vulnerability : xfloat;
  economic_vulnerability : xfloat;
  gdp : xfloat;
  gdp_per_capita : xfloat;
  population : xfloat;
  risk_category : string
}.

(** The values drawn from [np.random] where a source is missing. *)
Record draws : Type := {
  drawn_gdp : list xfloat;
  drawn_population : list xfloat;
  drawn_svi : list xfloat
}.

(** [Series.map(lookup)]: [nan] where the name is not a key. *)
Definition map_lookup (lookup : list (string * xfloat)) (names : list string)
  : list xfloat :=
  map (fun n => match dict_get n lookup with
                | Some v => v
                | None => NaN
                end) names.

(** The weighted sum [0.40 h + 0.30 s + 0.30 e]. *)
Definition weighted_sum (h s e : xfloat) : xfloat :=
  xadd (xadd (xmul (Fin 0.40) h) (xmul (Fin 0.30) s)) (xmul (Fin 0.30) e).

(** [calculate_vulnerability_scores(counties_gdf, gdp_df, svi_df,
    hurricane_risk)].  [names] is the NAME column, [POP] the POP column
    when the layer has one, [gdp_df] the (County, GDP_2022) pairs,
    [svi_df] the (County, SVI) pairs when both columns exist.  Columns
    are aligned by position; a missing position reads as [nan]. *)
Definition calculate_vulnerability_scores
  (names : list string) (POP : option (list xfloat))
  (gdp_df : list (string * xfloat))
  (svi_df : option (list (string * xfloat)))
  (hurricane_risk_in : list xfloat) (rnd : draws) : list county :=
  let gdp_col :=
    match gdp_df with
    | [] => drawn_gdp rnd
    | _ =>
        let mapped := map_lookup (dict_of_zip gdp_df) names in
        map (fillna (series_median mapped)) mapped
    end in
  let population_col :=
    match POP with
    | Some p => p
    | None => drawn_population rnd
    end in
  let social_col :=
    match svi_df with
    | Some ((_ :: _) as d) =>
        map (fillna (Fin 0.5)) (map_lookup (dict_of_zip d) names)
    | _ => drawn_svi rnd
    end in
  let per_capita_col :=
    map (fun i => xdiv (xmul (nth i gdp_col NaN) (Fin 1000000))
                       (nth i population_col NaN))
        (seq 0 (length names)) in
  let economic_col := normalize_score per_capita_col true in
  map (fun i =>
         let h := nth i hurricane_risk_in NaN in
         let s := nth i social_col NaN in
         let e := nth i economic_col NaN in
         let score := clip 0 1 (weighted_sum h s e) in
         {| NAME := nth i names EmptyString;
            vulnerability_score := score;
            hurricane_risk := h;
            social_vulnerability := s;
            economic_vulnerability := e;
            gdp := nth i gdp_col NaN;
            gdp_per_capita := nth i per_capita_col NaN;
            population := nth i population_col NaN;
            risk_category := categorize_risk score |})
      (seq 0 (length names)).

End ProcessData.

(** ** scripts/calculate_real_hurricane_risk.py *)

Module NoaaRisk.
Import ProcessData.

(** [update_vulnerability_with_noaa_risk(risk_df)] on the rows of the
    stored layer: the hurricane risk is replaced by the NOAA value where
    the county has one, and the score is recomputed with the weights of
    the base formula. *)
Definition update_vulnerability_with_noaa_risk
  (risk_df : list (string * xfloat)) (gdf : list county) : list county :=
  let risk_lookup := dict_of_zip risk_df in
  map (fun c =>
         let hurricane_risk_old := hurricane_risk c in
         let mapped := match dict_get (NAME c) risk_lookup with
                       | Some v => v
                       | None => NaN
                       end in
         let h := if is_nan mapped then hurricane_risk_old else mapped in
         let score :=
           clip 0 1 (weighted_sum h (social_vulnerability c)
                                    (economic_vulnerability c)) in
         {| NAME := NAME c;
            vulnerability_score := score;
            hurricane_risk := h;
            social_vulnerability := social_vulnerability c;
            economic_vulnerability := economic_vulnerability c;
            gdp := gdp c;
            gdp_per_capita := gdp_per_capita c;
            population := population c;
            risk_category := categorize_risk score |})
      gdf.

End NoaaRisk.

(** ** scripts/enrich_with_statista.py *)

Module Statista.
Import ProcessData.
Local Open Scope string_scope.

(** One row of [statista_enriched_data.csv]. *)
Record statista_row : Type := {
  County : string;
  s_median_home_value : xfloat;
  s_rural_status : string
}.

(** One row of the enriched layer (the columns that enter the score). *)
Record enhanced : Type := {
  base : county;
  median_home_value : xfloat;
  rural_status : string;
  property_exposure : xfloat;
  rural_factor : xfloat;
  enhanced_vulnerability : xfloat;
  enhanced_risk_category : string
}.

Definition rural_map : list (string * Q) :=
  [("rural", 1.0); ("rural_coastal", 0.9); ("suburban", 0.4);
   ("urban", 0.2)].

Fixpoint find_county (name : string) (rows : list statista_row)
  : option statista_row :=
  match rows with
  | [] => None
  | r :: rest =>
      if String.eqb name (County r) then Some r else find_county name rest
  end.

(** [calculate_enhanced_vulnerability(counties_gdf, statista_df)], for
    a Statista table with one row per county name: on a table that
    repeats a County, [set_index('County').to_dict('index')] raises
    [ValueError], which is not modelled. *)
Definition calculate_enhanced_vulnerability
  (counties_gdf : list county) (statista_df : list statista_row)
  : list enhanced :=
  let new_fields :=
    map (fun c =>
           match find_county (NAME c) statista_df with
           | Some data => (s_median_home_value data, s_rural_status data)
           | None => (Fin 300000, "suburban")
           end) counties_gdf in
  let values := map fst new_fields in
  let lo := series_min values in
  let hi := series_max values in
  map (fun cf =>
         let c := fst cf in
         let value := fst (snd cf) in
         let status := snd (snd cf) in
         let exposure := xdiv (xsub value lo) (xsub hi lo) in
         let factor := match dict_get status rural_map with
                       | Some q => Fin q
                       | None => NaN
                       end in
         let score :=
           clip 0 1
             (xadd (xadd (xadd (xadd
                (xmul (Fin 0.25) (hurricane_risk c))
                (xmul (Fin 0.20) (social_vulnerability c)))
                (xmul (Fin 0.20) (economic_vulnerability c)))
                (xmul (Fin 0.20) exposure))
                (xmul (Fin 0.15) factor)) in
         {| base := c;
            median_home_value := value;
            rural_status := status;
            property_exposure := exposure;
            rural_factor := factor;
            enhanced_vulnerability := score;
            enhanced_risk_category := categorize_risk score |})
      (combine counties_gdf new_fields).

End Statista.

(** ** integrate_data.py *)

Module IntegrateData.
Local Open Scope string_scope.

Definition risk_map : list (string * Q) :=
  [("Very Low", 0.1); ("Relatively Low", 0.3);
   ("Relatively Moderate", 0.5); ("Relatively High", 0.7);
   ("Very High", 0.9); ("Not Applicable", 0.0)].

(** [risk_map.get(key, 0.5)]: a key that is not one of the six
    ratings -- a [nan] cell included -- gives the default. *)
Definition risk_of (key : cell) : Q :=
  match key with
  | CStr s => match dict_get s risk_map with
              | Some q => q
              | None => 0.5
              end
  | CNum _ => 0.5
  end.

(** [calculate_vulnerability_score(row)]. *)
Definition calculate_vulnerability_score (r : row) : result xfloat :=
  let svi_score := get r "RPL_THEMES" (CNum (Fin 0.5)) in
  let hurricane_score :=
    risk_of (get r "HRCN_RISKR" (CStr "Relatively Moderate")) in
  let gdp_per_capita := get r "GDP_PER_CAPITA" (CNum (Fin 50000)) in
  let max_gdp_per_capita := Fin 150000 in
  bind (number gdp_per_capita) (fun g =>
  let economic_score :=
    xsub (Fin 1) (py_min (xdiv g max_gdp_per_capita) (Fin 1)) in
  bind (number svi_score) (fun svi =>
  let vulnerability_score :=
    xadd (xadd (xmul svi (Fin 0.4)) (xmul (Fin hurricane_score) (Fin 0.4)))
         (xmul economic_score (Fin 0.2)) in
  Ok (py_round vulnerability_score 4))).

(** [calculate_risk_category(score)]. *)
Definition calculate_risk_category (score : xfloat) : string :=
  if xge score (Fin 0.8) then "Critical"
  else if xge score (Fin 0.6) then "High"
  else if xge score (Fin 0.4) then "Moderate"
  else if xge score (Fin 0.2) then "Low"
  else "Very Low".

(** The three left joins of [integrate_datasets]. *)
Definition merge_all (counties gdp svi_subset nri_subset : frame) : frame :=
  let m1 := merge_left counties
              (select ["FIPS"; "GeoName"; "GDP_2023"] gdp) "FIPS" "_gdp" in
  let m2 := merge_left m1 svi_subset "FIPS" "_svi" in
  merge_left m2 nri_subset "FIPS" "_nri".

(** The GDP_PER_CAPITA column: [GDP_2023 * 1000000 / E_TOTPOP] with
    [nan] replaced by 50000, or 50000 throughout without E_TOTPOP. *)
Definition gdp_per_capita_column (m : frame) : result (list cell) :=
  if has_column m "E_TOTPOP" then
    map_result
      (fun r =>
         bind (number (get r "GDP_2023" (CNum NaN))) (fun g =>
         bind (number (get r "E_TOTPOP" (CNum NaN))) (fun p =>
         Ok (CNum (fillna (Fin 50000)
                          (xdiv (xmul g (Fin 1000000)) p))))))
      (rows m)
  else Ok (map (fun _ => CNum (Fin 50000)) (rows m)).

Definition rank_scores (scores : list xfloat) : list nat :=
  Order.rank_min_desc xlt xeq scores.

(** The outcome of [integrate_datasets]. *)
Record integrated : Type := {
  vulnerability_map : frame;
  VULNERABILITY_SCORE : list xfloat;
  RISK_CATEGORY : list string;
  VULNERABILITY_RANK : list nat
}.

(** The scores of the merged layer, before ranking. *)
Definition score_layer (counties gdp svi_subset nri_subset : frame)
  : result (frame * list xfloat) :=
  let merged := merge_all counties gdp svi_subset nri_subset in
  bind (gdp_per_capita_column merged) (fun per_capita =>
  let with_gdp := set_column merged "GDP_PER_CAPITA" per_capita in
  bind (map_result calculate_vulnerability_score (rows with_gdp))
       (fun scores => Ok (with_gdp, scores))).

(** [integrate_datasets()], from the merges to the ranking.  The rank
    column is cast with [astype(int)], which raises on a [nan] rank,
    that is, as soon as one score is [nan]. *)
Definition integrate_datasets (counties gdp svi_subset nri_subset : frame)
  : result integrated :=
  bind (score_layer counties gdp svi_subset nri_subset) (fun ms =>
  let scores := snd ms in
  if existsb is_nan scores then Raise ValueError
  else
    Ok {| vulnerability_map := fst ms;
          VULNERABILITY_SCORE := scores;
          RISK_CATEGORY := map calculate_risk_category scores;
          VULNERABILITY_RANK := rank_scores scores |}).

End IntegrateData.

(** ** scripts/fetch_active_hurricanes.py *)

Module FetchActiveHurricanes.
Local Open Scope string_scope.

Inductive threat_level : Type :=
| extreme
| high
| moderate
| low
| none.

Definition threat_level_eqb (a b : threat_level) : bool :=
  match a, b with
  | extreme, extreme | high, high | moderate, moderate
  | low, low | none, none => true
  | _, _ => false
  end.

(** [THREAT_THRESHOLDS], in kilometres; it has no entry for [none]. *)
Definition THREAT_THRESHOLDS : list (threat_level * Q) :=
  [(extreme, 100); (high, 250); (moderate, 500); (low, 1000)].

Fixpoint threshold_in (table : list (threat_level * Q)) (k : threat_level)
  : xfloat :=
  match table with
  | [] => NaN
  | (l, d) :: rest => if threat_level_eqb k l then Fin d
                      else threshold_in rest k
  end.

Definition threshold : threat_level -> xfloat :=
  threshold_in THREAT_THRESHOLDS.

(** One entry of the storm list. *)
Record storm : Type := {
  id : pyval;
  name : pyval;
  classification : pyval;
  intensity : pyval;
  pressure : pyval;
  latitude : pyval;
  longitude : pyval;
  movement : pyval;
  last_update : pyval;
  wind_speed_kt : pyval;
  category : string
}.

(** One per-county threat record.  The name and the wind speed of the
    nearest storm are the storm's own values, [None] when there is no
    nearest storm -- and also when the storm itself has [None] there. *)
Record county_threat : Type := {
  NAME : string;
  current_threat_level : threat_level;
  nearest_storm_distance_km : option xfloat;
  nearest_storm_name : pyval;
  nearest_storm_category : option string;
  nearest_storm_wind_speed : pyval;
  has_active_threat : bool;
  enhanced_vulnerability : xfloat
}.

(** A number as [<] sees it; other values cannot be ordered against
    a number. *)
Definition as_number (v : pyval) : result xfloat :=
  match v with
  | PyBool b => Ok (Fin (if b then 1 else 0))
  | PyInt z => Ok (Fin (inject_Z z))
  | PyFloat x => Ok x
  | _ => Raise TypeError
  end.

(** [categorize_storm(wind_speed_kt)]. *)
Definition categorize_storm (wind_speed_kt : pyval) : result string :=
  bind (as_number wind_speed_kt) (fun w =>
  Ok (if xlt w (Fin 34) then "Tropical Depression"
      else if xlt w (Fin 64) then "Tropical Storm"
      else if xlt w (Fin 83) then "Category 1 Hurricane"
      else if xlt w (Fin 96) then "Category 2 Hurricane"
      else if xlt w (Fin 113) then "Category 3 Hurricane"
      else if xlt w (Fin 137) then "Category 4 Hurricane"
      else "Category 5 Hurricane")).

(** What the request to the storm service produced. *)
Inductive http_outcome : Type :=
| RequestFailed
    (** [requests.get] raised a [RequestException]: no connection,
        time-out, ... *)
| Responded (status : nat) (activeStorms : option (list (list (string * pyval))))
    (** a response with its status code and, from its JSON body, the
        list under the key [activeStorms] when there is one. *).

(** [storm.get(key, default)]. *)
Definition storm_get (s : list (string * pyval)) (key : string)
  (default : pyval) : pyval :=
  match dict_get key s with
  | Some v => v
  | None => default
  end.

Definition storm_info (s : list (string * pyval)) : result storm :=
  bind (categorize_storm (storm_get s "windSpeed" (PyInt 0))) (fun cat =>
  Ok {| id := storm_get s "id" (PyStr "unknown");
        name := storm_get s "name" (PyStr "Unnamed");
        classification := storm_get s "classification" (PyStr "Unknown");
        intensity := storm_get s "intensity" (PyInt 0);
        pressure := storm_get s "pressure" (PyInt 0);
        latitude := storm_get s "latitude" (PyInt 0);
        longitude := storm_get s "longitude" (PyInt 0);
        movement := storm_get s "movement" (PyStr EmptyString);
        last_update := storm_get s "lastUpdate" (PyStr EmptyString);
        wind_speed_kt := storm_get s "windSpeed" (PyInt 0);
        category := cat |}).

(** [fetch_active_storms()].  [raise_for_status] raises [HTTPError],
    a [RequestException], on a 4xx or 5xx status; every
    [RequestException] is caught and turned into the empty list. *)
Definition fetch_active_storms (outcome : http_outcome)
  : result (list storm) :=
  match outcome with
  | RequestFailed => Ok []
  | Responded status activeStorms =>
      if (400 <=? status)%nat && (status <? 600)%nat then Ok []
      else
        match activeStorms with
        | Some (s :: rest) => map_result storm_info (s :: rest)
        | _ => Ok []
        end
  end.

Section Classifier.
Variable parse_float : string -> option xfloat.
(** The great-circle formula on four doubles (the numpy part of
    [haversine_distance]); it does not raise. *)
Variable great_circle : xfloat -> xfloat -> xfloat -> xfloat -> xfloat.

(** [haversine_distance(lat1, lon1, lat2, lon2)]: the conversions
    are tried in order; [TypeError] and [ValueError] are caught and
    give [+inf], any other exception escapes. *)
Definition haversine_distance (lat1 lon1 lat2 lon2 : pyval)
  : result xfloat :=
  let converted :=
    bind (py_float parse_float lat1) (fun a =>
    bind (py_float parse_float lon1) (fun b =>
    bind (py_float parse_float lat2) (fun c =>
    bind (py_float parse_float lon2) (fun d => Ok (a, b, c, d))))) in
  match converted with
  | Ok (a, b, c, d) => Ok (great_circle a b c d)
  | Raise TypeError | Raise ValueError => Ok PInf
  | Raise e => Raise e
  end.

(** The loop over the active storms for one centroid: the state is
    the least distance so far and the storm that gave it. *)
Fixpoint nearest_loop (county_lat county_lon : xfloat)
  (active_storms : list storm) (min_distance : xfloat)
  (nearest_storm : option storm) : result (xfloat * option storm) :=
  match active_storms with
  | [] => Ok (min_distance, nearest_storm)
  | s :: rest =>
      bind (haversine_distance (PyFloat county_lat) (PyFloat county_lon)
                               (latitude s) (longitude s))
           (fun distance =>
              if xlt distance min_distance
              then nearest_loop county_lat county_lon rest distance (Some s)
              else nearest_loop county_lat county_lon rest
                                min_distance nearest_storm)
  end.

(** The threat level from the loop's final state. *)
Definition determine_threat_level (min_distance : xfloat)
  (nearest_storm : option storm) : threat_level :=
  match nearest_storm with
  | None => none
  | Some _ =>
      if xle min_distance (threshold extreme) then extreme
      else if xle min_distance (threshold high) then high
      else if xle min_distance (threshold moderate) then moderate
      else if xle min_distance (threshold low) then low
      else none
  end.

(** [float(county.get('enhanced_vulnerability',
                      county.get('vulnerability_score', 0)))]. *)
Definition county_score (county : row) : result xfloat :=
  match get county "enhanced_vulnerability"
            (get county "vulnerability_score" (CNum (Fin 0))) with
  | CNum x => Ok x
  | CStr s => py_float parse_float (PyStr s)
  end.

(** The body of the loop over the county rows: [None] for a county
    without centroid, which is skipped. *)
Definition county_record (county_centroids : list (string * (xfloat * xfloat)))
  (active_storms : list storm) (county : row)
  : result (option county_threat) :=
  match dict_get "NAME" county with
  | None => Raise KeyError
  | Some (CNum _) => Ok None
  | Some (CStr county_name) =>
      match dict_get county_name county_centroids with
      | None => Ok None
      | Some (county_lat, county_lon) =>
          bind (nearest_loop county_lat county_lon active_storms PInf None)
               (fun st =>
          let min_distance := fst st in
          let nearest_storm := snd st in
          let threat := determine_threat_level min_distance nearest_storm in
          bind (county_score county) (fun score =>
          Ok (Some
            {| NAME := county_name;
               current_threat_level := threat;
               nearest_storm_distance_km :=
                 if xeq min_distance PInf then None
                 else Some (py_round min_distance 1);
               nearest_storm_name :=
                 match nearest_storm with
                 | Some s => name s
                 | None => PyNone
                 end;
               nearest_storm_category := option_map category nearest_storm;
               nearest_storm_wind_speed :=
                 match nearest_storm with
                 | Some s => wind_speed_kt s
                 | None => PyNone
                 end;
               has_active_threat := negb (threat_level_eqb threat none);
               enhanced_vulnerability := score |})))
      end
  end.

(** [calculate_county_threats(active_storms)], given the rows of the
    county table and the centroid of each county of the layer (a
    later feature of the same name replaces an earlier one). *)
Definition calculate_county_threats
  (counties_df : list row)
  (centroids : list (string * (xfloat * xfloat)))
  (active_storms : list storm) : result (list county_threat) :=
  bind (map_result (county_record (dict_of_zip centroids) active_storms)
                   counties_df)
       (fun records =>
          Ok (flat_map (fun r => match r with
                                 | Some t => [t]
                                 | None => []
                                 end) records)).
End Classifier.

Definition is_critical (c : county_threat) : bool :=
  (threat_level_eqb (current_threat_level c) extreme
   || threat_level_eqb (current_threat_level c) high)
  && xge (enhanced_vulnerability c) (Fin 0.6).

(** [x.sort(key=enhanced_vulnerability, reverse=True)]. *)
Definition sort_by_vulnerability (l : list county_threat)
  : list county_threat :=
  Order.sort_desc
    (fun a b => xlt (enhanced_vulnerability a) (enhanced_vulnerability b)) l.

Definition count_level (l : threat_level) (county_threats : list county_threat)
  : nat :=
  length (filter (fun c => threat_level_eqb (current_threat_level c) l)
                 county_threats).

Record summary : Type := {
  active_storms_count : nat;
  active_storms : list storm;
  threat_distribution : threat_level -> nat;
  counties_under_threat : nat;
  critical_counties : list county_threat;
  total_counties_analyzed : nat
}.

(** [generate_summary_stats(active_storms, county_threats)]. *)
Definition generate_summary_stats (storms : list storm)
  (county_threats : list county_threat) : summary :=
  let threat_counts := fun l => count_level l county_threats in
  let critical := sort_by_vulnerability (filter is_critical county_threats) in
  {| active_storms_count := length storms;
     active_storms := storms;
     threat_distribution := threat_counts;
     counties_under_threat :=
       (threat_counts extreme + threat_counts high
        + threat_counts moderate + threat_counts low)%nat;
     critical_counties := firstn 10 critical;
     total_counties_analyzed := length county_threats |}.

(** [main()]: fetch, classify, summarise. *)
Definition main (parse_float : string -> option xfloat)
  (great_circle : xfloat -> xfloat -> xfloat -> xfloat -> xfloat)
  (outcome : http_outcome) (counties_df : list row)
  (centroids : list (string * (xfloat * xfloat)))
  : result (summary * list county_threat) :=
  bind (fetch_active_storms outcome) (fun storms =>
  bind (calculate_county_threats parse_float great_circle
          counties_df centroids storms) (fun county_threats =>
  Ok (generate_summary_stats storms county_threats, county_threats))).

End FetchActiveHurricanes.

(** ** app/main.py *)

Module AppMain.
Import FetchActiveHurricanes.

(** The list served by [get_critical_threats()] from the stored threat
    records; every stored record carries its score, so the default of
    [t.get('enhanced_vulnerability', 0)] is never used. *)
Definition get_critical_threats (threats : list county_threat)
  : list county_threat :=
  sort_by_vulnerability (filter is_critical threats).

End AppMain.

(** ** Vocabulary of the statements *)

(** [lo] is a least element of [qs] (up to equality of rationals). *)
Definition is_minimum (lo : Q) (qs : list Q) : Prop :=
  (exists x, In x qs /\ x == lo) /\ forall x, In x qs -> lo <= x.

Definition is_maximum (hi : Q) (qs : list Q) : Prop :=
  (exists x, In x qs /\ x == hi) /\ forall x, In x qs -> x <= hi.

(** The value the normalizer computes for one finite entry. *)
Definition normalized_entry (lo hi : Q) (inverse : bool) (v : Q) : Q :=
  if inverse then 1 + - ((v + - lo) / (hi + - lo))
  else (v + - lo) / (hi + - lo).

(** Two cells hold the same value. *)
Inductive same_value : xfloat -> xfloat -> Prop :=
| same_fin (p q : Q) : p == q -> same_value (Fin p) (Fin q)
| same_pinf : same_value PInf PInf
| same_ninf : same_value NInf NInf
| same_nan : same_value NaN NaN.

Definition same_column : list xfloat -> list xfloat -> Prop :=
  Forall2 same_value.

(** [descending lt l]: no element of [l] is strictly below a later one. *)
Definition descending {A : Type} (lt : A -> A -> bool) : list A -> Prop :=
  StronglySorted (fun a b => lt a b = false).

(** Number of scores strictly above [x]. *)
Definition count_above (x : Q) (l : list Q) : nat :=
  length (filter (fun y => Qltb x y) l).

(** [float(v)] fails with one of the two exceptions that
    [haversine_distance] catches. *)
Definition conversion_fails (parse_float : string -> option xfloat)
  (v : pyval) : Prop :=
  py_float parse_float v = Raise TypeError \/
  py_float parse_float v = Raise ValueError.

(** A storm whose position cannot be converted: the latitude fails, or
    the latitude converts and the longitude fails. *)
Definition malformed (parse_float : string -> option xfloat)
  (s : FetchActiveHurricanes.storm) : Prop :=
  conversion_fails parse_float (FetchActiveHurricanes.latitude s) \/
  ((exists x, py_float parse_float (FetchActiveHurricanes.latitude s) = Ok x)
   /\ conversion_fails parse_float (FetchActiveHurricanes.longitude s)).

(** The request to the storm service failed: it raised, or the status of
    the response is a 4xx or 5xx. *)
Definition request_fails (o : FetchActiveHurricanes.http_outcome) : Prop :=
  o = FetchActiveHurricanes.RequestFailed \/
  exists status body,
    o = FetchActiveHurricanes.Responded status body /\
    (400 <= status < 600)%nat.

(** A row of the county table that the classifier can read: it has a
    NAME and its score converts to a double. *)
Definition readable_county (parse_float : string -> option xfloat)
  (county : row) : Prop :=
  dict_get "NAME" county <> None /\
  exists x, FetchActiveHurricanes.county_score parse_float county = Ok x.

(** The names of the rows of the county table that have a centroid, in
    the order of the table: the counties that the classifier does not
    skip. *)
Definition counties_with_centroid
  (centroids : list (string * (xfloat * xfloat))) (counties : list row)
  : list string :=
  flat_map
    (fun county =>
       match dict_get "NAME" county with
       | Some (CStr county_name) =>
           match dict_get county_name (dict_of_zip centroids) with
           | Some _ => [county_name]
           | None => []
           end
       | _ => []
       end)
    counties.

(** ** Sample inputs *)

Module Samples.
Import FetchActiveHurricanes.
Local Open Scope string_scope.

(** A threat record of a county 200 km from a storm named Ian. *)
Definition threat (county : string) (level : threat_level) (score : Q)
  : county_threat :=
  {| NAME := county;
     current_threat_level := level;
     nearest_storm_distance_km := Some (Fin 200);
     nearest_storm_name := PyStr "Ian";
     nearest_storm_category := Some "Category 4 Hurricane";
     nearest_storm_wind_speed := PyInt 120;
     has_active_threat := negb (threat_level_eqb level none);
     enhanced_vulnerability := Fin score |}.

(** Eleven counties under high threat: ten at score 0.9 and one at
    exactly 0.60. *)
Definition eleven_critical : list county_threat :=
  map (fun n => threat n high 0.9)
      ["Bay"; "Gulf"; "Lee"; "Levy"; "Dixie"; "Taylor"; "Pasco";
       "Citrus"; "Collier"; "Monroe"]
  ++ [threat "Hendry" high 0.60].

(** A one-row county table with its centroid. *)
Definition lee_row : row :=
  [("NAME", CStr "Lee"); ("vulnerability_score", CNum (Fin 0.7))].

Definition lee_centroid : list (string * (xfloat * xfloat)) :=
  [("Lee", (Fin 26.6, Fin (-81.8)))].

(** Hurricane Ian at a given position. *)
Definition storm_at (lat lon : pyval) : storm :=
  {| id := PyStr "al092022";
     name := PyStr "Ian";
     classification := PyStr "HU";
     intensity := PyInt 120;
     pressure := PyInt 940;
     latitude := lat;
     longitude := lon;
     movement := PyStr "NNE at 9 mph";
     last_update := PyStr "2022-09-28T12:00:00Z";
     wind_speed_kt := PyInt 120;
     category := "Category 4 Hurricane" |}.

(** A [float] that accepts no string, and a distance formula that
    answers a fixed number of kilometres. *)
Definition no_parse : string -> option xfloat := fun _ => None.

Definition fixed_distance (d : Q)
  : xfloat -> xfloat -> xfloat -> xfloat -> xfloat :=
  fun _ _ _ _ => Fin d.

(** The 67 county codes 12001, 12003, ..., 12133. *)
Definition digit (d : nat) : string :=
  String (ascii_of_nat (48 + d)) EmptyString.

Definition fips (i : nat) : string :=
  let n := (2 * i + 1)%nat in
  "12" ++ digit (n / 100) ++ digit ((n / 10) mod 10) ++ digit (n mod 10).

(** A base layer of 67 counties; GDP and hazard tables that cover all
    of them; a social-vulnerability table that covers only the first
    40. *)
Definition counties67 : frame :=
  {| columns := ["FIPS"; "NAME"];
     rows := map (fun i => [("FIPS", CStr (fips i));
                            ("NAME", CStr ("County " ++ fips i))])
                 (seq 0 67) |}.

Definition gdp67 : frame :=
  {| columns := ["FIPS"; "GeoName"; "GDP_2023"];
     rows := map (fun i => [("FIPS", CStr (fips i));
                            ("GeoName", CStr ("County " ++ fips i));
                            ("GDP_2023", CNum (Fin 5000))])
                 (seq 0 67) |}.

Definition svi40 : frame :=
  {| columns := ["FIPS"; "RPL_THEMES"; "E_TOTPOP"];
     rows := map (fun i => [("FIPS", CStr (fips i));
                            ("RPL_THEMES", CNum (Fin 0.5));
                            ("E_TOTPOP", CNum (Fin 100000))])
                 (seq 0 40) |}.

Definition nri67 : frame :=
  {| columns := ["FIPS"; "HRCN_RISKR"];
     rows := map (fun i => [("FIPS", CStr (fips i));
                            ("HRCN_RISKR", CStr "Relatively High")])
                 (seq 0 67) |}.

(** A row of the merged layer whose social-vulnerability percentile
    holds the value -999 that the CDC file uses for "no data". *)
Definition row_without_svi_data : row :=
  [("FIPS", CStr "12001"); ("RPL_THEMES", CNum (Fin (-999)));
   ("HRCN_RISKR", CStr "Very High"); ("GDP_PER_CAPITA", CNum (Fin 50000))].

(** A row of the merged layer with percentile 1.0, the lowest hazard
    rating and a GDP per capita at the cap of 150000. *)
Definition row_with_low_rating : row :=
  [("FIPS", CStr "12001"); ("RPL_THEMES", CNum (Fin 1));
   ("HRCN_RISKR", CStr "Very Low"); ("GDP_PER_CAPITA", CNum (Fin 150000))].

(** Inputs of the base scorer for two counties, one of them with the
    percentile -999. *)
Definition two_names : list string := ["Lee"; "Bay"].
Definition two_pop : option (list xfloat) := Some [Fin 760000; Fin 175000].
Definition two_gdp : list (string * xfloat) :=
  [("Lee", Fin 30000); ("Bay", Fin 9000)].
Definition two_svi : option (list (string * xfloat)) :=
  Some [("Lee", Fin (-999)); ("Bay", Fin 0.6)].
Definition two_risk : list xfloat := [Fin 0.8; Fin 0.7].
Definition no_draws : ProcessData.draws :=
  {| ProcessData.drawn_gdp := [];
     ProcessData.drawn_population := [];
     ProcessData.drawn_svi := [] |}.

(** Two scored counties, neither of which is in the Statista table. *)
Definition two_scored : list ProcessData.county :=
  ProcessData.calculate_vulnerability_scores
    two_names two_pop two_gdp (Some [("Lee", Fin 0.4); ("Bay", Fin 0.6)])
    two_risk no_draws.

(** A double near the top of the range, [1e308]. *)
Definition huge : Q := inject_Z (10 ^ 308).

End Samples.

(** ** Orders on the categories *)

Module Severity.
Local Open Scope string_scope.

(** The five risk categories, from least to most severe. *)
Definition risk_severity (category : string) : nat :=
if String.eqb category "Critical" then 4
else if String.eqb category "High" then 3
else if String.eqb category "Moderate" then 2
else if String.eqb category "Low" then 1
else 0.

(** The five threat levels, from least to most severe. *)
Definition threat_severity (l : FetchActiveHurricanes.threat_level) : nat :=
match l with
| FetchActiveHurricanes.none => 0
| FetchActiveHurricanes.low => 1
| FetchActiveHurricanes.moderate => 2
| FetchActiveHurricanes.high => 3
| FetchActiveHurricanes.extreme => 4
end.


End Severity.

(** ** scripts/calculate_real_hurricane_risk.py: the risk score *)

Module NoaaFrequency.

(** One row of [county_hurricane_frequency.csv]. *)
Record frequency_row : Type := {
County : string;
storm_count : xfloat;
avg_wind_speed : xfloat;
max_wind_speed : xfloat
}.

(** One row of the frame computed by [calculate_hurricane_risk]. *)
Record risk_row : Type := {
source : frequency_row;
frequency_score : xfloat;
avg_intensity_score : xfloat;
max_intensity_score : xfloat;
hurricane_risk_noaa : xfloat
}.

(** [calculate_hurricane_risk(frequency_df)]. *)
Definition calculate_hurricane_risk (frequency_df : list frequency_row)
: list risk_row :=
let counts := map storm_count frequency_df in
let lo := series_min counts in
let hi := series_max counts in
map (fun r =>
       let f := xdiv (xsub (storm_count r) lo) (xsub hi lo) in
       let a := clip 0 1 (xdiv (xsub (avg_wind_speed r) (Fin 34))
                               (Fin (137 - 34))) in
       let m := clip 0 1 (xdiv (xsub (max_wind_speed r) (Fin 34))
                               (Fin (160 - 34))) in
       {| source := r;
          frequency_score := f;
          avg_intensity_score := a;
          max_intensity_score := m;
          hurricane_risk_noaa :=
            clip 0 1 (xadd (xadd (xmul (Fin 0.50) f) (xmul (Fin 0.30) a))
                           (xmul (Fin 0.20) m)) |})
    frequency_df.

(** The columns County and hurricane_risk_noaa of the result, as
  [update_vulnerability_with_noaa_risk] zips them. *)
Definition risk_pairs (risk_df : list risk_row) : list (string * xfloat) :=
map (fun r => (County (source r), hurricane_risk_noaa r)) risk_df.

(** A row of finite numbers. *)
Record finite_row : Type := {
fr_county : string;
fr_count : Q;
fr_avg_wind : Q;
fr_max_wind : Q
}.

Definition row_of (r : finite_row) : frequency_row :=
{| County := fr_county r;
   storm_count := Fin (fr_count r);
   avg_wind_speed := Fin (fr_avg_wind r);
   max_wind_speed := Fin (fr_max_wind r) |}.

End NoaaFrequency.

(** ** scripts/enrich_with_statista.py: the rural flag *)

Module StatistaFlags.
Local Open Scope string_scope.

(** The column [critical_rural]: an enhanced score of at least 0.7 in a
  county whose status is [rural] or [rural_coastal]. *)
Definition critical_rural (e : Statista.enhanced) : bool :=
xge (Statista.enhanced_vulnerability e) (Fin 0.7)
&& existsb (String.eqb (Statista.rural_status e)) ["rural"; "rural_coastal"].

End StatistaFlags.

(** ** scripts/download_noaa_hurricanes.py: the Saffir-Simpson category *)

Module NoaaDownload.
Local Open Scope string_scope.

Section Categorize.
Variable parse_float : string -> option xfloat.

(** [categorize_storm(wind_kt)]: the bare [except] catches every failure
of [float], the overflow of a huge integer included. *)
Definition categorize_storm (wind_kt : pyval) : string :=
match py_float parse_float wind_kt with
| Raise _ => "Unknown"
| Ok w =>
  if xge w (Fin 137) then "Category 5"
  else if xge w (Fin 113) then "Category 4"
  else if xge w (Fin 96) then "Category 3"
  else if xge w (Fin 83) then "Category 2"
  else if xge w (Fin 64) then "Category 1"
  else if xge w (Fin 34) then "Tropical Storm"
  else "Tropical Depression"
end.
End Categorize.

End NoaaDownload.

(** ** app/main.py: the endpoints over the stored county layer *)

Module AppEndpoints.

(** What an endpoint does: it serves a JSON body or raises an
  [HTTPException] with a status code. *)
Inductive response (A : Type) : Type :=
| Served (content : A)
| HTTPException (status_code : nat).
Arguments Served {A} content.
Arguments HTTPException {A} status_code.

(** The properties of one feature of [counties.geojson] that the
  endpoints read; [None] is an absent key.  A score that is present is
  a number. *)
Record properties : Type := {
p_NAME : option string;
p_vulnerability_score : option xfloat;
p_hurricane_risk : option xfloat;
p_gdp : option xfloat;
p_social_vulnerability : option xfloat;
p_population : option xfloat;
p_risk_category : option string
}.

(** [props.get("vulnerability_score", 0)]. *)
Definition score_of (props : properties) : xfloat :=
match p_vulnerability_score props with
| Some x => x
| None => Fin 0
end.

(** One entry of the list served by [get_top_vulnerable]. *)
Record top_county : Type := {
name : option string;
vulnerability_score : xfloat;
hurricane_risk : option xfloat;
gdp : option xfloat;
social_vulnerability : option xfloat;
population : option xfloat;
risk_category : option string
}.

Definition entry_of (props : properties) : top_county :=
{| name := p_NAME props;
   vulnerability_score := score_of props;
   hurricane_risk := p_hurricane_risk props;
   gdp := p_gdp props;
   social_vulnerability := p_social_vulnerability props;
   population := p_population props;
   risk_category := p_risk_category props |}.

(** [get_top_vulnerable(limit)] over the features of the loaded layer:
  the pair of ["count"] and ["counties"].  [sorted(..., reverse=True)]
  is the stable descending sort. *)
Definition get_top_vulnerable (limit : Z) (features : list properties)
: response (Z * list top_county) :=
if ((limit <? 1) || (limit >? 67))%Z then HTTPException 400
else
  let counties := map entry_of features in
  let counties_sorted :=
    Order.sort_desc
      (fun a b => xlt (vulnerability_score a) (vulnerability_score b))
      counties in
  Served (limit, firstn (Z.to_nat limit) counties_sorted).

(** The builtins [sum], [max] and [min] on a list of numbers: [max]
  replaces its candidate by an item that is greater, [min] by one that
  is less. *)
Definition py_sum (l : list xfloat) : xfloat := fold_left xadd l (Fin 0).

Definition py_max (first : xfloat) (rest : list xfloat) : xfloat :=
fold_left (fun m item => if xlt m item then item else m) rest first.

Definition py_min_of (first : xfloat) (rest : list xfloat) : xfloat :=
fold_left (fun m item => if xlt item m then item else m) rest first.

Record basic_stats : Type := {
total_counties : nat;
avg_vulnerability : xfloat;
max_vulnerability : xfloat;
min_vulnerability : xfloat
}.

(** [get_stats()] when there is no summary file: the statistics are
  computed from the scores of the layer. *)
Definition get_stats (features : list properties) : basic_stats :=
let scores := map score_of features in
match scores with
| [] =>
    {| total_counties := 0;
       avg_vulnerability := Fin 0;
       max_vulnerability := Fin 0;
       min_vulnerability := Fin 0 |}
| first :: rest =>
    {| total_counties := length scores;
       avg_vulnerability :=
         xdiv (py_sum scores) (Fin (inject_Z (Z.of_nat (length scores))));
       max_vulnerability := py_max first rest;
       min_vulnerability := py_min_of first rest |}
end.

End AppEndpoints.

(** ** integrate_data.py: the report that follows the ranking *)

Module IntegrateReport.
Local Open Scope string_scope.

Definition rank_cell (r : nat) : cell := CNum (Fin (inject_Z (Z.of_nat r))).

(** The layer with its three computed columns, set in the order score,
  category, rank. *)
Definition final_layer (out : IntegrateData.integrated) : frame :=
set_column
  (set_column
     (set_column (IntegrateData.vulnerability_map out)
        "VULNERABILITY_SCORE"
        (map CNum (IntegrateData.VULNERABILITY_SCORE out)))
     "RISK_CATEGORY" (map CStr (IntegrateData.RISK_CATEGORY out)))
  "VULNERABILITY_RANK"
  (map rank_cell (IntegrateData.VULNERABILITY_RANK out)).

Definition column_number (c : string) (r : row) : xfloat :=
match get r c (CNum NaN) with
| CNum x => x
| CStr _ => NaN
end.

(** [frame.nlargest(n, column)] on a numeric column without [nan]: the
  first [n] rows in descending order of the column, equal values in
  their original order. *)
Definition nlargest (n : nat) (c : string) (f : frame) : frame :=
{| columns := columns f;
   rows := firstn n
             (Order.sort_desc
                (fun a b => xlt (column_number c a) (column_number c b))
                (rows f)) |}.

(** [frame[[c1, ..., cn]]]: a missing label raises [KeyError]. *)
Definition getitem_columns (cols : list string) (f : frame) : result frame :=
if forallb (has_column f) cols then Ok (select cols f) else Raise KeyError.

(** [row[key]]. *)
Definition getitem (r : row) (key : string) : result cell :=
match dict_get key r with
| Some c => Ok c
| None => Raise KeyError
end.

Definition top_10_columns : list string :=
["GeoName"; "VULNERABILITY_SCORE"; "RISK_CATEGORY"; "HRCN_RISKR";
 "RPL_THEMES"].

(** The list of the ten most vulnerable counties: the ten largest scores
  restricted to five columns, then one printed line per row, which
  reads [row['VULNERABILITY_RANK']]. *)
Definition report_top_10 (layer : frame) : result frame :=
bind (getitem_columns top_10_columns
        (nlargest 10 "VULNERABILITY_SCORE" layer)) (fun top_10 =>
bind (map_result (fun r => getitem r "VULNERABILITY_RANK") (rows top_10))
     (fun _ => Ok top_10)).

(** [integrate_datasets()] up to the point where it starts to save: the
  merges, the scores and the ranking, then the report.  The statistics
  computed in between only read the layer. *)
Definition integrate_and_report (counties gdp svi_subset nri_subset : frame)
: result frame :=
bind (IntegrateData.integrate_datasets counties gdp svi_subset nri_subset)
     (fun out =>
bind (report_top_10 (final_layer out)) (fun _ => Ok (final_layer out))).

End IntegrateReport.

(** ** Further sample inputs *)

Module MoreSamples.
Local Open Scope string_scope.

Definition scored (name : string) (h s e : Q) : ProcessData.county :=
{| ProcessData.NAME := name;
   ProcessData.vulnerability_score :=
     clip 0 1 (ProcessData.weighted_sum (Fin h) (Fin s) (Fin e));
   ProcessData.hurricane_risk := Fin h;
   ProcessData.social_vulnerability := Fin s;
   ProcessData.economic_vulnerability := Fin e;
   ProcessData.gdp := Fin 1000;
   ProcessData.gdp_per_capita := Fin 40000;
   ProcessData.population := Fin 25000;
   ProcessData.risk_category :=
     ProcessData.categorize_risk
       (clip 0 1 (ProcessData.weighted_sum (Fin h) (Fin s) (Fin e))) |}.

(** A rural county at high risk and an urban one. *)
Definition rural_and_urban : list ProcessData.county :=
[scored "Glades" 0.9 0.9 0.9; scored "Orange" 0.5 0.4 0.2].

Definition statista_table : list Statista.statista_row :=
[ {| Statista.County := "Glades";
     Statista.s_median_home_value := Fin 350000;
     Statista.s_rural_status := "rural" |};
  {| Statista.County := "Orange";
     Statista.s_median_home_value := Fin 150000;
     Statista.s_rural_status := "urban" |} ].

Definition feature (name : string) (score : Q) : AppEndpoints.properties :=
{| AppEndpoints.p_NAME := Some name;
   AppEndpoints.p_vulnerability_score := Some (Fin score);
   AppEndpoints.p_hurricane_risk := None;
   AppEndpoints.p_gdp := None;
   AppEndpoints.p_social_vulnerability := None;
   AppEndpoints.p_population := None;
   AppEndpoints.p_risk_category := None |}.

Definition three_features : list AppEndpoints.properties :=
[feature "Bay" 0.3; feature "Lee" 0.8; feature "Polk" 0.5].

(** The first [n] rows of a table. *)
Definition head_rows (n : nat) (f : frame) : frame :=
{| columns := columns f; rows := firstn n (rows f) |}.

End MoreSamples.
(* ================================================================== *)
(** * Part II -- lemmas and theorems                                   *)
(* ================================================================== *)

(** ** Boolean comparisons on rationals *)

Lemma Qltb_lt (a b : Q) : Qltb a b = true <-> a < b.
Proof.
  unfold Qltb. rewrite negb_true_iff.
  destruct (Qle_bool b a) eqn:E.
  - apply Qle_bool_iff in E. split; [discriminate | intro H; lra].
  - split; [intros _ | reflexivity].
    destruct (Qlt_le_dec a b) as [H | H]; [exact H |].
    apply Qle_bool_iff in H. congruence.
Qed.

Lemma Qltb_ge (a b : Q) : Qltb a b = false <-> b <= a.
Proof.
  unfold Qltb. rewrite negb_false_iff. apply Qle_bool_iff.
Qed.

Lemma Qeq_bool_false (a b : Q) : Qeq_bool a b = false <-> ~ a == b.
Proof.
  split; [apply Qeq_bool_neq |].
  intro H. destruct (Qeq_bool a b) eqn:E; [| reflexivity].
  apply Qeq_bool_iff in E. contradiction.
Qed.

(** ** Results below the overflow threshold *)

Lemma overflow_limit_large : 1000000000000 < overflow_limit.
Proof. reflexivity. Qed.

Lemma finite_fin (r : Q) :
  - overflow_limit < r -> r < overflow_limit -> finite r = Fin r.
Proof.
  intros H1 H2. unfold finite.
  destruct (Qle_bool overflow_limit r) eqn:E1;
    [apply Qle_bool_iff in E1; lra |].
  destruct (Qle_bool r (- overflow_limit)) eqn:E2;
    [apply Qle_bool_iff in E2; lra | reflexivity].
Qed.

Lemma finite_over (r : Q) : overflow_limit <= r -> finite r = PInf.
Proof.
  intro H. unfold finite. apply Qle_bool_iff in H. rewrite H. reflexivity.
Qed.

Lemma finite_under (r : Q) : r <= - overflow_limit -> finite r = NInf.
Proof.
  intro H. unfold finite.
  destruct (Qle_bool overflow_limit r) eqn:E1.
  - apply Qle_bool_iff in E1. pose proof overflow_limit_large. lra.
  - apply Qle_bool_iff in H. rewrite H. reflexivity.
Qed.

Lemma finite_not_nan (r : Q) : is_nan (finite r) = false.
Proof.
  unfold finite. destruct (Qle_bool overflow_limit r); [reflexivity |].
  destruct (Qle_bool r (- overflow_limit)); reflexivity.
Qed.

(** Arithmetic on small numbers is exact. *)
Lemma finite_small (r : Q) : -1000000000000 <= r <= 1000000000000 ->
  finite r = Fin r.
Proof.
  intro H. pose proof overflow_limit_large. apply finite_fin; lra.
Qed.

(** An exact value is within every rounding tolerance of itself. *)
Lemma Qabs_of_eq (x y : Q) : x == y -> Qabs (x - y) <= 1 # 1000000000.
Proof.
  intro H. apply Qabs_Qle_condition. split; lra.
Qed.

(** ** Extrema of a column of finite values *)


Lemma min_loop_fin (qs : list Q) (a : Q) :
  exists m,
    fold_left (fun acc v => if is_nan acc then v
                            else if xlt v acc then v else acc)
              (map Fin qs) (Fin a) = Fin m
    /\ In m (a :: qs) /\ forall x, In x (a :: qs) -> m <= x.
Proof.
  revert a. induction qs as [| q qs IH]; intro a; simpl.
  - exists a. split; [reflexivity |]. split; [now left |].
    intros x [<- | []]. lra.
  - destruct (Qltb q a) eqn:E.
    + apply Qltb_lt in E. destruct (IH q) as (m & Hm & Hin & Hle).
      exists m. split; [exact Hm |]. split.
      * right. exact Hin.
      * intros x [<- | Hx]; [| now apply Hle].
        specialize (Hle q (or_introl eq_refl)). lra.
    + apply Qltb_ge in E. destruct (IH a) as (m & Hm & Hin & Hle).
      exists m. split; [exact Hm |]. split.
      * destruct Hin as [<- | Hin]; [now left | right; now right].
      * intros x [<- | [<- | Hx]].
        -- apply Hle. now left.
        -- specialize (Hle a (or_introl eq_refl)). lra.
        -- apply Hle. now right.
Qed.

Lemma max_loop_fin (qs : list Q) (a : Q) :
  exists m,
    fold_left (fun acc v => if is_nan acc then v
                            else if xlt acc v then v else acc)
              (map Fin qs) (Fin a) = Fin m
    /\ In m (a :: qs) /\ forall x, In x (a :: qs) -> x <= m.
Proof.
  revert a. induction qs as [| q qs IH]; intro a; simpl.
  - exists a. split; [reflexivity |]. split; [now left |].
    intros x [<- | []]. lra.
  - destruct (Qltb a q) eqn:E.
    + apply Qltb_lt in E. destruct (IH q) as (m & Hm & Hin & Hle).
      exists m. split; [exact Hm |]. split.
      * right. exact Hin.
      * intros x [<- | Hx]; [| now apply Hle].
        specialize (Hle q (or_introl eq_refl)). lra.
    + apply Qltb_ge in E. destruct (IH a) as (m & Hm & Hin & Hle).
      exists m. split; [exact Hm |]. split.
      * destruct Hin as [<- | Hin]; [now left | right; now right].
      * intros x [<- | [<- | Hx]].
        -- apply Hle. now left.
        -- specialize (Hle a (or_introl eq_refl)). lra.
        -- apply Hle. now right.
Qed.

Lemma series_min_fin (q : Q) (qs : list Q) :
  exists m, series_min (map Fin (q :: qs)) = Fin m /\ is_minimum m (q :: qs).
Proof.
  unfold series_min. simpl. destruct (min_loop_fin qs q) as (m & Hm & Hin & Hle).
  exists m. split; [exact Hm |]. split; [| exact Hle].
  exists m. split; [exact Hin | reflexivity].
Qed.

Lemma series_max_fin (q : Q) (qs : list Q) :
  exists m, series_max (map Fin (q :: qs)) = Fin m /\ is_maximum m (q :: qs).
Proof.
  unfold series_max. simpl. destruct (max_loop_fin qs q) as (m & Hm & Hin & Hle).
  exists m. split; [exact Hm |]. split; [| exact Hle].
  exists m. split; [exact Hin | reflexivity].
Qed.

Lemma is_minimum_unique (a b : Q) (qs : list Q) :
  is_minimum a qs -> is_minimum b qs -> a == b.
Proof.
  intros [(x & Hx & Ex) Ha] [(y & Hy & Ey) Hb].
  specialize (Ha y Hy). specialize (Hb x Hx). lra.
Qed.

Lemma is_maximum_unique (a b : Q) (qs : list Q) :
  is_maximum a qs -> is_maximum b qs -> a == b.
Proof.
  intros [(x & Hx & Ex) Ha] [(y & Hy & Ey) Hb].
  specialize (Ha y Hy). specialize (Hb x Hx). lra.
Qed.

(** ** The metric normalizer on finite columns *)

Import ProcessData.


Lemma normalize_score_fin (q : Q) (qs : list Q) (inverse : bool) :
  exists lo hi,
    is_minimum lo (q :: qs) /\ is_maximum hi (q :: qs) /\
    (hi - lo < overflow_limit ->
     normalize_score (map Fin (q :: qs)) inverse =
       if Qeq_bool hi lo then repeat (Fin 0.5) (length (q :: qs))
       else map (fun v => Fin (normalized_entry lo hi inverse v)) (q :: qs)).
Proof.
  destruct (series_min_fin q qs) as (lo & Hlo & Mlo).
  destruct (series_max_fin q qs) as (hi & Hhi & Mhi).
  exists lo, hi. split; [exact Mlo |]. split; [exact Mhi |].
  intro Hrange.
  unfold normalize_score. rewrite Hlo, Hhi. cbn [xeq].
  rewrite length_map.
  destruct (Qeq_bool hi lo) eqn:E; [reflexivity |].
  apply Qeq_bool_false in E.
  pose proof overflow_limit_large as Hbig.
  assert (Hle : lo <= hi).
  { destruct Mlo as [(x & Hx & _) Hmin]. destruct Mhi as [_ Hmax].
    specialize (Hmax x Hx). specialize (Hmin x Hx). lra. }
  assert (D : Qeq_bool (hi + - lo) 0 = false).
  { apply Qeq_bool_false. intro H. apply E. lra. }
  assert (Hfin : forall v, In v (q :: qs) ->
            xdiv (xsub (Fin v) (Fin lo)) (xsub (Fin hi) (Fin lo))
            = Fin ((v + - lo) / (hi + - lo))
            /\ 0 <= (v + - lo) / (hi + - lo) <= 1).
  { intros v Hv.
    assert (Hb : lo <= v <= hi)
      by (split; [apply Mlo | apply Mhi]; exact Hv).
    assert (H0 : 0 <= (v + - lo) / (hi + - lo))
      by (apply Qle_shift_div_l; lra).
    assert (H1 : (v + - lo) / (hi + - lo) <= 1)
      by (apply Qle_shift_div_r; lra).
    split; [| split; assumption].
    cbn [xsub xopp xadd].
    rewrite (finite_fin (v + - lo)), (finite_fin (hi + - lo)) by lra.
    cbn [xdiv]. rewrite D. apply finite_fin; lra. }
  unfold normalized_entry.
  destruct inverse; rewrite ?map_map; apply map_ext_in; intros v Hv;
    destruct (Hfin v Hv) as (-> & H0 & H1); [| reflexivity].
  cbn [xsub xopp xadd]. apply finite_fin; lra.
Qed.

Lemma normalize_score_length (values : list xfloat) (inverse : bool) :
  length (normalize_score values inverse) = length values.
Proof.
  unfold normalize_score.
  destruct (xeq _ _); [apply repeat_length |].
  destruct inverse; rewrite ?length_map; reflexivity.
Qed.

Lemma nth_error_repeat_Some {A : Type} (a : A) (n i : nat) :
  (i < n)%nat -> nth_error (repeat a n) i = Some a.
Proof.
  revert i. induction n as [| n IH]; intros [| i] H; simpl; try lia.
  - reflexivity.
  - apply IH. lia.
Qed.

Lemma normalized_entry_unit (lo hi v : Q) (inverse : bool) :
  lo <= v -> v <= hi -> ~ hi == lo ->
  0 <= normalized_entry lo hi inverse v <= 1.
Proof.
  intros Hlo Hhi Hne.
  assert (Hpos : 0 < hi + - lo) by lra.
  assert (H0 : 0 <= (v + - lo) / (hi + - lo)).
  { apply Qle_shift_div_l; [exact Hpos | lra]. }
  assert (H1 : (v + - lo) / (hi + - lo) <= 1).
  { apply Qle_shift_div_r; [exact Hpos | lra]. }
  unfold normalized_entry. destruct inverse; lra.
Qed.

(** C4 (as amended).  For a column of finite values whose range
    [max - min] stays below the overflow threshold, entry [i] of
    [normalize_score values inverse] lies in [0,1] and is, within
    rounding, [(values[i] - min) / (max - min)], or one minus that in
    inverse mode; when the maximum equals the minimum every entry is 0.5,
    so [normalize([5,5,5])] is [[0.5,0.5,0.5]]; and when the extrema
    differ the default mode sends a minimum to exactly 0 and a maximum to
    exactly 1, the inverse mode a minimum to 1 and a maximum to 0.  The
    result has the length of the input. *)
Theorem normalize_score_contract
  (qs : list Q) (inverse : bool) (i : nat) (v lo hi : Q)
  (Hv : nth_error qs i = Some v)
  (Hlo : is_minimum lo qs)
  (Hhi : is_maximum hi qs)
  (Hrange : hi - lo < overflow_limit) :
  length (normalize_score (map Fin qs) inverse) = length qs /\
  normalize_score [Fin 5; Fin 5; Fin 5] inverse
    = [Fin 0.5; Fin 0.5; Fin 0.5] /\
  exists r,
    nth_error (normalize_score (map Fin qs) inverse) i = Some (Fin r) /\
    0 <= r <= 1 /\
    (hi == lo -> r == 1 # 2) /\
    (~ hi == lo ->
       Qabs (r - (if inverse then 1 - (v - lo) / (hi - lo)
                  else (v - lo) / (hi - lo))) <= 1 # 1000000000) /\
    (~ hi == lo -> inverse = false ->
       (v == lo -> r == 0) /\ (v == hi -> r == 1)) /\
    (~ hi == lo -> inverse = true ->
       (v == lo -> r == 1) /\ (v == hi -> r == 0)).
Proof.
  split; [rewrite normalize_score_length; apply length_map |].
  split; [destruct inverse; reflexivity |].
  destruct qs as [| q qs]; [destruct i; discriminate |].
  destruct (normalize_score_fin q qs inverse) as (lo' & hi' & Mlo & Mhi & Heq).
  pose proof (is_minimum_unique _ _ _ Hlo Mlo) as Elo.
  pose proof (is_maximum_unique _ _ _ Hhi Mhi) as Ehi.
  assert (Hin : In v (q :: qs)) by (eapply nth_error_In; eauto).
  assert (Hb1 : lo <= v) by (apply Hlo; exact Hin).
  assert (Hb2 : v <= hi) by (apply Hhi; exact Hin).
  rewrite Heq by lra.
  rewrite (Qeqb_comp hi' hi (Qeq_sym _ _ Ehi) lo' lo (Qeq_sym _ _ Elo)).
  destruct (Qeq_bool hi lo) eqn:E.
  - apply Qeq_bool_iff in E. exists 0.5. split.
    + apply nth_error_repeat_Some. apply nth_error_Some. congruence.
    + split; [lra |]. split; [intros _; reflexivity |].
      repeat split; intro Hne; contradiction.
  - apply Qeq_bool_false in E.
    exists (normalized_entry lo' hi' inverse v). split.
    + rewrite nth_error_map, Hv. reflexivity.
    + assert (Hne' : ~ hi' == lo') by (intro; apply E; lra).
      split; [apply normalized_entry_unit; lra |].
      assert (Hd : ~ hi - lo == 0) by lra.
      assert (Hd' : ~ hi' + - lo' == 0) by lra.
      assert (Hform : (v + - lo') / (hi' + - lo') == (v - lo) / (hi - lo)).
      { rewrite Elo, Ehi. unfold Qminus. reflexivity. }
      split; [intro Hc; contradiction |].
      split; [| split].
      * intros _. apply Qabs_of_eq. unfold normalized_entry.
        destruct inverse; rewrite Hform; unfold Qminus; reflexivity.
      * intros _ ->. unfold normalized_entry. rewrite Hform. split; intro Hx.
        -- rewrite Hx. field. exact Hd.
        -- rewrite Hx. field. exact Hd.
      * intros _ ->. unfold normalized_entry. rewrite Hform. split; intro Hx.
        -- rewrite Hx. field. exact Hd.
        -- rewrite Hx. field. exact Hd.
Qed.

Lemma normalize_score_contract_witness :
  exists r,
    nth_error (normalize_score [Fin 1; Fin 3; Fin 2] false) 1 = Some (Fin r)
    /\ r == 1.
Proof.
  assert (Hv : nth_error [1; 3; 2] 1 = Some 3) by reflexivity.
  assert (Hlo : is_minimum 1 [1; 3; 2]).
  { split.
    - exists 1. split; [now left | reflexivity].
    - intros x [<- | [<- | [<- | []]]]; lra. }
  assert (Hhi : is_maximum 3 [1; 3; 2]).
  { split.
    - exists 3. split; [right; now left | reflexivity].
    - intros x [<- | [<- | [<- | []]]]; lra. }
  assert (Hrange : 3 - 1 < overflow_limit) by reflexivity.
  destruct (normalize_score_contract [1; 3; 2] false 1 3 1 3 Hv Hlo Hhi Hrange)
    as (_ & _ & r & Hr & _ & _ & _ & Hends & _).
  exists r. split; [exact Hr |].
  apply Hends; [lra | reflexivity | reflexivity].
Defined.

(** C4, the claim as stated ("for every input vector") at three inputs.
    With an infinite entry the maximum maps to [nan], not to 1:
    [1, 2, +inf] gives [0, 0, nan].  With finite entries whose range
    overflows, [max - min] is [+inf] and the maximum maps to [nan] as
    well: [1e308, -1e308, 0] gives [nan, 0, 0].  A [nan] entry stays
    [nan].  None of these results lies in [0,1]. *)
Theorem normalize_score_maximum_maps_to_nan :
  normalize_score [Fin 1; Fin 2; PInf] false = [Fin 0; Fin 0; NaN] /\
  normalize_score [Fin Samples.huge; Fin (- Samples.huge); Fin 0] false
    = [NaN; Fin 0; Fin 0] /\
  is_maximum Samples.huge [Samples.huge; - Samples.huge; 0] /\
  normalize_score [Fin 1; NaN; Fin 2] false = [Fin 0; NaN; Fin 1] /\
  in_unit NaN = false.
Proof.
  split; [vm_compute; reflexivity |].
  split; [vm_compute; reflexivity |].
  split.
  { assert (Hpos : 0 < Samples.huge) by (vm_compute; reflexivity).
    generalize dependent Samples.huge. intros h Hpos. split.
    - exists h. split; [left; reflexivity | reflexivity].
    - intros x [<- | [<- | [<- | []]]]; lra. }
  split; [vm_compute; reflexivity | reflexivity].
Qed.

(** ** Idempotence of the normalizer *)


Lemma same_column_map_fin (f g : Q -> Q) (qs : list Q) :
  (forall q, In q qs -> f q == g q) ->
  same_column (map (fun q => Fin (f q)) qs) (map (fun q => Fin (g q)) qs).
Proof.
  induction qs as [| q qs IH]; intro H; simpl; constructor.
  - constructor. apply H. now left.
  - apply IH. intros x Hx. apply H. now right.
Qed.

Lemma is_minimum_map (f : Q -> Q) (lo : Q) (qs : list Q) (m : Q) :
  (forall x, In x qs -> m <= f x) ->
  (exists x, In x qs /\ f x == m) ->
  is_minimum lo (map f qs) -> lo == m.
Proof.
  intros Hall (x & Hx & Ex) [(y & Hy & Ey) Hle].
  apply in_map_iff in Hy. destruct Hy as (z & <- & Hz).
  specialize (Hall z Hz).
  specialize (Hle (f x) (in_map f _ _ Hx)). lra.
Qed.

Lemma is_maximum_map (f : Q -> Q) (hi : Q) (qs : list Q) (m : Q) :
  (forall x, In x qs -> f x <= m) ->
  (exists x, In x qs /\ f x == m) ->
  is_maximum hi (map f qs) -> hi == m.
Proof.
  intros Hall (x & Hx & Ex) [(y & Hy & Ey) Hle].
  apply in_map_iff in Hy. destruct Hy as (z & <- & Hz).
  specialize (Hall z Hz).
  specialize (Hle (f x) (in_map f _ _ Hx)). lra.
Qed.

Lemma normalize_score_constant (c : Q) (n : nat) (inverse : bool) :
  normalize_score (repeat (Fin c) n) inverse = repeat (Fin 0.5) n.
Proof.
  destruct n as [| n]; [destruct inverse; reflexivity |].
  assert (R : repeat (Fin c) (S n) = map Fin (c :: repeat c n)).
  { simpl. rewrite map_repeat. reflexivity. }
  rewrite R.
  destruct (normalize_score_fin c (repeat c n) inverse)
    as (lo & hi & Mlo & Mhi & Heq).
  assert (Hall : forall x, In x (c :: repeat c n) -> x = c).
  { intros x [<- | Hx]; [reflexivity | eapply repeat_spec; eauto]. }
  destruct Mlo as [(xl & Hxl & Exl) _]. apply Hall in Hxl. subst xl.
  destruct Mhi as [(xh & Hxh & Exh) _]. apply Hall in Hxh. subst xh.
  assert (E : Qeq_bool hi lo = true) by (apply Qeq_bool_iff; lra).
  rewrite Heq by (pose proof overflow_limit_large; lra).
  rewrite E. simpl length. rewrite repeat_length. reflexivity.
Qed.

Lemma differs_at_head (a b : xfloat) (l k : list xfloat) :
  ~ same_value a b -> ~ same_column (a :: l) (b :: k).
Proof.
  intros H S. inversion S; subst. contradiction.
Qed.

(** C3.  The normalizer is not idempotent.  In the default mode a column
    holding an infinite value changes on a second pass ([1, 2, +inf] gives
    [0, 0, nan], then [0.5, 0.5, 0.5]); in inverse mode already the finite
    column [0, 1] does ([1, 0], then [0, 1]); and normalizing a column
    whose values already lie in [0,1] can change them ([0.2, 0.4] becomes
    [0, 1]). *)
Theorem normalize_score_not_idempotent :
  (exists x,
     ~ same_column (normalize_score (normalize_score x false) false)
                   (normalize_score x false)) /\
  (exists qs,
     ~ same_column
         (normalize_score (normalize_score (map Fin qs) true) true)
         (normalize_score (map Fin qs) true)) /\
  (exists qs,
     Forall (fun q => 0 <= q <= 1) qs /\
     ~ same_column (normalize_score (map Fin qs) false) (map Fin qs)).
Proof.
  split; [| split].
  - exists [Fin 1; Fin 2; PInf]. vm_compute.
    apply differs_at_head. intro H. inversion H; subst.
    match goal with E : _ == _ |- _ => vm_compute in E; discriminate end.
  - exists [0; 1]. vm_compute.
    apply differs_at_head. intro H. inversion H; subst.
    match goal with E : _ == _ |- _ => vm_compute in E; discriminate end.
  - exists [2 # 10; 4 # 10]. split.
    + repeat constructor; simpl; lra.
    + vm_compute.
      apply differs_at_head. intro H. inversion H; subst.
      match goal with E : _ == _ |- _ => vm_compute in E; discriminate end.
Qed.

(** ** Sorting and ranking *)

Section SortFacts.
Context {A : Type}.
Variable lt : A -> A -> bool.

Lemma insert_desc_perm (x : A) (l : list A) :
  Permutation (x :: l) (Order.insert_desc lt x l).
Proof.
  induction l as [| y ys IH]; simpl; [apply Permutation_refl |].
  destruct (lt x y); [| apply Permutation_refl].
  eapply perm_trans; [apply perm_swap |].
  apply perm_skip. exact IH.
Qed.

Lemma sort_desc_perm (l : list A) : Permutation l (Order.sort_desc lt l).
Proof.
  induction l as [| x xs IH]; simpl; [constructor |].
  eapply perm_trans; [| apply insert_desc_perm].
  apply perm_skip. exact IH.
Qed.

(** The elements whose keys are ordered by [<] as a strict weak
    order (for doubles: the keys that are not [nan]). *)
Variable good : A -> Prop.
Hypothesis lt_asym :
  forall x y, good x -> good y -> lt x y = true -> lt y x = false.
Hypothesis ge_trans :
  forall x y z, good x -> good y -> good z ->
                lt x y = false -> lt y z = false -> lt x z = false.

Lemma insert_desc_sorted (x : A) (l : list A) :
  good x -> Forall good l ->
  descending lt l -> descending lt (Order.insert_desc lt x l).
Proof.
  intros Gx. induction l as [| y ys IH]; intros G H; simpl.
  - repeat constructor.
  - inversion H as [| ? ? Hys Hall]; subst.
    inversion G as [| ? ? Gy Gys]; subst.
    destruct (lt x y) eqn:E.
    + constructor; [apply IH; assumption |].
      apply Forall_forall. intros z Hz.
      apply (Permutation_in _ (Permutation_sym (insert_desc_perm x ys))) in Hz.
      destruct Hz as [<- | Hz].
      * apply lt_asym; assumption.
      * rewrite Forall_forall in Hall. apply Hall, Hz.
    + constructor; [exact H |].
      constructor; [exact E |].
      apply Forall_forall. intros z Hz.
      rewrite Forall_forall in Hall, Gys.
      eapply (ge_trans x y z); auto.
Qed.

Lemma sort_desc_sorted (l : list A) :
  Forall good l -> descending lt (Order.sort_desc lt l).
Proof.
  induction l as [| x xs IH]; intro G; simpl; [constructor |].
  inversion G; subst.
  apply insert_desc_sorted; auto.
  eapply Permutation_Forall; [apply sort_desc_perm | assumption].
Qed.
End SortFacts.

Lemma Qltb_asym (x y : Q) : Qltb x y = true -> Qltb y x = false.
Proof. rewrite Qltb_lt, Qltb_ge. lra. Qed.

Lemma Qltb_ge_trans (x y z : Q) :
  Qltb x y = false -> Qltb y z = false -> Qltb x z = false.
Proof. rewrite !Qltb_ge. lra. Qed.

Lemma sort_desc_map_fin (qs : list Q) :
  Order.sort_desc xlt (map Fin qs) = map Fin (Order.sort_desc Qltb qs).
Proof.
  induction qs as [| q qs IH]; simpl; [reflexivity |].
  rewrite IH. generalize (Order.sort_desc Qltb qs). clear.
  intro l. induction l as [| y ys IH]; simpl; [reflexivity |].
  destruct (Qltb q y); simpl; [rewrite IH |]; reflexivity.
Qed.

Lemma first_index_map_fin (x : Q) (l : list Q) :
  Order.first_index xeq (Fin x) (map Fin l) = Order.first_index Qeq_bool x l.
Proof.
  induction l as [| y ys IH]; simpl; [reflexivity |].
  destruct (Qeq_bool x y); [reflexivity | now rewrite IH].
Qed.


Lemma count_above_perm (x : Q) (l k : list Q) :
  Permutation l k -> count_above x l = count_above x k.
Proof.
  intro P. unfold count_above. induction P; simpl.
  - reflexivity.
  - destruct (Qltb x x0); simpl; congruence.
  - destruct (Qltb x y), (Qltb x x0); reflexivity.
  - congruence.
Qed.

Lemma count_above_none (x : Q) (l : list Q) :
  Forall (fun y => Qltb x y = false) l -> count_above x l = O.
Proof.
  unfold count_above. induction 1 as [| y ys Hy _ IH]; simpl;
    [reflexivity |]. rewrite Hy. exact IH.
Qed.

Lemma first_index_sorted (x : Q) (l : list Q) :
  descending Qltb l ->
  (exists y, In y l /\ y == x) ->
  Order.first_index Qeq_bool x l = count_above x l.
Proof.
  induction l as [| y ys IH]; intros S (z & Hz & Ez); [destruct Hz |].
  inversion S as [| ? ? Sys Hall]; subst. simpl.
  destruct (Qeq_bool x y) eqn:E.
  - apply Qeq_bool_iff in E. symmetry.
    apply (count_above_none x (y :: ys)). constructor.
    + apply Qltb_ge. lra.
    + eapply Forall_impl; [| exact Hall]. simpl. intros a Ha.
      apply Qltb_ge in Ha. apply Qltb_ge. lra.
  - apply Qeq_bool_false in E.
    destruct Hz as [-> | Hz]; [exfalso; apply E; lra |].
    assert (Hxy : x < y).
    { rewrite Forall_forall in Hall. specialize (Hall z Hz).
      apply Qltb_ge in Hall. lra. }
    unfold count_above. simpl.
    apply Qltb_lt in Hxy. rewrite Hxy. simpl. f_equal.
    apply IH; [exact Sys |]. exists z. split; assumption.
Qed.

Lemma rank_scores_fin (qs : list Q) :
  IntegrateData.rank_scores (map Fin qs)
  = map (fun x => S (count_above x qs)) qs.
Proof.
  unfold IntegrateData.rank_scores, Order.rank_min_desc.
  rewrite sort_desc_map_fin, map_map.
  apply map_ext_in. intros x Hx. f_equal.
  rewrite first_index_map_fin.
  rewrite first_index_sorted.
  - symmetry. apply count_above_perm, sort_desc_perm.
  - apply (sort_desc_sorted Qltb (fun _ => True)).
    + intros ? ? _ _. apply Qltb_asym.
    + intros ? ? ? _ _ _. apply Qltb_ge_trans.
    + apply Forall_forall. trivial.
  - exists x. split; [| reflexivity].
    eapply Permutation_in; [apply sort_desc_perm | exact Hx].
Qed.

(** C8.  The vulnerability rank is a descending rank with "min"
    tie-break: the rank of a score is one more than the number of scores
    strictly above it, so equal scores share the best rank of their group
    and the next distinct score skips the tied positions; for
    [0.9, 0.9, 0.7] the ranks are [1, 1, 3]. *)
Theorem vulnerability_rank_min_ties
  (qs : list Q) (i j : nat) (x y : Q)
  (Hi : nth_error qs i = Some x)
  (Hj : nth_error qs j = Some y) :
  nth_error (IntegrateData.rank_scores (map Fin qs)) i
    = Some (S (count_above x qs)) /\
  (x == y ->
     nth_error (IntegrateData.rank_scores (map Fin qs)) i
     = nth_error (IntegrateData.rank_scores (map Fin qs)) j) /\
  IntegrateData.rank_scores [Fin 0.9; Fin 0.9; Fin 0.7] = [1; 1; 3]%nat.
Proof.
  rewrite rank_scores_fin, !nth_error_map, Hi, Hj. simpl option_map.
  split; [reflexivity |]. split; [| reflexivity].
  intro E. do 2 f_equal. unfold count_above.
  f_equal. apply filter_ext. intro z.
  unfold Qltb. f_equal. apply Qleb_comp; [reflexivity | exact E].
Qed.

Lemma vulnerability_rank_min_ties_witness :
  nth_error (IntegrateData.rank_scores (map Fin [0.9; 0.9; 0.7])) 2
  = Some 3%nat.
Proof.
  assert (H2 : nth_error [0.9; 0.9; 0.7] 2 = Some 0.7) by reflexivity.
  assert (H0 : nth_error [0.9; 0.9; 0.7] 0 = Some 0.9) by reflexivity.
  exact (proj1 (vulnerability_rank_min_ties [0.9; 0.9; 0.7] 2 0 0.7 0.9 H2 H0)).
Defined.

(** ** The critical-county lists *)

Import FetchActiveHurricanes.

Lemma xlt_asym (a b : xfloat) : xlt a b = true -> xlt b a = false.
Proof.
  destruct a as [p | | |], b as [q | | |]; simpl; try congruence.
  apply Qltb_asym.
Qed.

Lemma xlt_ge_trans (a b c : xfloat) :
  is_nan b = false ->
  xlt a b = false -> xlt b c = false -> xlt a c = false.
Proof.
  destruct a as [p | | |], b as [q | | |], c as [r | | |]; simpl;
    try congruence; intros _.
  apply Qltb_ge_trans.
Qed.

Lemma xge_not_nan (a b : xfloat) : xge a b = true -> is_nan a = false.
Proof. unfold xge, xle. destruct a, b; simpl; congruence. Qed.

(** For numbers, "not below" is "at least". *)
Lemma not_xlt_xge (a b : xfloat) :
  is_nan a = false -> is_nan b = false -> xlt a b = false -> xge a b = true.
Proof.
  unfold xge, xle.
  destruct a as [p | | |], b as [q | | |]; simpl; try congruence.
  intros _ _ H. apply orb_true_iff.
  apply Qltb_ge in H.
  destruct (Qeq_bool q p) eqn:E; [now right | left].
  apply Qeq_bool_false in E. apply Qltb_lt. lra.
Qed.

Lemma threat_level_eqb_eq (a b : threat_level) :
  threat_level_eqb a b = true <-> a = b.
Proof. destruct a, b; simpl; split; congruence. Qed.

Lemma is_critical_iff (c : county_threat) :
  is_critical c = true <->
  (current_threat_level c = extreme \/ current_threat_level c = high) /\
  xge (enhanced_vulnerability c) (Fin 0.6) = true.
Proof.
  unfold is_critical.
  rewrite andb_true_iff, orb_true_iff, !threat_level_eqb_eq. reflexivity.
Qed.

Lemma critical_sorted (l : list county_threat) :
  descending
    (fun a b => xlt (enhanced_vulnerability a) (enhanced_vulnerability b))
    (sort_by_vulnerability (filter is_critical l)).
Proof.
  apply (sort_desc_sorted _
           (fun c => is_nan (enhanced_vulnerability c) = false)).
  - intros x y _ _. apply xlt_asym.
  - intros x y z _ Hy _. apply xlt_ge_trans. exact Hy.
  - apply Forall_forall. intros c Hc. apply filter_In in Hc.
    destruct Hc as [_ Hc]. apply is_critical_iff in Hc.
    eapply xge_not_nan. apply Hc.
Qed.

Lemma descending_scores (l : list county_threat) :
  descending
    (fun a b => xlt (enhanced_vulnerability a) (enhanced_vulnerability b)) l ->
  Forall (fun a => is_nan (enhanced_vulnerability a) = false) l ->
  StronglySorted
    (fun a b => xge (enhanced_vulnerability a) (enhanced_vulnerability b) = true)
    l.
Proof.
  unfold descending.
  induction l as [| a l IH]; intros S G; [constructor |].
  inversion S as [| ? ? Sl Hall]; subst.
  inversion G as [| ? ? Ga Gl]; subst.
  constructor; [apply IH; assumption |].
  rewrite Forall_forall in Hall, Gl. apply Forall_forall.
  intros b Hb. apply not_xlt_xge; auto.
Qed.

Lemma get_critical_threats_In (threats : list county_threat)
  (c : county_threat) :
  In c (AppMain.get_critical_threats threats) <->
  In c threats /\ is_critical c = true.
Proof.
  unfold AppMain.get_critical_threats, sort_by_vulnerability.
  rewrite <- filter_In. split; intro H.
  - eapply Permutation_in; [apply Permutation_sym, sort_desc_perm | exact H].
  - eapply Permutation_in; [apply sort_desc_perm | exact H].
Qed.

Lemma In_firstn {A : Type} (n : nat) (l : list A) (x : A) :
  In x (firstn n l) -> In x l.
Proof.
  revert l. induction n as [| n IH]; intros [| y ys]; simpl; try tauto.
  intros [-> | H]; [now left | right; now apply IH].
Qed.

(** C7 (as amended).  The list served by [get_critical_threats] holds a
    county exactly when its threat level is extreme or high and its score
    is at least 0.6; it is a rearrangement of those counties in
    descending order of score; a moderate county is never in it and a
    high county at 0.60 always is.  The [critical_counties] of the
    summary are the first ten entries of that list: every county in it is
    critical, and all critical counties are in it when there are at most
    ten. *)
Theorem critical_counties_spec
  (storms : list storm) (threats : list county_threat) (c : county_threat) :
  (In c (AppMain.get_critical_threats threats) <->
     In c threats /\
     (current_threat_level c = extreme \/ current_threat_level c = high) /\
     xge (enhanced_vulnerability c) (Fin 0.6) = true) /\
  Permutation (filter is_critical threats)
              (AppMain.get_critical_threats threats) /\
  StronglySorted
    (fun a b => xge (enhanced_vulnerability a) (enhanced_vulnerability b) = true)
    (AppMain.get_critical_threats threats) /\
  critical_counties (generate_summary_stats storms threats)
    = firstn 10 (AppMain.get_critical_threats threats) /\
  (In c (critical_counties (generate_summary_stats storms threats)) ->
     In c (AppMain.get_critical_threats threats)) /\
  ((length (filter is_critical threats) <= 10)%nat ->
     In c (AppMain.get_critical_threats threats) ->
     In c (critical_counties (generate_summary_stats storms threats))) /\
  (current_threat_level c = moderate ->
     ~ In c (AppMain.get_critical_threats threats) /\
     ~ In c (critical_counties (generate_summary_stats storms threats))) /\
  (In c threats -> current_threat_level c = high ->
     enhanced_vulnerability c = Fin 0.60 ->
     In c (AppMain.get_critical_threats threats)).
Proof.
  set (served := AppMain.get_critical_threats threats).
  set (summarised := critical_counties (generate_summary_stats storms threats)).
  assert (Hin : In c served <->
     In c threats /\
     (current_threat_level c = extreme \/ current_threat_level c = high) /\
     xge (enhanced_vulnerability c) (Fin 0.6) = true).
  { unfold served. rewrite get_critical_threats_In, is_critical_iff.
    reflexivity. }
  assert (Hperm : Permutation (filter is_critical threats) served)
    by apply sort_desc_perm.
  assert (Hsum : summarised = firstn 10 served) by reflexivity.
  assert (Hsub : In c summarised -> In c served).
  { rewrite Hsum. apply In_firstn. }
  split; [exact Hin |]. split; [exact Hperm |]. split.
  { pose proof (critical_sorted threats) as S.
    fold (AppMain.get_critical_threats threats) in S. fold served in S.
    assert (G : Forall (fun a => is_nan (enhanced_vulnerability a) = false)
                       served).
    { apply Forall_forall. intros a Ha.
      apply (Permutation_in _ (Permutation_sym Hperm)), filter_In in Ha.
      destruct Ha as [_ Ha]. apply is_critical_iff in Ha.
      eapply xge_not_nan. apply Ha. }
    apply descending_scores; assumption. }
  split; [exact Hsum |]. split; [exact Hsub |]. split.
  { intros Hlen Hc. rewrite Hsum. rewrite firstn_all2; [exact Hc |].
    rewrite <- (Permutation_length Hperm). exact Hlen. }
  split.
  { intro Hm.
    assert (N : ~ In c served).
    { rewrite Hin. intros (_ & [E | E] & _); congruence. }
    split; [exact N | intro H; apply N, Hsub, H]. }
  { intros Hc Hl Hs. apply Hin. split; [exact Hc |].
    split; [now right |]. rewrite Hs. reflexivity. }
Qed.

Lemma critical_counties_spec_witness :
  In (Samples.threat "Hendry" high 0.60)
     (AppMain.get_critical_threats Samples.eleven_critical).
Proof.
  apply (critical_counties_spec [] Samples.eleven_critical
           (Samples.threat "Hendry" high 0.60)).
  - apply in_or_app. right. now left.
  - reflexivity.
  - reflexivity.
Defined.

(** C7, the claim at a concrete input: with eleven critical counties the
    county at high threat and score exactly 0.60 is critical, yet it is
    not among the [critical_counties] of the summary. *)
Lemma summary_omits_a_critical_county :
  In (Samples.threat "Hendry" high 0.60) Samples.eleven_critical /\
  current_threat_level (Samples.threat "Hendry" high 0.60) = high /\
  xge (enhanced_vulnerability (Samples.threat "Hendry" high 0.60)) (Fin 0.6)
    = true /\
  ~ In (Samples.threat "Hendry" high 0.60)
       (critical_counties
          (generate_summary_stats [] Samples.eleven_critical)).
Proof.
  split; [apply in_or_app; right; now left |].
  split; [reflexivity |]. split; [reflexivity |].
  vm_compute. intros H.
  repeat (destruct H as [H | H]; [discriminate H |]). exact H.
Qed.

(** ** The real-time threat classifier *)

Lemma xlt_not_nan_l (a b : xfloat) : xlt a b = true -> is_nan a = false.
Proof. destruct a, b; simpl; congruence. Qed.

Lemma xlt_PInf_l (a : xfloat) : xlt PInf a = false.
Proof. destruct a; reflexivity. Qed.

Lemma map_result_Ok_In {A B : Type} (f : A -> result B) (l : list A)
  (bs : list B) (b : B) :
  map_result f l = Ok bs -> In b bs -> exists a, In a l /\ f a = Ok b.
Proof.
  revert bs. induction l as [| a l IH]; simpl; intros bs H Hb.
  - injection H as <-. destruct Hb.
  - destruct (f a) as [b0 |] eqn:Ea; simpl in H; [| discriminate].
    destruct (map_result f l) as [bs0 |]; simpl in H; [| discriminate].
    injection H as <-. destruct Hb as [<- | Hb].
    + exists a. split; [now left | exact Ea].
    + destruct (IH bs0 eq_refl Hb) as (a' & Ha' & E).
      exists a'. split; [now right | exact E].
Qed.

Lemma map_result_total {A B : Type} (f : A -> result B) (l : list A) :
  (forall a, In a l -> exists b, f a = Ok b) ->
  exists bs, map_result f l = Ok bs.
Proof.
  induction l as [| a l IH]; intro H; simpl; [eexists; reflexivity |].
  destruct (H a (or_introl eq_refl)) as (b & ->).
  destruct IH as (bs & ->); [intros x Hx; apply H; now right |].
  simpl. eexists; reflexivity.
Qed.

Lemma map_result_ext {A B : Type} (f g : A -> result B) (l : list A) :
  (forall a, In a l -> f a = g a) -> map_result f l = map_result g l.
Proof.
  induction l as [| a l IH]; intro H; simpl; [reflexivity |].
  rewrite (H a (or_introl eq_refl)), IH; [reflexivity |].
  intros x Hx. apply H. now right.
Qed.

Section ClassifierFacts.
Variable pf : string -> option xfloat.
Variable gc : xfloat -> xfloat -> xfloat -> xfloat -> xfloat.

(** The distance from a centroid to a storm. *)
Let dist (lat lon : xfloat) (s : storm) : result xfloat :=
  haversine_distance pf gc (PyFloat lat) (PyFloat lon)
                     (latitude s) (longitude s).

(** Invariant of the loop over the storms. *)
Lemma nearest_loop_spec (lat lon : xfloat) (storms : list storm) :
  forall (m0 : xfloat) (ns0 : option storm) (m : xfloat) (ns : option storm),
    is_nan m0 = false ->
    nearest_loop pf gc lat lon storms m0 ns0 = Ok (m, ns) ->
    is_nan m = false /\
    xlt m0 m = false /\
    (forall s, In s storms ->
               exists d, dist lat lon s = Ok d /\ xlt d m = false) /\
    ((m = m0 /\ ns = ns0) \/
     (exists s, In s storms /\ ns = Some s /\ dist lat lon s = Ok m
                /\ xlt m m0 = true)).
Proof.
  induction storms as [| s rest IH]; intros m0 ns0 m ns N H; simpl in H.
  - injection H as <- <-. split; [exact N |].
    split; [destruct m0; simpl in *; try reflexivity; try discriminate;
            apply Qltb_ge; lra |].
    split; [intros s [] | left; split; reflexivity].
  - fold (dist lat lon s) in H.
    destruct (dist lat lon s) as [d |] eqn:Ed; simpl in H; [| discriminate].
    destruct (xlt d m0) eqn:Elt.
    + pose proof (xlt_not_nan_l _ _ Elt) as Nd.
      destruct (IH d (Some s) m ns Nd H) as (Nm & Hle & Hall & Hsrc).
      split; [exact Nm |]. split.
      { (* m <= d < m0 *)
        apply xlt_asym in Elt.
        eapply xlt_ge_trans; [exact Nd | exact Elt | exact Hle]. }
      split.
      { intros s' [<- | Hs'].
        - exists d. split; [exact Ed | exact Hle].
        - apply Hall, Hs'. }
      right. destruct Hsrc as [[-> ->] | (s' & Hs' & -> & Hd & Hlt)].
      * exists s. repeat split; auto. now left.
      * exists s'. split; [now right |]. split; [reflexivity |].
        split; [exact Hd |].
        (* m < d < m0 *)
        destruct m as [p | | |], d as [q | | |], m0 as [r | | |];
          simpl in *; try congruence.
        apply Qltb_lt in Hlt, Elt. apply Qltb_lt. lra.
    + destruct (IH m0 ns0 m ns N H) as (Nm & Hle & Hall & Hsrc).
      split; [exact Nm |]. split; [exact Hle |]. split.
      { intros s' [<- | Hs'].
        - exists d. split; [exact Ed |].
          eapply xlt_ge_trans; [exact N | exact Elt | exact Hle].
        - apply Hall, Hs'. }
      destruct Hsrc as [H0 | (s' & Hs' & Hrest)]; [now left | right].
      exists s'. split; [now right | exact Hrest].
Qed.

Lemma determine_threat_level_bands (d : Q) (s : storm) :
  determine_threat_level (Fin d) (Some s) =
    if Qle_bool d 100 then extreme
    else if Qle_bool d 250 then high
    else if Qle_bool d 500 then moderate
    else if Qle_bool d 1000 then low
    else none.
Proof.
  assert (L : forall t, xle (Fin d) (Fin t) = Qle_bool d t).
  { intro t. unfold xle. simpl.
    destruct (Qle_bool d t) eqn:E.
    - apply Qle_bool_iff in E. apply orb_true_iff.
      destruct (Qeq_bool d t) eqn:E2; [now right | left].
      apply Qeq_bool_false in E2. apply Qltb_lt. lra.
    - apply orb_false_iff. split.
      + apply Qltb_ge. destruct (Qlt_le_dec t d) as [H | H]; [lra |].
        apply Qle_bool_iff in H. congruence.
      + apply Qeq_bool_false. intro H.
        assert (d <= t) by lra. apply Qle_bool_iff in H0. congruence. }
  unfold determine_threat_level, threshold. simpl threshold_in.
  rewrite !L. reflexivity.
Qed.

Lemma county_record_level (centroids : list (string * (xfloat * xfloat)))
  (storms : list storm) (county : row) (t : county_threat) :
  county_record pf gc centroids storms county = Ok (Some t) ->
  exists lat lon m ns,
    nearest_loop pf gc lat lon storms PInf None = Ok (m, ns) /\
    current_threat_level t = determine_threat_level m ns /\
    has_active_threat t = negb (threat_level_eqb (current_threat_level t) none) /\
    nearest_storm_distance_km t
      = (if xeq m PInf then None else Some (py_round m 1)).
Proof.
  unfold county_record.
  destruct (dict_get "NAME" county) as [[x | nm] |]; try discriminate.
  destruct (dict_get nm centroids) as [[lat lon] |]; try discriminate.
  destruct (nearest_loop pf gc lat lon storms PInf None) as [[m ns] |] eqn:E;
    simpl; [| discriminate].
  destruct (county_score pf county) as [x |]; simpl; [| discriminate].
  intro H. injection H as <-. exists lat, lon, m, ns. simpl.
  split; [exact E | repeat split; reflexivity].
Qed.

Lemma calculate_county_threats_In
  (counties : list row) (centroids : list (string * (xfloat * xfloat)))
  (storms : list storm) (threats : list county_threat) (t : county_threat) :
  calculate_county_threats pf gc counties centroids storms = Ok threats ->
  In t threats ->
  exists county,
    In county counties /\
    county_record pf gc (dict_of_zip centroids) storms county = Ok (Some t).
Proof.
  unfold calculate_county_threats.
  destruct (map_result _ counties) as [records |] eqn:E; simpl;
    [| discriminate].
  intro H. injection H as <-. intro Ht.
  apply in_flat_map in Ht. destruct Ht as ([t' |] & Hr & Ht); [| destruct Ht].
  destruct Ht as [<- | []].
  apply (map_result_Ok_In _ _ _ _ E Hr).
Qed.

(** C6.  For every record that the classifier produces, the threat
    level is a function of the least distance [m] from the county's
    centroid to an active storm: with no storm the level is [none];
    otherwise at most 100 km is [extreme], at most 250 [high], at most
    500 [moderate], at most 1000 [low] and anything beyond [none], the
    boundaries 100, 250, 500 and 1000 belonging to the nearer band,
    1001 being [none]. *)
Theorem threat_level_banding
  (counties : list row) (centroids : list (string * (xfloat * xfloat)))
  (storms : list storm) (threats : list county_threat) (t : county_threat)
  (Hrun : calculate_county_threats pf gc counties centroids storms
          = Ok threats)
  (Ht : In t threats) :
  exists lat lon m ns,
    nearest_loop pf gc lat lon storms PInf None = Ok (m, ns) /\
    (forall s, In s storms ->
       exists d, haversine_distance pf gc (PyFloat lat) (PyFloat lon)
                   (latitude s) (longitude s) = Ok d
                 /\ xlt d m = false) /\
    (forall s, ns = Some s ->
       In s storms /\
       haversine_distance pf gc (PyFloat lat) (PyFloat lon)
         (latitude s) (longitude s) = Ok m) /\
    (ns = None -> m = PInf) /\
    (storms = [] -> current_threat_level t = none) /\
    (m = PInf -> current_threat_level t = none) /\
    (forall d, m = Fin d ->
       (d <= 100 -> current_threat_level t = extreme) /\
       (100 < d <= 250 -> current_threat_level t = high) /\
       (250 < d <= 500 -> current_threat_level t = moderate) /\
       (500 < d <= 1000 -> current_threat_level t = low) /\
       (1000 < d -> current_threat_level t = none) /\
       (d == 100 -> current_threat_level t = extreme) /\
       (d == 250 -> current_threat_level t = high) /\
       (d == 500 -> current_threat_level t = moderate) /\
       (d == 1000 -> current_threat_level t = low) /\
       (d == 1001 -> current_threat_level t = none)).
Proof.
  destruct (calculate_county_threats_In _ _ _ _ _ Hrun Ht)
    as (county & _ & Hrec).
  destruct (county_record_level _ _ _ _ Hrec)
    as (lat & lon & m & ns & Hloop & Hlvl & _ & _).
  exists lat, lon, m, ns.
  destruct (nearest_loop_spec lat lon storms PInf None m ns eq_refl Hloop)
    as (Nm & _ & Hall & Hsrc).
  assert (Hsome : forall s, ns = Some s ->
            In s storms /\ dist lat lon s = Ok m /\ xlt m PInf = true).
  { intros s ->. destruct Hsrc as [[_ E] | (s' & Hs' & E & Hd & Hlt)];
      [discriminate |]. injection E as <-. auto. }
  assert (Hnone : ns = None -> m = PInf).
  { intros ->. destruct Hsrc as [[E _] | (s' & _ & E & _)];
      [exact E | discriminate]. }
  split; [exact Hloop |]. split; [exact Hall |].
  split; [intros s E; destruct (Hsome s E) as (? & ? & _); auto |].
  split; [exact Hnone |].
  split.
  { intros ->. simpl in Hloop. injection Hloop as <- <-. exact Hlvl. }
  split.
  { intros ->. rewrite Hlvl. destruct ns as [s |]; [| reflexivity].
    destruct (Hsome s eq_refl) as (_ & _ & F). discriminate F. }
  intros d ->. destruct ns as [s |]; [| specialize (Hnone eq_refl); discriminate].
  rewrite Hlvl, determine_threat_level_bands.
  assert (B : forall t, (Qle_bool d t = true <-> d <= t)
                        /\ (Qle_bool d t = false <-> t < d)).
  { intro x. split; [apply Qle_bool_iff |].
    split; intro H.
    - destruct (Qlt_le_dec x d) as [H' | H']; [exact H' |].
      apply Qle_bool_iff in H'. congruence.
    - destruct (Qle_bool d x) eqn:E; [| reflexivity].
      apply Qle_bool_iff in E. lra. }
  destruct (Qle_bool d 100) eqn:E1;
    [apply (B 100) in E1 | apply (B 100) in E1];
    (destruct (Qle_bool d 250) eqn:E2;
      [apply (B 250) in E2 | apply (B 250) in E2]);
    (destruct (Qle_bool d 500) eqn:E3;
      [apply (B 500) in E3 | apply (B 500) in E3]);
    (destruct (Qle_bool d 1000) eqn:E4;
      [apply (B 1000) in E4 | apply (B 1000) in E4]);
    repeat split; intros; try reflexivity; exfalso; lra.
Qed.
End ClassifierFacts.

Lemma threat_level_banding_witness :
  exists t,
    calculate_county_threats Samples.no_parse (Samples.fixed_distance 100)
      [Samples.lee_row] Samples.lee_centroid
      [Samples.storm_at (PyFloat (Fin 26)) (PyFloat (Fin (-82)))] = Ok [t]
    /\ current_threat_level t = extreme.
Proof.
  eexists. split; [vm_compute; reflexivity |].
  match goal with
  | |- current_threat_level ?t = _ =>
      destruct (threat_level_banding Samples.no_parse
                  (Samples.fixed_distance 100)
                  [Samples.lee_row] Samples.lee_centroid
                  [Samples.storm_at (PyFloat (Fin 26)) (PyFloat (Fin (-82)))]
                  [t] t eq_refl (or_introl eq_refl))
        as (lat & lon & m & ns & Hloop & _ & _ & _ & _ & _ & Hband)
  end.
  simpl in Hloop. injection Hloop as Em _.
  destruct (Hband 100 (eq_sym Em)) as (Hextreme & _).
  apply Hextreme. apply Qle_refl.
Defined.

(** ** Failure of the storm request *)

Lemma fetch_fails_empty (o : http_outcome) :
  request_fails o -> fetch_active_storms o = Ok [].
Proof.
  intros [-> | (status & body & -> & Hlo & Hhi)]; [reflexivity |].
  unfold fetch_active_storms.
  apply Nat.leb_le in Hlo. apply Nat.ltb_lt in Hhi.
  rewrite Hlo, Hhi. reflexivity.
Qed.

Lemma county_record_no_storm (pf : string -> option xfloat)
  (gc : xfloat -> xfloat -> xfloat -> xfloat -> xfloat)
  (centroids : list (string * (xfloat * xfloat))) (county : row) :
  readable_county pf county ->
  exists r, county_record pf gc centroids [] county = Ok r.
Proof.
  intros [Hname (x & Hx)]. unfold county_record.
  destruct (dict_get "NAME" county) as [[y | nm] |];
    [eexists; reflexivity | | congruence].
  destruct (dict_get nm centroids) as [[lat lon] |];
    [| eexists; reflexivity].
  simpl. rewrite Hx. simpl. eexists; reflexivity.
Qed.

Lemma count_level_all_none (l : threat_level) (ts : list county_threat) :
  l <> none ->
  Forall (fun t => current_threat_level t = none) ts ->
  count_level l ts = O.
Proof.
  intros Hl H. unfold count_level.
  induction H as [| t ts0 Ht _ IH]; simpl; [reflexivity |].
  rewrite Ht. destruct l; try congruence; simpl; exact IH.
Qed.

Lemma county_record_name (pf : string -> option xfloat)
  (gc : xfloat -> xfloat -> xfloat -> xfloat -> xfloat)
  (centroids : list (string * (xfloat * xfloat)))
  (storms : list storm) (county : row) (r : option county_threat) :
  county_record pf gc centroids storms county = Ok r ->
  match r with Some t => [NAME t] | None => [] end
  = match dict_get "NAME" county with
    | Some (CStr county_name) =>
        match dict_get county_name centroids with
        | Some _ => [county_name]
        | None => []
        end
    | _ => []
    end.
Proof.
  unfold county_record.
  destruct (dict_get "NAME" county) as [[x | nm] |]; try discriminate.
  - intro H. injection H as <-. reflexivity.
  - destruct (dict_get nm centroids) as [[lat lon] |].
    + destruct (nearest_loop pf gc lat lon storms PInf None) as [[m ns] |];
        cbn [bind]; [| discriminate].
      destruct (county_score pf county) as [x |]; cbn [bind];
        [| discriminate].
      intro H. injection H as <-. reflexivity.
    + intro H. injection H as <-. reflexivity.
Qed.

(** The classifier returns one record per county of the table that has
    a centroid, in the order of the table. *)
Lemma calculate_county_threats_names (pf : string -> option xfloat)
  (gc : xfloat -> xfloat -> xfloat -> xfloat -> xfloat)
  (counties : list row) (centroids : list (string * (xfloat * xfloat)))
  (storms : list storm) (threats : list county_threat) :
  calculate_county_threats pf gc counties centroids storms = Ok threats ->
  map NAME threats = counties_with_centroid centroids counties.
Proof.
  unfold calculate_county_threats, counties_with_centroid.
  revert threats. induction counties as [| county counties IH];
    intros threats H; simpl in H.
  - injection H as <-. reflexivity.
  - destruct (county_record pf gc (dict_of_zip centroids) storms county)
      as [r |] eqn:Er; cbn [bind] in H; [| discriminate].
    destruct (map_result _ counties) as [records |] eqn:Em;
      cbn [bind] in H; [| discriminate].
    injection H as <-. cbn [flat_map]. rewrite map_app.
    rewrite (IH _ eq_refl).
    rewrite <- (county_record_name _ _ _ _ _ _ Er).
    destruct r; reflexivity.
Qed.

(** C9.  When the request for the live storms fails, the fetch returns
    the empty list instead of raising; the run goes on as the classifier
    on zero storms; it files one record for every county of the table
    that has a centroid, each with threat level [none], no nearest storm
    and no active threat, so the summary counts every county analysed
    under [none]; and on a readable county table the run completes. *)
Theorem fetch_failure_degrades_to_no_threat
  (pf : string -> option xfloat)
  (gc : xfloat -> xfloat -> xfloat -> xfloat -> xfloat)
  (o : http_outcome) (counties : list row)
  (centroids : list (string * (xfloat * xfloat)))
  (Hfail : request_fails o) :
  fetch_active_storms o = Ok [] /\
  main pf gc o counties centroids
    = bind (calculate_county_threats pf gc counties centroids [])
           (fun ts => Ok (generate_summary_stats [] ts, ts)) /\
  (forall s ts,
     main pf gc o counties centroids = Ok (s, ts) ->
     active_storms_count s = O /\
     counties_under_threat s = O /\
     map NAME ts = counties_with_centroid centroids counties /\
     total_counties_analyzed s = length ts /\
     threat_distribution s none = length ts /\
     Forall (fun t => current_threat_level t = none /\
                      has_active_threat t = false /\
                      nearest_storm_distance_km t = None /\
                      nearest_storm_name t = PyNone /\
                      nearest_storm_category t = None) ts) /\
  (Forall (readable_county pf) counties ->
   exists s ts,
     main pf gc o counties centroids = Ok (s, ts) /\
     map NAME ts = counties_with_centroid centroids counties /\
     Forall (fun t => current_threat_level t = none) ts).
Proof.
  pose proof (fetch_fails_empty o Hfail) as Hfetch.
  assert (Hmain : main pf gc o counties centroids
    = bind (calculate_county_threats pf gc counties centroids [])
           (fun ts => Ok (generate_summary_stats [] ts, ts))).
  { unfold main. rewrite Hfetch. reflexivity. }
  split; [exact Hfetch |]. split; [exact Hmain |].
  assert (Hnone : forall ts,
            calculate_county_threats pf gc counties centroids [] = Ok ts ->
            Forall (fun t => current_threat_level t = none /\
                             has_active_threat t = false /\
                             nearest_storm_distance_km t = None /\
                             nearest_storm_name t = PyNone /\
                             nearest_storm_category t = None) ts).
  { intros ts Hts. apply Forall_forall. intros t Ht.
    destruct (calculate_county_threats_In _ _ _ _ _ _ _ Hts Ht)
      as (county & _ & Hrec).
    unfold county_record in Hrec.
    destruct (dict_get "NAME" county) as [[y | nm] |]; try discriminate.
    destruct (dict_get nm (dict_of_zip centroids)) as [[lat lon] |];
      try discriminate.
    simpl in Hrec.
    destruct (county_score pf county) as [x |]; simpl in Hrec;
      [| discriminate].
    injection Hrec as <-. simpl. repeat split; reflexivity. }
  assert (Hrun : forall s ts,
            main pf gc o counties centroids = Ok (s, ts) ->
            calculate_county_threats pf gc counties centroids [] = Ok ts /\
            s = generate_summary_stats [] ts).
  { intros s ts H. rewrite Hmain in H.
    destruct (calculate_county_threats pf gc counties centroids [])
      as [ts' |]; simpl in H; [| discriminate].
    injection H as <- <-. split; reflexivity. }
  split.
  - intros s ts H. destruct (Hrun s ts H) as (Hts & ->).
    specialize (Hnone ts Hts).
    assert (Hlvl : Forall (fun t => current_threat_level t = none) ts).
    { eapply Forall_impl; [| exact Hnone]. simpl. tauto. }
    split; [reflexivity |].
    split.
    { simpl.
      rewrite !(count_level_all_none _ _) by (discriminate || exact Hlvl).
      reflexivity. }
    split; [apply (calculate_county_threats_names _ _ _ _ _ _ Hts) |].
    split; [reflexivity |].
    split; [| exact Hnone].
    cbn [generate_summary_stats threat_distribution]. unfold count_level.
    clear - Hlvl. induction Hlvl as [| t ts Ht _ IH]; simpl; [reflexivity |].
    rewrite Ht. simpl. f_equal. exact IH.
  - intro Hread.
    assert (Hex : exists ts,
              calculate_county_threats pf gc counties centroids [] = Ok ts).
    { unfold calculate_county_threats.
      destruct (map_result_total
                  (county_record pf gc (dict_of_zip centroids) []) counties)
        as (records & ->).
      - intros county Hc. apply county_record_no_storm.
        rewrite Forall_forall in Hread. apply Hread, Hc.
      - simpl. eexists. reflexivity. }
    destruct Hex as (ts & Hts).
    exists (generate_summary_stats [] ts), ts.
    split; [rewrite Hmain, Hts; reflexivity |].
    split; [apply (calculate_county_threats_names _ _ _ _ _ _ Hts) |].
    eapply Forall_impl; [| exact (Hnone ts Hts)]. simpl. tauto.
Qed.

Lemma fetch_failure_degrades_to_no_threat_witness :
  exists s t,
    main Samples.no_parse (Samples.fixed_distance 100)
         (Responded 503 None) [Samples.lee_row] Samples.lee_centroid
    = Ok (s, [t]) /\
    NAME t = "Lee"%string /\
    current_threat_level t = none.
Proof.
  assert (Hfail : request_fails (Responded 503 None)).
  { right. exists 503%nat, None. split; [reflexivity | lia]. }
  assert (Hread : Forall (readable_county Samples.no_parse) [Samples.lee_row]).
  { constructor; [| constructor].
    split; [discriminate | exists (Fin 0.7); reflexivity]. }
  destruct (fetch_failure_degrades_to_no_threat
              Samples.no_parse (Samples.fixed_distance 100)
              (Responded 503 None) [Samples.lee_row] Samples.lee_centroid
              Hfail) as (_ & _ & _ & Hdone).
  destruct (Hdone Hread) as (s & ts & Hmain & Hnames & Hlvl).
  destruct ts as [| t [| t' ts]]; try discriminate Hnames.
  exists s, t. split; [exact Hmain |].
  split; [injection Hnames as ->; reflexivity |].
  inversion Hlvl; assumption.
Defined.

(** ** Storms with malformed coordinates *)

Lemma py_float_cases (pf : string -> option xfloat) (v : pyval) :
  (exists x, py_float pf v = Ok x) \/ conversion_fails pf v \/
  py_float pf v = Raise OverflowError.
Proof.
  unfold conversion_fails.
  destruct v as [| b | z | x | s | |]; simpl; eauto.
  - destruct (Z.abs z <? float_int_limit)%Z; eauto.
  - destruct (pf s); eauto.
Qed.

Section MalformedStorms.
Variable pf : string -> option xfloat.
Variable gc : xfloat -> xfloat -> xfloat -> xfloat -> xfloat.

Lemma haversine_total (a b c d : pyval) :
  (forall v, In v [a; b; c; d] -> py_float pf v <> Raise OverflowError) ->
  exists x, haversine_distance pf gc a b c d = Ok x.
Proof.
  intro H. unfold haversine_distance.
  assert (Ha := H a (or_introl eq_refl)).
  assert (Hb := H b (or_intror (or_introl eq_refl))).
  assert (Hc := H c (or_intror (or_intror (or_introl eq_refl)))).
  assert (Hd := H d (or_intror (or_intror (or_intror (or_introl eq_refl))))).
  destruct (py_float_cases pf a) as [(x & Ea) | [[Ea | Ea] | Ea]];
    rewrite Ea in *; simpl; eauto; try congruence.
  destruct (py_float_cases pf b) as [(y & Eb) | [[Eb | Eb] | Eb]];
    rewrite Eb in *; simpl; eauto; try congruence.
  destruct (py_float_cases pf c) as [(z & Ec) | [[Ec | Ec] | Ec]];
    rewrite Ec in *; simpl; eauto; try congruence.
  destruct (py_float_cases pf d) as [(w & Ed) | [[Ed | Ed] | Ed]];
    rewrite Ed in *; simpl; eauto; try congruence.
Qed.

Lemma haversine_inf (a b c d : pyval) :
  (forall v, In v [a; b; c; d] -> py_float pf v <> Raise OverflowError) ->
  (exists v, In v [a; b; c; d] /\ conversion_fails pf v) ->
  haversine_distance pf gc a b c d = Ok PInf.
Proof.
  intros H (v & Hv & Hf). unfold haversine_distance.
  assert (Ha := H a (or_introl eq_refl)).
  assert (Hb := H b (or_intror (or_introl eq_refl))).
  assert (Hc := H c (or_intror (or_intror (or_introl eq_refl)))).
  assert (Hd := H d (or_intror (or_intror (or_intror (or_introl eq_refl))))).
  assert (F : conversion_fails pf a \/ conversion_fails pf b \/
              conversion_fails pf c \/ conversion_fails pf d).
  { destruct Hv as [<- | [<- | [<- | [<- | []]]]]; tauto. }
  clear v Hv Hf. unfold conversion_fails in F.
  destruct (py_float_cases pf a) as [(x & Ea) | [[Ea | Ea] | Ea]];
    rewrite Ea in *; simpl; try reflexivity; try congruence.
  destruct (py_float_cases pf b) as [(y & Eb) | [[Eb | Eb] | Eb]];
    rewrite Eb in *; simpl; try reflexivity; try congruence.
  destruct (py_float_cases pf c) as [(z & Ec) | [[Ec | Ec] | Ec]];
    rewrite Ec in *; simpl; try reflexivity; try congruence.
  destruct (py_float_cases pf d) as [(w & Ed) | [[Ed | Ed] | Ed]];
    rewrite Ed in *; simpl; try reflexivity; try congruence.
  exfalso. destruct F as [[F | F] | [[F | F] | [[F | F] | [F | F]]]];
    discriminate F.
Qed.

Lemma haversine_malformed (s : storm) (lat lon : xfloat) :
  malformed pf s ->
  haversine_distance pf gc (PyFloat lat) (PyFloat lon)
                     (latitude s) (longitude s) = Ok PInf.
Proof.
  unfold haversine_distance, malformed, conversion_fails. simpl.
  intros [[E | E] | [(x & Ex) [E | E]]];
    rewrite ?Ex, E; reflexivity.
Qed.

Lemma nearest_loop_skip (s : storm) (lat lon : xfloat)
  (pre post : list storm) :
  malformed pf s ->
  forall m ns,
    nearest_loop pf gc lat lon (pre ++ s :: post) m ns
    = nearest_loop pf gc lat lon (pre ++ post) m ns.
Proof.
  intro M. induction pre as [| p pre IH]; intros m ns; simpl.
  - rewrite (haversine_malformed s lat lon M). cbn [bind].
    rewrite xlt_PInf_l. reflexivity.
  - destruct (haversine_distance pf gc (PyFloat lat) (PyFloat lon)
                (latitude p) (longitude p)) as [d |]; simpl;
      [| reflexivity].
    destruct (xlt d m); apply IH.
Qed.

(** C10 (as amended).  [haversine_distance] returns a value unless the
    conversion of an argument overflows; when no argument overflows and
    one of them cannot be converted -- [None], for one -- the value is
    [+inf].  A storm whose position cannot be converted is at distance
    [+inf] from every county, and removing it from the list of active
    storms changes nothing in the outcome of the classifier: it never
    becomes the nearest storm and cannot change a threat level. *)
Theorem haversine_distance_malformed
  (a b c d : pyval) (s : storm)
  (counties : list row) (centroids : list (string * (xfloat * xfloat)))
  (pre post : list storm) :
  ((forall v, In v [a; b; c; d] -> py_float pf v <> Raise OverflowError) ->
     (exists x, haversine_distance pf gc a b c d = Ok x) /\
     ((exists v, In v [a; b; c; d] /\ conversion_fails pf v) ->
        haversine_distance pf gc a b c d = Ok PInf)) /\
  (forall lat lon,
     haversine_distance pf gc (PyFloat lat) (PyFloat lon) PyNone d
     = Ok PInf) /\
  (malformed pf s ->
     (forall lat lon,
        haversine_distance pf gc (PyFloat lat) (PyFloat lon)
                           (latitude s) (longitude s) = Ok PInf) /\
     calculate_county_threats pf gc counties centroids (pre ++ s :: post)
     = calculate_county_threats pf gc counties centroids (pre ++ post)).
Proof.
  split; [| split].
  - intro H. split; [apply haversine_total, H | apply haversine_inf, H].
  - reflexivity.
  - intro M. split; [intros; apply haversine_malformed, M |].
    unfold calculate_county_threats. f_equal.
    apply map_result_ext. intros county _.
    unfold county_record.
    destruct (dict_get "NAME" county) as [[y | nm] |]; try reflexivity.
    destruct (dict_get nm (dict_of_zip centroids)) as [[lat lon] |];
      try reflexivity.
    rewrite (nearest_loop_skip s lat lon pre post M). reflexivity.
Qed.
End MalformedStorms.

Lemma haversine_distance_malformed_witness :
  calculate_county_threats Samples.no_parse (Samples.fixed_distance 100)
    [Samples.lee_row] Samples.lee_centroid
    ([] ++ Samples.storm_at PyNone (PyStr "82.0W") :: [])
  = calculate_county_threats Samples.no_parse (Samples.fixed_distance 100)
      [Samples.lee_row] Samples.lee_centroid ([] ++ []).
Proof.
  apply (haversine_distance_malformed
           Samples.no_parse (Samples.fixed_distance 100)
           PyNone PyNone PyNone PyNone
           (Samples.storm_at PyNone (PyStr "82.0W"))
           [Samples.lee_row] Samples.lee_centroid [] []).
  left. left. reflexivity.
Defined.

(** C10, the claim at a concrete input: an integer latitude beyond the
    range of a double makes [haversine_distance] raise [OverflowError],
    and the classifier with it. *)
Lemma haversine_distance_raises_on_huge_integer :
  haversine_distance Samples.no_parse (Samples.fixed_distance 100)
    (PyFloat (Fin 26.6)) (PyFloat (Fin (-81.8)))
    (PyInt (10 ^ 400)) (PyInt (-82))
  = Raise OverflowError /\
  calculate_county_threats Samples.no_parse (Samples.fixed_distance 100)
    [Samples.lee_row] Samples.lee_centroid
    [Samples.storm_at (PyInt (10 ^ 400)) (PyInt (-82))]
  = Raise OverflowError.
Proof. split; vm_compute; reflexivity. Qed.

(** ** The composite scores *)

Lemma nth_map_seq {A : Type} (f : nat -> A) (n i : nat) (d : A) :
  (i < n)%nat -> nth i (map f (seq 0 n)) d = f i.
Proof.
  intro H. rewrite (nth_indep _ d (f 0%nat))
    by (rewrite length_map, length_seq; exact H).
  rewrite (map_nth f (seq 0 n) 0%nat i), seq_nth by exact H. reflexivity.
Qed.

Lemma map_nth_seq {A : Type} (l : list A) (d : A) (n : nat) :
  n = length l -> map (fun i => nth i l d) (seq 0 n) = l.
Proof.
  intros ->. apply (nth_ext _ _ d d).
  - rewrite length_map, length_seq. reflexivity.
  - intros i Hi. rewrite length_map, length_seq in Hi.
    rewrite (nth_indep _ d (nth 0 l d)) by (rewrite length_map, length_seq; exact Hi).
    rewrite (map_nth (fun i => nth i l d) (seq 0 (length l)) 0%nat i).
    rewrite seq_nth by exact Hi. reflexivity.
Qed.

Lemma clip_in_unit (x : xfloat) :
  is_nan x = false -> in_unit (clip 0 1 x) = true.
Proof.
  destruct x as [q | | |]; simpl; try congruence; intros _;
    try reflexivity.
  unfold in_unit, xle. simpl.
  assert (H0 : 0 <= Qmin 1 (Qmax 0 q)).
  { apply Q.min_glb; [lra | apply Q.le_max_l]. }
  assert (H1 : Qmin 1 (Qmax 0 q) <= 1) by apply Q.le_min_l.
  apply andb_true_iff. split; apply orb_true_iff.
  - destruct (Qeq_bool 0 (Qmin 1 (Qmax 0 q))) eqn:E; [now right | left].
    apply Qeq_bool_false in E. apply Qltb_lt. lra.
  - destruct (Qeq_bool (Qmin 1 (Qmax 0 q)) 1) eqn:E; [now right | left].
    apply Qeq_bool_false in E. apply Qltb_lt. lra.
Qed.

Lemma clip_nan_or_unit (x : xfloat) :
  clip 0 1 x = NaN \/ in_unit (clip 0 1 x) = true.
Proof.
  destruct (is_nan x) eqn:E.
  - destruct x; try discriminate. now left.
  - right. apply clip_in_unit, E.
Qed.

Lemma clip_id_on_unit (q : Q) :
  0 <= q <= 1 -> exists r, clip 0 1 (Fin q) = Fin r /\ r == q.
Proof.
  intros [H0 H1]. eexists. split; [reflexivity |].
  rewrite (Q.max_r 0 q H0). apply Q.min_r. exact H1.
Qed.

(** The clipped scores of the three scripts that clip are [nan] or in
    [0,1]. *)
Lemma base_scores_clipped names POP gdp_df svi_df hr rnd c :
  In c (ProcessData.calculate_vulnerability_scores
          names POP gdp_df svi_df hr rnd) ->
  ProcessData.vulnerability_score c = NaN \/
  in_unit (ProcessData.vulnerability_score c) = true.
Proof.
  unfold ProcessData.calculate_vulnerability_scores. intro H.
  apply in_map_iff in H. destruct H as (i & <- & _). simpl.
  apply clip_nan_or_unit.
Qed.

Lemma noaa_scores_clipped risk_df gdf c :
  In c (NoaaRisk.update_vulnerability_with_noaa_risk risk_df gdf) ->
  ProcessData.vulnerability_score c = NaN \/
  in_unit (ProcessData.vulnerability_score c) = true.
Proof.
  unfold NoaaRisk.update_vulnerability_with_noaa_risk. intro H.
  apply in_map_iff in H. destruct H as (c0 & <- & _). simpl.
  apply clip_nan_or_unit.
Qed.

Lemma statista_scores_clipped counties statista_df e :
  In e (Statista.calculate_enhanced_vulnerability counties statista_df) ->
  Statista.enhanced_vulnerability e = NaN \/
  in_unit (Statista.enhanced_vulnerability e) = true.
Proof.
  unfold Statista.calculate_enhanced_vulnerability. intro H.
  apply in_map_iff in H. destruct H as (cf & <- & _). simpl.
  apply clip_nan_or_unit.
Qed.

(** C1, at two failing inputs.  The scorer of [integrate_data.py] does
    not clamp: for a row whose social-vulnerability percentile is the
    value -999 it returns -399.1067, outside [0,1].  The Statista scorer
    clamps, but divides by [max - min] of the home values without the
    guard of [normalize_score]: when all counties have the same home value
    every enhanced score is [nan], which the clamp leaves as it is. *)
Theorem scores_outside_unit_interval :
  IntegrateData.calculate_vulnerability_score Samples.row_without_svi_data
    = Ok (Fin (-399.1067)) /\
  in_unit (Fin (-399.1067)) = false /\
  map Statista.enhanced_vulnerability
      (Statista.calculate_enhanced_vulnerability Samples.two_scored [])
    = [NaN; NaN] /\
  in_unit NaN = false.
Proof.
  repeat split; vm_compute; reflexivity.
Qed.

Ltac exact_arithmetic :=
  repeat (cbn [xadd xsub xopp xmul]; rewrite finite_small by lra).

Lemma weighted_sum_fin (h s e : Q) :
  0 <= h <= 1 -> 0 <= s <= 1 -> 0 <= e <= 1 ->
  ProcessData.weighted_sum (Fin h) (Fin s) (Fin e)
  = Fin (0.40 * h + 0.30 * s + 0.30 * e).
Proof.
  intros Hh Hs He. unfold ProcessData.weighted_sum.
  exact_arithmetic. reflexivity.
Qed.

Lemma base_output_columns names POP gdp_df svi_df hr rnd :
  let out := ProcessData.calculate_vulnerability_scores
               names POP gdp_df svi_df hr rnd in
  length out = length names /\
  map ProcessData.economic_vulnerability out
    = ProcessData.normalize_score (map ProcessData.gdp_per_capita out) true.
Proof.
  unfold ProcessData.calculate_vulnerability_scores. cbv zeta.
  split; [rewrite length_map, length_seq; reflexivity |].
  rewrite !map_map. simpl.
  set (P := map (fun i => xdiv _ _) (seq 0 (length names))).
  assert (LP : length P = length names)
    by (unfold P; rewrite length_map, length_seq; reflexivity).
  rewrite (map_nth_seq P NaN) by (symmetry; exact LP).
  apply map_nth_seq.
  rewrite normalize_score_length. symmetry. exact LP.
Qed.

Lemma score_formula_in_range (score h s e : xfloat) :
  score = clip 0 1 (ProcessData.weighted_sum h s e) ->
  forall qh qs qe,
    h = Fin qh -> s = Fin qs -> e = Fin qe ->
    0 <= qh <= 1 -> 0 <= qs <= 1 -> 0 <= qe <= 1 ->
    exists r, score = Fin r /\ 0 <= r <= 1 /\
              Qabs (r - (0.40 * qh + 0.30 * qs + 0.30 * qe))
                <= 1 # 1000000000.
Proof.
  intros -> qh qs qe -> -> -> Hh Hs He.
  rewrite weighted_sum_fin by assumption.
  destruct (clip_id_on_unit (0.40 * qh + 0.30 * qs + 0.30 * qe))
    as (r & Hr & Er); [lra |].
  exists r. split; [exact Hr |]. split; [lra | apply Qabs_of_eq, Er].
Qed.

(** *** The scorer of [integrate_data.py] *)

Lemma round_half_even_near (y : Q) :
  inject_Z (round_half_even y) - y <= 1 # 2 /\
  y - inject_Z (round_half_even y) <= 1 # 2.
Proof.
  unfold round_half_even.
  pose proof (Qfloor_le y) as Hlo.
  pose proof (Qlt_floor y) as Hhi.
  rewrite inject_Z_plus in Hhi. change (inject_Z 1) with 1 in Hhi.
  destruct (Qcompare_spec (y - inject_Z (Qfloor y)) (1 # 2)) as [E | L | G].
  - destruct (Z.even (Qfloor y)); [lra |].
    rewrite inject_Z_plus. change (inject_Z 1) with 1. lra.
  - lra.
  - rewrite inject_Z_plus. change (inject_Z 1) with 1. lra.
Qed.

Lemma round_half_even_between (y : Q) (a b : Z) :
  inject_Z a <= y -> y <= inject_Z b ->
  (a <= round_half_even y <= b)%Z.
Proof.
  intros Ha Hb. unfold round_half_even.
  assert (Hfa : (a <= Qfloor y)%Z).
  { rewrite <- (Qfloor_Z a). apply Qfloor_resp_le, Ha. }
  assert (Hfb : (Qfloor y <= b)%Z).
  { rewrite <- (Qfloor_Z b). apply Qfloor_resp_le, Hb. }
  pose proof (Qfloor_le y) as Hlo.
  assert (Hup : y - inject_Z (Qfloor y) > 0 -> (Qfloor y + 1 <= b)%Z).
  { intro Hpos. destruct (Z.eq_dec (Qfloor y) b) as [E | N]; [| lia].
    rewrite E in Hpos. lra. }
  destruct (Qcompare_spec (y - inject_Z (Qfloor y)) (1 # 2)) as [E | L | G].
  - destruct (Z.even (Qfloor y)); [lia |].
    split; [lia |]. apply Hup. lra.
  - lia.
  - split; [lia |]. apply Hup. lra.
Qed.

Lemma Qround_digits_near (x : Q) (n : nat) :
  Qabs (Qround_digits x n - x) <= 1 / (2 * inject_Z (10 ^ Z.of_nat n)).
Proof.
  unfold Qround_digits.
  set (s := inject_Z (10 ^ Z.of_nat n)).
  assert (Hs : 0 < s).
  { unfold s. change 0 with (inject_Z 0). rewrite <- Zlt_Qlt.
    apply Z.pow_pos_nonneg; lia. }
  destruct (round_half_even_near (x * s)) as [H1 H2].
  set (r := inject_Z (round_half_even (x * s))) in *.
  assert (E : r / s - x == (r - x * s) / s) by (field; lra).
  rewrite E. clear E.
  apply Qabs_Qle_condition. split.
  - apply Qle_shift_div_l; [exact Hs |].
    assert (X : - (1 / (2 * s)) * s == - (1 # 2)) by (field; lra).
    rewrite X. lra.
  - apply Qle_shift_div_r; [exact Hs |].
    assert (X : 1 / (2 * s) * s == 1 # 2) by (field; lra).
    rewrite X. lra.
Qed.

Lemma Qround_digits_unit (x : Q) (n : nat) :
  0 <= x <= 1 -> 0 <= Qround_digits x n <= 1.
Proof.
  intros [H0 H1]. unfold Qround_digits.
  set (s := (10 ^ Z.of_nat n)%Z).
  assert (Hs : (0 < s)%Z) by (apply Z.pow_pos_nonneg; lia).
  assert (HsQ : 0 < inject_Z s).
  { change 0 with (inject_Z 0). rewrite <- Zlt_Qlt. exact Hs. }
  destruct (round_half_even_between (x * inject_Z s) 0 s) as [Ra Rb].
  - change (inject_Z 0) with 0. nra.
  - nra.
  - split.
    + apply Qle_shift_div_l; [exact HsQ |]. rewrite Qmult_0_l.
      change 0 with (inject_Z 0). rewrite <- Zle_Qle. exact Ra.
    + apply Qle_shift_div_r; [exact HsQ |]. rewrite Qmult_1_l.
      rewrite <- Zle_Qle. exact Rb.
Qed.

Lemma risk_of_range (key : cell) :
  0 <= IntegrateData.risk_of key <= 9 # 10.
Proof.
  destruct key as [x | s]; simpl; [lra |].
  repeat match goal with
         | |- context [if ?b then _ else _] => destruct b
         end; simpl; lra.
Qed.

(** The economic term for a GDP per capita that is a finite number and
    not negative. *)
Lemma economic_score_fin (g : Q) :
  0 <= g < overflow_limit ->
  exists econ,
    xsub (Fin 1) (py_min (xdiv (Fin g) (Fin 150000)) (Fin 1)) = Fin econ /\
    econ == 1 - Qmin (g / 150000) 1 /\ 0 <= econ <= 1.
Proof.
  intros [H0 H1]. pose proof overflow_limit_large as Hbig.
  assert (Hq : 0 <= g / 150000) by (apply Qle_shift_div_l; lra).
  assert (Hq' : g / 150000 <= g) by (apply Qle_shift_div_r; lra).
  cbn [xdiv].
  assert (D : Qeq_bool 150000 0 = false) by reflexivity.
  rewrite D, (finite_fin (g / 150000)) by lra.
  unfold py_min. cbn [xlt].
  destruct (Qltb 1 (g / 150000)) eqn:E.
  - apply Qltb_lt in E. exists (1 + - 1). split; [reflexivity |].
    rewrite Q.min_r by lra. lra.
  - apply Qltb_ge in E. cbn [xsub xopp xadd].
    rewrite finite_small by lra.
    exists (1 + - (g / 150000)). split; [reflexivity |].
    rewrite Q.min_l by lra. lra.
Qed.

(** On a row whose percentile is in [0,1] and whose GDP per capita is a
    finite number that is not negative, the scorer returns the weighted
    sum [0.4 svi + 0.4 risk + 0.2 econ] rounded to four decimals. *)
Lemma integrate_score_formula (r : row) (svi g : Q) :
  get r "RPL_THEMES" (CNum (Fin 0.5)) = CNum (Fin svi) ->
  get r "GDP_PER_CAPITA" (CNum (Fin 50000)) = CNum (Fin g) ->
  0 <= svi <= 1 -> 0 <= g < overflow_limit ->
  exists q,
    IntegrateData.calculate_vulnerability_score r = Ok (Fin q) /\
    Qabs (q - (0.4 * svi
               + 0.4 * IntegrateData.risk_of
                         (get r "HRCN_RISKR" (CStr "Relatively Moderate"))
               + 0.2 * (1 - Qmin (g / 150000) 1)))
      <= 0.0001 /\
    0 <= q <= 1.
Proof.
  intros Hsvi Hgdp Hs Hg.
  unfold IntegrateData.calculate_vulnerability_score.
  rewrite Hsvi, Hgdp. cbn [number bind].
  destruct (economic_score_fin g Hg) as (econ & -> & Hecon & He).
  pose proof (risk_of_range
                (get r "HRCN_RISKR" (CStr "Relatively Moderate"))) as Hr.
  set (risk := IntegrateData.risk_of _) in *.
  exact_arithmetic. cbn [py_round].
  eexists. split; [reflexivity |]. split.
  - pose proof (Qround_digits_near
                  (svi * 0.4 + risk * 0.4 + econ * 0.2) 4) as Hn.
    assert (Hb : 1 / (2 * inject_Z (10 ^ Z.of_nat 4)) == 0.00005)
      by reflexivity.
    rewrite Hb in Hn.
    assert (Eabs :
      Qabs (Qround_digits (svi * 0.4 + risk * 0.4 + econ * 0.2) 4
            - (0.4 * svi + 0.4 * risk + 0.2 * (1 - Qmin (g / 150000) 1)))
      == Qabs (Qround_digits (svi * 0.4 + risk * 0.4 + econ * 0.2) 4
               - (svi * 0.4 + risk * 0.4 + econ * 0.2))).
    { apply Qabs_wd.
      generalize (Qround_digits (svi * 0.4 + risk * 0.4 + econ * 0.2) 4).
      intro z. lra. }
    rewrite Eabs. lra.
  - apply Qround_digits_unit. lra.
Qed.

(** C5 (as amended).  In the base scorer and in the NOAA update the
    composite score of every row is the weighted sum
    [0.40 hurricane_risk + 0.30 social_vulnerability
     + 0.30 economic_vulnerability] clamped to [0,1]; whenever the three
    sub-metrics are numbers in [0,1] the score is a number in [0,1] that
    is that sum within rounding.  The economic vulnerability column of
    the base scorer is the inverse-normalized GDP-per-capita column,
    itself [gdp * 1000000 / population].  The scorer of
    [integrate_data.py] is another formula: on a row with a percentile in
    [0,1] and a GDP per capita that is not negative it returns, to four
    decimals,
    [0.4 svi + 0.4 risk + 0.2 (1 - min(gdp_per_capita / 150000, 1))]. *)
Theorem base_score_is_clamped_weighted_sum
  (names : list string) (POP : option (list xfloat))
  (gdp_df : list (string * xfloat)) (svi_df : option (list (string * xfloat)))
  (hr : list xfloat) (rnd : ProcessData.draws)
  (risk_df : list (string * xfloat)) (gdf : list ProcessData.county)
  (c : ProcessData.county)
  (Hc : In c (ProcessData.calculate_vulnerability_scores
                names POP gdp_df svi_df hr rnd)
        \/ In c (NoaaRisk.update_vulnerability_with_noaa_risk risk_df gdf)) :
  ProcessData.vulnerability_score c
    = clip 0 1 (ProcessData.weighted_sum
                  (ProcessData.hurricane_risk c)
                  (ProcessData.social_vulnerability c)
                  (ProcessData.economic_vulnerability c)) /\
  (forall qh qs qe,
     ProcessData.hurricane_risk c = Fin qh ->
     ProcessData.social_vulnerability c = Fin qs ->
     ProcessData.economic_vulnerability c = Fin qe ->
     0 <= qh <= 1 -> 0 <= qs <= 1 -> 0 <= qe <= 1 ->
     exists r, ProcessData.vulnerability_score c = Fin r /\
               0 <= r <= 1 /\
               Qabs (r - (0.40 * qh + 0.30 * qs + 0.30 * qe))
                 <= 1 # 1000000000) /\
  map ProcessData.economic_vulnerability
      (ProcessData.calculate_vulnerability_scores
         names POP gdp_df svi_df hr rnd)
    = ProcessData.normalize_score
        (map ProcessData.gdp_per_capita
             (ProcessData.calculate_vulnerability_scores
                names POP gdp_df svi_df hr rnd)) true /\
  Forall (fun c' => ProcessData.gdp_per_capita c'
                    = xdiv (xmul (ProcessData.gdp c') (Fin 1000000))
                           (ProcessData.population c'))
         (ProcessData.calculate_vulnerability_scores
            names POP gdp_df svi_df hr rnd) /\
  (forall (r : row) (svi g : Q),
     get r "RPL_THEMES" (CNum (Fin 0.5)) = CNum (Fin svi) ->
     get r "GDP_PER_CAPITA" (CNum (Fin 50000)) = CNum (Fin g) ->
     0 <= svi <= 1 -> 0 <= g < overflow_limit ->
     exists q,
       IntegrateData.calculate_vulnerability_score r = Ok (Fin q) /\
       Qabs (q - (0.4 * svi
                  + 0.4 * IntegrateData.risk_of
                            (get r "HRCN_RISKR" (CStr "Relatively Moderate"))
                  + 0.2 * (1 - Qmin (g / 150000) 1)))
         <= 0.0001).
Proof.
  assert (Hclip : ProcessData.vulnerability_score c
    = clip 0 1 (ProcessData.weighted_sum
                  (ProcessData.hurricane_risk c)
                  (ProcessData.social_vulnerability c)
                  (ProcessData.economic_vulnerability c))).
  { destruct Hc as [Hc | Hc].
    - unfold ProcessData.calculate_vulnerability_scores in Hc.
      apply in_map_iff in Hc. destruct Hc as (i & <- & _). reflexivity.
    - unfold NoaaRisk.update_vulnerability_with_noaa_risk in Hc.
      apply in_map_iff in Hc. destruct Hc as (c0 & <- & _). reflexivity. }
  split; [exact Hclip |]. split.
  { intros qh qs qe Eh Es Ee. eapply score_formula_in_range; eauto. }
  split; [apply base_output_columns |].
  split.
  { apply Forall_forall. intros c' Hc'.
    unfold ProcessData.calculate_vulnerability_scores in Hc'.
    apply in_map_iff in Hc'. destruct Hc' as (i & <- & Hi).
    apply in_seq in Hi. simpl.
    set (P := map (fun i => xdiv _ _) (seq 0 (length names))).
    unfold P. rewrite nth_map_seq by lia. reflexivity. }
  intros r svi g Hsvi Hgdp Hs Hg.
  destruct (integrate_score_formula r svi g Hsvi Hgdp Hs Hg)
    as (q & Hq & Hnear & _).
  exists q. split; assumption.
Qed.

Lemma base_score_is_clamped_weighted_sum_witness :
  exists r,
    ProcessData.vulnerability_score
      (nth 1 (ProcessData.calculate_vulnerability_scores
                Samples.two_names Samples.two_pop Samples.two_gdp
                Samples.two_svi Samples.two_risk Samples.no_draws)
           (ProcessData.Build_county EmptyString NaN NaN NaN NaN NaN NaN NaN EmptyString))
    = Fin r /\
    Qabs (r - 0.46) <= 1 # 1000000000.
Proof.
  assert (Hc : In (nth 1 (ProcessData.calculate_vulnerability_scores
                Samples.two_names Samples.two_pop Samples.two_gdp
                Samples.two_svi Samples.two_risk Samples.no_draws)
           (ProcessData.Build_county EmptyString NaN NaN NaN NaN NaN NaN NaN EmptyString))
          (ProcessData.calculate_vulnerability_scores
                Samples.two_names Samples.two_pop Samples.two_gdp
                Samples.two_svi Samples.two_risk Samples.no_draws)).
  { right. left. reflexivity. }
  destruct (proj1 (proj2 (base_score_is_clamped_weighted_sum
            Samples.two_names Samples.two_pop Samples.two_gdp
            Samples.two_svi Samples.two_risk Samples.no_draws [] [] _
            (or_introl Hc)))
          0.7 0.6 (0 # 211470000000000000000000000)
          eq_refl eq_refl eq_refl) as (r & Hr & _ & Er); try lra.
  exists r. split; [exact Hr |].
  assert (E : 0.40 * 0.7 + 0.30 * 0.6
              + 0.30 * (0 # 211470000000000000000000000) == 0.46)
    by reflexivity.
  rewrite E in Er. exact Er.
Defined.

(** C5, the claim at a concrete input of [integrate_data.py].  For a row
    with percentile 1.0, rating Very Low (0.1) and GDP per capita 150000
    (economic term 0) the scorer returns [0.4 * 1.0 + 0.4 * 0.1 + 0.2 * 0
    = 0.44]; the base formula on the same three sub-metrics,
    [0.40 * 0.1 + 0.30 * 1.0 + 0.30 * 0], is 0.34 within rounding, and
    not the value the scorer returns. *)
Theorem integrate_score_is_another_formula :
  IntegrateData.calculate_vulnerability_score Samples.row_with_low_rating
    = Ok (Fin 0.4400) /\
  exists w,
    ProcessData.weighted_sum (Fin 0.1) (Fin 1) (Fin 0) = Fin w /\
    Qabs (w - 0.34) <= 1 # 1000000000 /\
    ~ same_value (Fin 0.4400) (Fin w).
Proof.
  split; [vm_compute; reflexivity |].
  eexists. split; [vm_compute; reflexivity |].
  split; [vm_compute; discriminate |].
  intro H. inversion H; subst.
  match goal with E : _ == _ |- _ => vm_compute in E; discriminate end.
Qed.

(** ** Joins and fallback values *)

Lemma flat_map_length_one {A B : Type} (f : A -> list B) (l : list A) :
  (forall a, In a l -> length (f a) = 1%nat) ->
  length (flat_map f l) = length l.
Proof.
  induction l as [| a l IH]; intro H; simpl; [reflexivity |].
  rewrite length_app, (H a (or_introl eq_refl)), IH; [reflexivity |].
  intros x Hx. apply H. now right.
Qed.

(** A left join keeps the number of rows when no left row has two
    partners. *)
Lemma merge_left_row_count (left right : frame) (key suffix : string) :
  (forall l, In l (rows left) ->
     (length (filter (fun r => key_eqb (get l key (CNum NaN))
                                       (get r key (CNum NaN)))
                     (rows right)) <= 1)%nat) ->
  length (rows (merge_left left right key suffix)) = length (rows left).
Proof.
  intro H. unfold merge_left. cbn [rows].
  apply flat_map_length_one. intros l Hl. specialize (H l Hl).
  destruct (filter _ (rows right)) as [| r [| r' rest]]; simpl in *;
    try reflexivity. lia.
Qed.

Lemma nth_map_in {A B : Type} (f : A -> B) (l : list A) (i : nat)
  (d : B) (d' : A) :
  (i < length l)%nat -> nth i (map f l) d = f (nth i l d').
Proof.
  intro H. rewrite (nth_indep _ d (f d')) by (rewrite length_map; exact H).
  apply map_nth.
Qed.

(** In the base scorer a county absent from the social-vulnerability
    table receives the value 0.5, and the scorer keeps one row per
    county. *)
Lemma base_scorer_svi_fallback names POP gdp_df pair svi hr rnd i name :
  nth_error names i = Some name ->
  dict_get name (dict_of_zip (pair :: svi)) = None ->
  length (ProcessData.calculate_vulnerability_scores
            names POP gdp_df (Some (pair :: svi)) hr rnd) = length names /\
  option_map ProcessData.social_vulnerability
    (nth_error (ProcessData.calculate_vulnerability_scores
                  names POP gdp_df (Some (pair :: svi)) hr rnd) i)
  = Some (Fin 0.5).
Proof.
  intros Hn Hd. unfold ProcessData.calculate_vulnerability_scores.
  split; [rewrite length_map, length_seq; reflexivity |].
  assert (Hi : (i < length names)%nat) by (apply nth_error_Some; congruence).
  rewrite nth_error_map.
  rewrite (nth_error_nth' (seq 0 (length names)) 0%nat)
    by (rewrite length_seq; exact Hi).
  rewrite seq_nth by exact Hi.
  cbn [option_map ProcessData.social_vulnerability]. f_equal.
  unfold ProcessData.map_lookup. rewrite map_map.
  rewrite (nth_map_in _ names i NaN EmptyString Hi).
  rewrite (nth_error_nth names i EmptyString Hn), Hd. reflexivity.
Qed.

(** C2, at the input of the claim: a base layer of 67 counties, joined
    with a social-vulnerability table that covers 40 of them.  The merged
    layer has 67 rows and the unmatched rows get the GDP-per-capita
    default 50000; but their percentile cell is [nan], not the default
    0.5 -- [row.get] falls back only when the column is absent -- so their
    27 scores are [nan], and the cast of the ranks to integers then
    raises. *)
Theorem unmatched_counties_score_nan :
  exists merged scores,
    IntegrateData.score_layer Samples.counties67 Samples.gdp67
      Samples.svi40 Samples.nri67 = Ok (merged, scores) /\
    length (rows merged) = 67%nat /\
    length scores = 67%nat /\
    Forall (fun x => is_nan x = false) (firstn 40 scores) /\
    Forall (fun x => x = NaN) (skipn 40 scores) /\
    Forall (fun r => get r "GDP_PER_CAPITA" (CNum NaN) = CNum (Fin 50000)
                     /\ get r "RPL_THEMES" (CNum (Fin 0.5)) = CNum NaN)
           (skipn 40 (rows merged)) /\
    IntegrateData.integrate_datasets Samples.counties67 Samples.gdp67
      Samples.svi40 Samples.nri67 = Raise ValueError.
Proof.
  eexists. eexists. split; [vm_compute; reflexivity |].
  split; [reflexivity |]. split; [reflexivity |].
  split; [vm_compute; repeat constructor |].
  split; [vm_compute; repeat constructor |].
  split; [vm_compute; repeat constructor |].
  vm_compute. reflexivity.
Qed.

(** ** Sanity checks of the embedding *)

Example categorize_risk_thresholds :
  map ProcessData.categorize_risk
      [Fin 0.8; Fin 0.79; Fin 0.6; Fin 0.4; Fin 0.2; Fin 0.19; NaN]
  = ["Critical"; "High"; "High"; "Moderate"; "Low"; "Very Low";
     "Very Low"]%string.
Proof. reflexivity. Qed.

Example normalize_score_three :
  same_column (ProcessData.normalize_score [Fin 1; Fin 3; Fin 2] false)
              [Fin 0; Fin 1; Fin 0.5] /\
  same_column (ProcessData.normalize_score [Fin 1; Fin 3; Fin 2] true)
              [Fin 1; Fin 0; Fin 0.5].
Proof. split; vm_compute; repeat constructor. Qed.

Example normalize_score_skips_nan :
  same_column (ProcessData.normalize_score [Fin 10; NaN; Fin 20] false)
              [Fin 0; NaN; Fin 1].
Proof. vm_compute; repeat constructor. Qed.

Example py_round_half_even :
  Forall2 Qeq (map (fun q => Qround_digits q 1) [0.25; 0.75; 0.349; -0.25])
              [0.2; 0.8; 0.3; -0.2].
Proof. repeat (constructor; [reflexivity |]). constructor. Qed.

Example series_median_even_odd :
  same_value (series_median [Fin 3; NaN; Fin 1; Fin 2]) (Fin 2) /\
  same_value (series_median [Fin 4; Fin 1; Fin 3; Fin 2]) (Fin 2.5) /\
  series_median [NaN] = NaN.
Proof. repeat split; vm_compute; constructor; reflexivity. Qed.

Example merge_left_small :
  rows (merge_left
          {| columns := ["FIPS"; "NAME"]%string;
             rows := [[("FIPS", CStr "12001"); ("NAME", CStr "Alachua")];
                      [("FIPS", CStr "12003"); ("NAME", CStr "Baker")]]
                     %string |}
          {| columns := ["FIPS"; "NAME"; "RPL_THEMES"]%string;
             rows := [[("FIPS", CStr "12003"); ("NAME", CStr "BAKER");
                       ("RPL_THEMES", CNum (Fin 0.7))]]%string |}
          "FIPS" "_svi")
  = [[("FIPS", CStr "12001"); ("NAME", CStr "Alachua");
      ("NAME_svi", CNum NaN); ("RPL_THEMES", CNum NaN)];
     [("FIPS", CStr "12003"); ("NAME", CStr "Baker");
      ("NAME_svi", CStr "BAKER"); ("RPL_THEMES", CNum (Fin 0.7))]]%string.
Proof. reflexivity. Qed.

Example integrate_score_in_range :
  IntegrateData.calculate_vulnerability_score
    [("RPL_THEMES", CNum (Fin 0.5)); ("HRCN_RISKR", CStr "Relatively High");
     ("GDP_PER_CAPITA", CNum (Fin 50000))]%string
  = Ok (Fin 0.6133).
Proof. vm_compute. reflexivity. Qed.

Example integrate_score_defaults_on_absent_labels :
  IntegrateData.calculate_vulnerability_score [] = Ok (Fin 0.5333).
Proof. vm_compute. reflexivity. Qed.

Example determine_threat_level_boundaries :
  map (fun d => determine_threat_level
                  (Fin d) (Some (Samples.storm_at PyNone PyNone)))
      [0; 100; 100.1; 250; 500; 1000; 1001]
  = [extreme; extreme; high; high; moderate; low; none] /\
  determine_threat_level PInf None = none.
Proof. split; reflexivity. Qed.

Example haversine_distance_on_none :
  haversine_distance Samples.no_parse (Samples.fixed_distance 111)
    (PyFloat (Fin 0)) (PyFloat (Fin 0)) PyNone (PyFloat (Fin 1)) = Ok PInf /\
  haversine_distance Samples.no_parse (Samples.fixed_distance 111)
    (PyFloat (Fin 0)) (PyFloat (Fin 0)) (PyStr "25.4N") (PyFloat (Fin 1))
    = Ok PInf /\
  haversine_distance Samples.no_parse (Samples.fixed_distance 111)
    (PyFloat (Fin 0)) (PyFloat (Fin 0)) (PyInt 0) (PyFloat (Fin 1))
    = Ok (Fin 111).
Proof. repeat split. Qed.

Example categorize_storm_scale :
  map categorize_storm [PyInt 0; PyInt 34; PyInt 64; PyInt 137; PyNone]
  = [Ok "Tropical Depression"; Ok "Tropical Storm";
     Ok "Category 1 Hurricane"; Ok "Category 5 Hurricane";
     Raise TypeError]%string.
Proof. reflexivity. Qed.
(* ================================================================== *)
(** * Part III -- further properties of the code                       *)
(* ================================================================== *)

(** ** The metric normalizer: order and a second pass *)

Lemma normalized_entry_wd (lo hi lo' hi' v : Q) (inverse : bool) :
  lo' == lo -> hi' == hi -> ~ hi == lo ->
  normalized_entry lo' hi' inverse v == normalized_entry lo hi inverse v.
Proof.
  intros El Eh Hne. unfold normalized_entry.
  assert (H : (v + - lo') / (hi' + - lo') == (v + - lo) / (hi + - lo)).
  { rewrite El, Eh. reflexivity. }
  destruct inverse; rewrite H; reflexivity.
Qed.

Lemma normalize_score_entry (qs : list Q) (inverse : bool) (i : nat)
  (v lo hi : Q) :
  nth_error qs i = Some v ->
  is_minimum lo qs -> is_maximum hi qs -> hi - lo < overflow_limit ->
  exists r,
    nth_error (ProcessData.normalize_score (map Fin qs) inverse) i
    = Some (Fin r) /\
    r == (if Qeq_bool hi lo then 0.5
          else normalized_entry lo hi inverse v).
Proof.
  intros Hv Hlo Hhi Hrange.
  destruct qs as [| q qs]; [destruct i; discriminate |].
  destruct (normalize_score_fin q qs inverse) as (lo' & hi' & Mlo & Mhi & Heq).
  pose proof (is_minimum_unique _ _ _ Hlo Mlo) as Elo.
  pose proof (is_maximum_unique _ _ _ Hhi Mhi) as Ehi.
  rewrite Heq by lra.
  rewrite (Qeqb_comp hi' hi (Qeq_sym _ _ Ehi) lo' lo (Qeq_sym _ _ Elo)).
  destruct (Qeq_bool hi lo) eqn:E.
  - exists 0.5. split; [| reflexivity].
    apply nth_error_repeat_Some. apply nth_error_Some. congruence.
  - apply Qeq_bool_false in E. eexists. split.
    + rewrite nth_error_map, Hv. reflexivity.
    + apply normalized_entry_wd; [symmetry; exact Elo
                                 | symmetry; exact Ehi | exact E].
Qed.

(** X2.  On a column of finite values whose range does not overflow, the
    normalizer keeps the order of the values in the default mode and
    reverses it in inverse mode. *)
Theorem normalize_score_monotone
  (qs : list Q) (i j : nat) (x y lo hi : Q)
  (Hi : nth_error qs i = Some x)
  (Hj : nth_error qs j = Some y)
  (Hlo : is_minimum lo qs)
  (Hhi : is_maximum hi qs)
  (Hrange : hi - lo < overflow_limit)
  (Hxy : x <= y) :
  exists a b a' b',
    nth_error (ProcessData.normalize_score (map Fin qs) false) i = Some (Fin a) /\
    nth_error (ProcessData.normalize_score (map Fin qs) false) j = Some (Fin b) /\
    nth_error (ProcessData.normalize_score (map Fin qs) true) i = Some (Fin a') /\
    nth_error (ProcessData.normalize_score (map Fin qs) true) j = Some (Fin b') /\
    a <= b /\ b' <= a'.
Proof.
  destruct (normalize_score_entry qs false i x lo hi Hi Hlo Hhi Hrange)
    as (a & Na & Ea).
  destruct (normalize_score_entry qs false j y lo hi Hj Hlo Hhi Hrange)
    as (b & Nb & Eb).
  destruct (normalize_score_entry qs true i x lo hi Hi Hlo Hhi Hrange)
    as (a' & Na' & Ea').
  destruct (normalize_score_entry qs true j y lo hi Hj Hlo Hhi Hrange)
    as (b' & Nb' & Eb').
  exists a, b, a', b'.
  repeat (split; [assumption |]).
  destruct (Qeq_bool hi lo) eqn:E; [split; lra |].
  apply Qeq_bool_false in E.
  assert (Hpos : 0 < hi + - lo).
  { destruct Hlo as [_ Hle]. destruct Hhi as [(h & Hh & Eh) _].
    specialize (Hle h Hh). lra. }
  assert (Hdiv : (x + - lo) / (hi + - lo) <= (y + - lo) / (hi + - lo)).
  { apply Qmult_le_compat_r; [lra |]. apply Qlt_le_weak, Qinv_lt_0_compat, Hpos. }
  unfold normalized_entry in *. split; lra.
Qed.

Lemma normalize_score_monotone_witness :
  exists a b,
    nth_error (ProcessData.normalize_score (map Fin [30; 10; 20]) false) 1
      = Some (Fin a) /\
    nth_error (ProcessData.normalize_score (map Fin [30; 10; 20]) false) 2
      = Some (Fin b) /\
    a <= b.
Proof.
  assert (H1 : nth_error [30; 10; 20] 1 = Some 10) by reflexivity.
  assert (H2 : nth_error [30; 10; 20] 2 = Some 20) by reflexivity.
  assert (Hlo : is_minimum 10 [30; 10; 20]).
  { split.
    - exists 10. split; [right; now left | reflexivity].
    - intros x [<- | [<- | [<- | []]]]; lra. }
  assert (Hhi : is_maximum 30 [30; 10; 20]).
  { split.
    - exists 30. split; [now left | reflexivity].
    - intros x [<- | [<- | [<- | []]]]; lra. }
  assert (Hrange : 30 - 10 < overflow_limit) by reflexivity.
  assert (Hle : 10 <= 20) by (unfold Qle; simpl; lia).
  destruct (normalize_score_monotone [30; 10; 20] 1 2 10 20 10 30
              H1 H2 Hlo Hhi Hrange Hle)
    as (a & b & _ & _ & Ha & Hb & _ & _ & Hab & _).
  exists a, b. auto.
Defined.

(** X27.  On a column of finite values whose range does not overflow the
    default mode is idempotent: a second pass finds the extrema 0 and 1
    (or a constant 0.5 column) and changes nothing.  The change of a
    second pass in the default mode therefore needs an entry that is not
    finite, or a range that overflows. *)
Theorem normalize_score_idempotent_on_finite
  (qs : list Q) (lo hi : Q)
  (Hlo : is_minimum lo qs)
  (Hhi : is_maximum hi qs)
  (Hrange : hi - lo < overflow_limit) :
  same_column
    (ProcessData.normalize_score
       (ProcessData.normalize_score (map Fin qs) false) false)
    (ProcessData.normalize_score (map Fin qs) false).
Proof.
  destruct qs as [| q qs]; [constructor |].
  destruct (normalize_score_fin q qs false) as (lo0 & hi0 & Mlo & Mhi & Heq).
  pose proof (is_minimum_unique _ _ _ Hlo Mlo) as Elo0.
  pose proof (is_maximum_unique _ _ _ Hhi Mhi) as Ehi0.
  rewrite Heq by lra. clear Heq Hlo Hhi.
  assert (Hrange0 : hi0 - lo0 < overflow_limit) by lra.
  clear Hrange Elo0 Ehi0 lo hi. rename lo0 into lo, hi0 into hi.
  destruct (Qeq_bool hi lo) eqn:E.
  - (* constant column: all entries are 0.5 *)
    rewrite normalize_score_constant. clear.
    induction (length (q :: qs)) as [| n IH]; simpl; constructor;
      [constructor; reflexivity | exact IH].
  - apply Qeq_bool_false in E.
    set (f := normalized_entry lo hi false).
    assert (R : map (fun v => Fin (f v)) (q :: qs)
                = map Fin (f q :: map f qs)).
    { simpl. rewrite map_map. reflexivity. }
    rewrite R.
    destruct Mlo as [(xl & Hxl & Exl) Hle].
    destruct Mhi as [(xh & Hxh & Exh) Hge].
    assert (Hpos : 0 < hi + - lo).
    { specialize (Hle xh Hxh). lra. }
    assert (Hunit : forall x, In x (q :: qs) -> 0 <= f x <= 1).
    { intros x Hx. apply normalized_entry_unit; auto. }
    assert (Hf0 : f xl == 0).
    { unfold f, normalized_entry. rewrite Exl. field. lra. }
    assert (Hf1 : f xh == 1).
    { unfold f, normalized_entry. rewrite Exh. field. lra. }
    destruct (normalize_score_fin (f q) (map f qs) false)
      as (lo' & hi' & Mlo' & Mhi' & Heq').
    change (f q :: map f qs) with (map f (q :: qs)) in *.
    assert (Elo : lo' == 0).
    { apply (is_minimum_map f lo' (q :: qs)).
      - intros x Hx. apply Hunit, Hx.
      - exists xl. split; assumption.
      - exact Mlo'. }
    assert (Ehi : hi' == 1).
    { apply (is_maximum_map f hi' (q :: qs)).
      - intros x Hx. apply Hunit, Hx.
      - exists xh. split; assumption.
      - exact Mhi'. }
    rewrite Heq' by (pose proof overflow_limit_large; lra).
    assert (E' : Qeq_bool hi' lo' = false) by (apply Qeq_bool_false; lra).
    rewrite E'. rewrite !map_map.
    apply same_column_map_fin. intros x _.
    unfold normalized_entry at 1. rewrite Elo, Ehi. field.
Qed.

Lemma normalize_score_idempotent_on_finite_witness :
  same_column
    (ProcessData.normalize_score
       (ProcessData.normalize_score (map Fin [30; 10; 20]) false) false)
    (ProcessData.normalize_score (map Fin [30; 10; 20]) false).
Proof.
  apply (normalize_score_idempotent_on_finite [30; 10; 20] 10 30).
  - split.
    + exists 10. split; [right; now left | reflexivity].
    + intros x [<- | [<- | [<- | []]]]; lra.
  - split.
    + exists 30. split; [now left | reflexivity].
    + intros x [<- | [<- | [<- | []]]]; lra.
  - reflexivity.
Defined.

(** ** Risk categories *)

Lemma xge_fin (q t : Q) : xge (Fin q) (Fin t) = true <-> t <= q.
Proof.
  unfold xge, xle. simpl. rewrite orb_true_iff, Qltb_lt, Qeq_bool_iff.
  split; [intros [H | H]; lra |].
  intro H. destruct (Qeq_bool t q) eqn:E.
  - right. apply Qeq_bool_iff, E.
  - left. apply Qeq_bool_false in E. lra.
Qed.

Lemma xge_fin_false (q t : Q) : xge (Fin q) (Fin t) = false <-> q < t.
Proof.
  split; intro H.
  - destruct (Qlt_le_dec q t) as [L | L]; [exact L |].
    apply xge_fin in L. congruence.
  - destruct (xge (Fin q) (Fin t)) eqn:E; [| reflexivity].
    apply xge_fin in E. lra.
Qed.

Lemma categorize_risk_cases (q : Q) :
  (0.8 <= q /\ ProcessData.categorize_risk (Fin q) = "Critical"%string) \/
  (0.6 <= q < 0.8 /\ ProcessData.categorize_risk (Fin q) = "High"%string) \/
  (0.4 <= q < 0.6 /\ ProcessData.categorize_risk (Fin q) = "Moderate"%string) \/
  (0.2 <= q < 0.4 /\ ProcessData.categorize_risk (Fin q) = "Low"%string) \/
  (q < 0.2 /\ ProcessData.categorize_risk (Fin q) = "Very Low"%string).
Proof.
  unfold ProcessData.categorize_risk.
  destruct (xge (Fin q) (Fin 0.8)) eqn:E1;
    [apply xge_fin in E1; left; split; [exact E1 | reflexivity] |].
  apply xge_fin_false in E1. right.
  destruct (xge (Fin q) (Fin 0.6)) eqn:E2;
    [apply xge_fin in E2; left; split; [split; assumption | reflexivity] |].
  apply xge_fin_false in E2. right.
  destruct (xge (Fin q) (Fin 0.4)) eqn:E3;
    [apply xge_fin in E3; left; split; [split; assumption | reflexivity] |].
  apply xge_fin_false in E3. right.
  destruct (xge (Fin q) (Fin 0.2)) eqn:E4;
    [apply xge_fin in E4; left; split; [split; assumption | reflexivity] |].
  apply xge_fin_false in E4. right. split; [exact E4 | reflexivity].
Qed.

(** X4.  The risk category of a score: the five bands [< 0.2],
    [[0.2, 0.4)], [[0.4, 0.6)], [[0.6, 0.8)] and [>= 0.8] give Very Low,
    Low, Moderate, High and Critical; a higher score never gets a less
    severe category; a [nan] score is filed as Very Low; and the scorer
    of [integrate_data.py] categorizes exactly like that of
    [process_data.py]. *)
Theorem risk_category_bands (p q : Q) (x : xfloat) :
  (ProcessData.categorize_risk (Fin q) = "Critical"%string <-> 0.8 <= q) /\
  (ProcessData.categorize_risk (Fin q) = "High"%string <-> 0.6 <= q < 0.8) /\
  (ProcessData.categorize_risk (Fin q) = "Moderate"%string
     <-> 0.4 <= q < 0.6) /\
  (ProcessData.categorize_risk (Fin q) = "Low"%string <-> 0.2 <= q < 0.4) /\
  (ProcessData.categorize_risk (Fin q) = "Very Low"%string <-> q < 0.2) /\
  (p <= q ->
     (Severity.risk_severity (ProcessData.categorize_risk (Fin p))
      <= Severity.risk_severity (ProcessData.categorize_risk (Fin q)))%nat) /\
  ProcessData.categorize_risk NaN = "Very Low"%string /\
  IntegrateData.calculate_risk_category x = ProcessData.categorize_risk x.
Proof.
  destruct (categorize_risk_cases q)
    as [[H E] | [[H E] | [[H E] | [[H E] | [H E]]]]]; rewrite E;
    (split; [split; [intro X; try discriminate X; lra
                    | intro X; try reflexivity; exfalso; lra] |]);
    (split; [split; [intro X; try discriminate X; lra
                    | intro X; try reflexivity; exfalso; lra] |]);
    (split; [split; [intro X; try discriminate X; lra
                    | intro X; try reflexivity; exfalso; lra] |]);
    (split; [split; [intro X; try discriminate X; lra
                    | intro X; try reflexivity; exfalso; lra] |]);
    (split; [split; [intro X; try discriminate X; lra
                    | intro X; try reflexivity; exfalso; lra] |]);
    (split; [| split; reflexivity]);
    intro Hpq;
    destruct (categorize_risk_cases p)
      as [[H' E'] | [[H' E'] | [[H' E'] | [[H' E'] | [H' E']]]]];
    rewrite E'; vm_compute; try lia; exfalso; lra.
Qed.

Lemma risk_category_bands_witness :
  (Severity.risk_severity (ProcessData.categorize_risk (Fin 0.35))
   <= Severity.risk_severity (ProcessData.categorize_risk (Fin 0.61)))%nat.
Proof.
  apply (risk_category_bands 0.35 0.61 NaN). unfold Qle. simpl. lia.
Defined.

(** ** Scores stay in the unit interval *)

(** X5.  The three scorers that clamp never produce a score outside
    [0,1]: a score of the base scorer, of the NOAA update or of the
    Statista scorer is a number in [0,1] or [nan]. *)
Theorem clamped_scores_nan_or_unit
  (names : list string) (POP : option (list xfloat))
  (gdp_df : list (string * xfloat)) (svi_df : option (list (string * xfloat)))
  (hr : list xfloat) (rnd : ProcessData.draws)
  (risk_df : list (string * xfloat)) (gdf : list ProcessData.county)
  (statista_df : list Statista.statista_row) :
  Forall (fun c => ProcessData.vulnerability_score c = NaN \/
                   in_unit (ProcessData.vulnerability_score c) = true)
         (ProcessData.calculate_vulnerability_scores
            names POP gdp_df svi_df hr rnd) /\
  Forall (fun c => ProcessData.vulnerability_score c = NaN \/
                   in_unit (ProcessData.vulnerability_score c) = true)
         (NoaaRisk.update_vulnerability_with_noaa_risk risk_df gdf) /\
  Forall (fun e => Statista.enhanced_vulnerability e = NaN \/
                   in_unit (Statista.enhanced_vulnerability e) = true)
         (Statista.calculate_enhanced_vulnerability gdf statista_df).
Proof.
  repeat split; apply Forall_forall; intros c Hc;
    apply in_map_iff in Hc; destruct Hc as (i & <- & _); simpl;
    apply clip_nan_or_unit.
Qed.

(** ** Left joins *)

Lemma dict_get_app_l {V : Type} (key : string) (a b : list (string * V)) :
  dict_get key a <> None -> dict_get key (a ++ b) = dict_get key a.
Proof.
  induction a as [| [k v] a IH]; simpl; [congruence |].
  destruct (String.eqb key k); [reflexivity | exact IH].
Qed.

Lemma dict_get_app_r {V : Type} (key : string) (a b : list (string * V)) :
  dict_get key a = None -> dict_get key (a ++ b) = dict_get key b.
Proof.
  induction a as [| [k v] a IH]; simpl; [reflexivity |].
  destruct (String.eqb key k); [discriminate | exact IH].
Qed.

Lemma dict_get_map_const {V : Type} (f : string -> string) (v : V)
  (c : string) (cols : list string) :
  In c cols -> dict_get (f c) (map (fun c' => (f c', v)) cols) = Some v.
Proof.
  induction cols as [| c' cols IH]; intros []; simpl.
  - subst. rewrite String.eqb_refl. reflexivity.
  - destruct (String.eqb (f c) (f c')); [reflexivity | apply IH; assumption].
Qed.

Lemma flat_map_length_ge {A B : Type} (f : A -> list B) (l : list A) :
  (forall a, In a l -> (1 <= length (f a))%nat) ->
  (length l <= length (flat_map f l))%nat.
Proof.
  induction l as [| a l IH]; intro H; simpl; [lia |].
  rewrite length_app.
  specialize (H a (or_introl eq_refl)) as Ha.
  assert (length l <= length (flat_map f l))%nat
    by (apply IH; intros x Hx; apply H; now right).
  lia.
Qed.

(** X8.  A left join never drops or alters a row of the base layer: the
    result has at least as many rows, every result row is a left row
    followed by new cells, and the cells of the left row are read back
    unchanged.  When no left row has two partners the result has exactly
    the rows of the base layer, in the same order. *)
Theorem merge_left_preserves_base
  (left right : frame) (key suffix : string) :
  (length (rows left) <= length (rows (merge_left left right key suffix)))%nat /\
  Forall (fun r => exists l tail,
                     In l (rows left) /\ r = l ++ tail /\
                     forall c d, dict_get c l <> None -> get r c d = get l c d)
         (rows (merge_left left right key suffix)) /\
  ((forall l, In l (rows left) ->
      (length (filter (fun r => key_eqb (get l key (CNum NaN))
                                        (get r key (CNum NaN)))
                      (rows right)) <= 1)%nat) ->
   Forall2 (fun l r => exists tail, r = l ++ tail)
           (rows left) (rows (merge_left left right key suffix))).
Proof.
  unfold merge_left. cbn [rows].
  set (rcols := filter _ (columns right)).
  set (rename := fun c => if has_column left c then (c ++ suffix)%string else c).
  split; [| split].
  - apply flat_map_length_ge. intros l _.
    destruct (filter _ (rows right)) as [| r rs]; simpl; lia.
  - apply Forall_forall. intros r Hr. apply in_flat_map in Hr.
    destruct Hr as (l & Hl & Hr). exists l.
    assert (G : forall tail c d, dict_get c l <> None ->
                                 get (l ++ tail) c d = get l c d).
    { intros tail c d Hc. unfold get. rewrite dict_get_app_l by exact Hc.
      reflexivity. }
    destruct (filter _ (rows right)) as [| r0 rs].
    + destruct Hr as [<- | []]. eexists. split; [exact Hl |].
      split; [reflexivity | apply G].
    + apply in_map_iff in Hr. destruct Hr as (r1 & <- & _).
      eexists. split; [exact Hl |]. split; [reflexivity | apply G].
  - intro H. induction (rows left) as [| l ls IH]; simpl; [constructor |].
    assert (Hl := H l (or_introl eq_refl)).
    destruct (filter _ (rows right)) as [| r0 [| r1 rs]]; simpl in *.
    + constructor; [eexists; reflexivity |].
      apply IH. intros x Hx. apply H. now right.
    + constructor; [eexists; reflexivity |].
      apply IH. intros x Hx. apply H. now right.
    + lia.
Qed.

Lemma merge_left_preserves_base_witness :
  Forall2 (fun l r => exists tail, r = l ++ tail)
          (rows Samples.counties67)
          (rows (merge_left Samples.counties67 Samples.svi40 "FIPS" "_svi")).
Proof.
  apply (merge_left_preserves_base Samples.counties67 Samples.svi40
           "FIPS" "_svi").
  intros l Hl. apply Nat.leb_le. revert l Hl.
  apply (proj1 (forallb_forall
    (fun l => (length (filter (fun r => key_eqb (get l "FIPS" (CNum NaN))
                                                (get r "FIPS" (CNum NaN)))
                              (rows Samples.svi40)) <=? 1)%nat)
    (rows Samples.counties67))).
  vm_compute. reflexivity.
Defined.

(** X9.  After a left join an unmatched row does hold the columns of the
    joined table, with [nan] cells: [Series.get] on such a column returns
    [nan] whatever default it is given. *)
Theorem merge_left_unmatched_reads_nan
  (left right : frame) (key suffix : string) (l : row) (c : string)
  (default : cell)
  (Hl : In l (rows left))
  (Hnone : filter (fun r => key_eqb (get l key (CNum NaN))
                                    (get r key (CNum NaN)))
                  (rows right) = [])
  (Hc : In c (columns right))
  (Hkey : String.eqb c key = false)
  (Hnew : has_column left c = false)
  (Habsent : dict_get c l = None) :
  exists r,
    In r (rows (merge_left left right key suffix)) /\
    (exists tail, r = l ++ tail) /\
    get r c default = CNum NaN.
Proof.
  unfold merge_left. cbn [rows].
  eexists. split.
  - apply in_flat_map. exists l. split; [exact Hl |].
    rewrite Hnone. left. reflexivity.
  - split; [eexists; reflexivity |].
    unfold get. rewrite dict_get_app_r by exact Habsent.
    set (rename := fun c' => if has_column left c'
                             then (c' ++ suffix)%string else c').
    assert (E : rename c = c) by (unfold rename; rewrite Hnew; reflexivity).
    rewrite <- E at 1.
    rewrite (dict_get_map_const rename (CNum NaN) c); [reflexivity |].
    apply filter_In. split; [exact Hc | rewrite Hkey; reflexivity].
Qed.

Lemma merge_left_unmatched_reads_nan_witness :
  exists r,
    In r (rows (merge_left Samples.counties67 Samples.svi40 "FIPS" "_svi")) /\
    (exists tail, r = nth 66 (rows Samples.counties67) [] ++ tail) /\
    get r "RPL_THEMES" (CNum (Fin 0.5)) = CNum NaN.
Proof.
  apply (merge_left_unmatched_reads_nan Samples.counties67 Samples.svi40
           "FIPS" "_svi" (nth 66 (rows Samples.counties67) [])
           "RPL_THEMES" (CNum (Fin 0.5))).
  - apply nth_In. vm_compute. lia.
  - vm_compute. reflexivity.
  - right. left. reflexivity.
  - reflexivity.
  - reflexivity.
  - reflexivity.
Defined.

(** X10.  [calculate_vulnerability_score] propagates a missing
    percentile: when the percentile cell is [nan] and the GDP cell is a
    number the score is [nan] (the default 0.5 applies only to a row
    without the label), and a text cell in the place of the percentile
    raises [TypeError]. *)
Theorem integrate_score_propagates_nan (r : row) (g : xfloat) (s : string)
  (Hgdp : get r "GDP_PER_CAPITA" (CNum (Fin 50000)) = CNum g) :
  (get r "RPL_THEMES" (CNum (Fin 0.5)) = CNum NaN ->
     IntegrateData.calculate_vulnerability_score r = Ok NaN) /\
  (get r "RPL_THEMES" (CNum (Fin 0.5)) = CStr s ->
     IntegrateData.calculate_vulnerability_score r = Raise TypeError) /\
  (dict_get "RPL_THEMES" r = None ->
     get r "RPL_THEMES" (CNum (Fin 0.5)) = CNum (Fin 0.5)).
Proof.
  unfold IntegrateData.calculate_vulnerability_score.
  rewrite Hgdp. cbn [number bind].
  split; [| split].
  - intros ->. reflexivity.
  - intros ->. reflexivity.
  - intro H. unfold get. rewrite H. reflexivity.
Qed.

Lemma integrate_score_propagates_nan_witness :
  IntegrateData.calculate_vulnerability_score
    [("RPL_THEMES", CNum NaN); ("GDP_PER_CAPITA", CNum (Fin 50000))]%string
  = Ok NaN.
Proof.
  apply (integrate_score_propagates_nan
           [("RPL_THEMES", CNum NaN); ("GDP_PER_CAPITA", CNum (Fin 50000))]
           %string (Fin 50000) EmptyString eq_refl).
  reflexivity.
Defined.

Lemma base_scorer_svi_fallback_witness :
  option_map ProcessData.social_vulnerability
    (nth_error (ProcessData.calculate_vulnerability_scores
                  Samples.two_names Samples.two_pop Samples.two_gdp
                  (Some [("Lee"%string, Fin 0.4)]) Samples.two_risk
                  Samples.no_draws) 1)
  = Some (Fin 0.5).
Proof.
  apply (base_scorer_svi_fallback Samples.two_names Samples.two_pop
           Samples.two_gdp ("Lee"%string, Fin 0.4) [] Samples.two_risk
           Samples.no_draws 1 "Bay"%string); reflexivity.
Defined.
(** ** The NOAA hurricane risk *)






Import NoaaFrequency.

Lemma map_storm_count_row_of (rows : list finite_row) :
  map storm_count (map row_of rows) = map Fin (map fr_count rows).
Proof. rewrite !map_map. reflexivity. Qed.



Lemma Qcompare_zero (q : Q) : q == 0 -> (q ?= 0) = Eq.
Proof. intro H. apply Qeq_alt. exact H. Qed.

Lemma dict_get_all_nan (key : string) (pairs : list (string * xfloat)) :
  Forall (fun p => snd p = NaN) pairs ->
  dict_get key pairs = Some NaN \/ dict_get key pairs = None.
Proof.
  induction 1 as [| [k v] l Hv _ IH]; simpl; [now right |].
  simpl in Hv. subst v. destruct (String.eqb key k); [now left | exact IH].
Qed.

(** X12.  When all counties have the same storm count -- a single county
    included -- [calculate_hurricane_risk] divides zero by zero: every
    frequency score and every NOAA risk is [nan].  The update of the
    stored layer then falls back to the old hurricane risk of every
    county. *)
Theorem noaa_risk_constant_counts
  (rows : list finite_row) (c : Q) (gdf : list ProcessData.county)
  (Hconst : Forall (fun r => fr_count r == c) rows) :
  Forall (fun out => frequency_score out = NaN /\
                     hurricane_risk_noaa out = NaN)
         (calculate_hurricane_risk (map row_of rows)) /\
  map ProcessData.hurricane_risk
      (NoaaRisk.update_vulnerability_with_noaa_risk
         (risk_pairs (calculate_hurricane_risk (map row_of rows))) gdf)
  = map ProcessData.hurricane_risk gdf.
Proof.
  assert (Hnan : Forall (fun out => frequency_score out = NaN /\
                                    hurricane_risk_noaa out = NaN)
                        (calculate_hurricane_risk (map row_of rows))).
  { unfold calculate_hurricane_risk.
    rewrite map_storm_count_row_of, map_map.
    assert (Hall : forall x, In x (map fr_count rows) -> x == c).
    { intros x Hx. apply in_map_iff in Hx. destruct Hx as (r & <- & Hr).
      rewrite Forall_forall in Hconst. apply Hconst, Hr. }
    destruct (map fr_count rows) as [| c0 cs] eqn:Ec.
    { destruct rows; [constructor | discriminate]. }
    destruct (series_min_fin c0 cs) as (lo & Elo & [(xl & Hxl & Exl) _]).
    destruct (series_max_fin c0 cs) as (hi & Ehi & [(xh & Hxh & Exh) _]).
    rewrite Elo, Ehi.
    assert (Qlo : lo == c) by (rewrite <- Exl; apply Hall, Hxl).
    assert (Qhi : hi == c) by (rewrite <- Exh; apply Hall, Hxh).
    apply Forall_forall. intros out Hout.
    apply in_map_iff in Hout. destruct Hout as (fr & <- & Hfr).
    assert (Qc : fr_count fr == c).
    { rewrite Forall_forall in Hconst. apply Hconst, Hfr. }
    assert (D : Qeq_bool (hi + - lo) 0 = true) by (apply Qeq_bool_iff; lra).
    cbn [frequency_score hurricane_risk_noaa storm_count row_of
         xsub xopp xadd].
    rewrite (finite_fin (fr_count fr + - lo)), (finite_fin (hi + - lo))
      by (pose proof overflow_limit_large; lra).
    cbn [xdiv]. rewrite D, Qcompare_zero by lra.
    split; reflexivity. }
  split; [exact Hnan |].
  unfold NoaaRisk.update_vulnerability_with_noaa_risk.
  rewrite map_map. apply map_ext. intro county. cbn [ProcessData.hurricane_risk].
  destruct (dict_get_all_nan (ProcessData.NAME county)
              (dict_of_zip (risk_pairs
                 (calculate_hurricane_risk (map row_of rows)))))
    as [E | E].
  - unfold dict_of_zip, risk_pairs. apply Forall_rev.
    apply Forall_forall. intros p Hp. apply in_map_iff in Hp.
    destruct Hp as (out & <- & Hout). rewrite Forall_forall in Hnan.
    apply Hnan, Hout.
  - rewrite E. reflexivity.
  - rewrite E. reflexivity.
Qed.

Lemma noaa_risk_constant_counts_witness :
  map hurricane_risk_noaa
      (calculate_hurricane_risk (map row_of [Build_finite_row "Lee" 30 75 150]))
  = [NaN].
Proof.
  assert (H : Forall (fun r => fr_count r == 30)
                     [Build_finite_row "Lee" 30 75 150])
    by (constructor; [reflexivity | constructor]).
  destruct (noaa_risk_constant_counts _ 30 [] H) as [Hnan _].
  inversion Hnan as [| out outs [_ E] _ Eq]; subst. reflexivity.
Defined.

(** X14.  Without NOAA data for any county, the update gives back the
    output of the base scorer unchanged: scores and categories are
    recomputed to the same values. *)
Theorem noaa_update_without_data_is_identity
  (names : list string) (POP : option (list xfloat))
  (gdp_df : list (string * xfloat)) (svi_df : option (list (string * xfloat)))
  (hr : list xfloat) (rnd : ProcessData.draws)
  (risk_df : list (string * xfloat))
  (Hnone : forall n, In n names -> dict_get n (dict_of_zip risk_df) = None) :
  NoaaRisk.update_vulnerability_with_noaa_risk risk_df
    (ProcessData.calculate_vulnerability_scores names POP gdp_df svi_df hr rnd)
  = ProcessData.calculate_vulnerability_scores names POP gdp_df svi_df hr rnd.
Proof.
  unfold NoaaRisk.update_vulnerability_with_noaa_risk,
         ProcessData.calculate_vulnerability_scores.
  rewrite map_map. apply map_ext_in. intros i Hi. apply in_seq in Hi.
  cbn [ProcessData.NAME ProcessData.hurricane_risk
       ProcessData.social_vulnerability ProcessData.economic_vulnerability
       ProcessData.gdp ProcessData.gdp_per_capita ProcessData.population].
  rewrite Hnone by (apply nth_In; lia). reflexivity.
Qed.

Lemma noaa_update_without_data_is_identity_witness :
  NoaaRisk.update_vulnerability_with_noaa_risk [("Polk"%string, Fin 0.9)]
    Samples.two_scored
  = Samples.two_scored.
Proof.
  apply (noaa_update_without_data_is_identity Samples.two_names).
  intros n [<- | [<- | []]]; reflexivity.
Defined.

(** ** The Statista scorer *)

Lemma xadd_nan_r (a : xfloat) : xadd a NaN = NaN.
Proof. destruct a; reflexivity. Qed.

Lemma xmul_nan_r (a : xfloat) : xmul a NaN = NaN.
Proof. destruct a; reflexivity. Qed.

Lemma combine_map_self {A B : Type} (f : A -> B) (l : list A) :
  combine l (map f l) = map (fun a => (a, f a)) l.
Proof. induction l; simpl; congruence. Qed.

Lemma statista_row_shape
  (counties : list ProcessData.county)
  (statista_df : list Statista.statista_row) (e : Statista.enhanced) :
  In e (Statista.calculate_enhanced_vulnerability counties statista_df) ->
  Statista.enhanced_risk_category e
    = ProcessData.categorize_risk (Statista.enhanced_vulnerability e) /\
  Statista.rural_factor e
    = match dict_get (Statista.rural_status e) Statista.rural_map with
      | Some q => Fin q
      | None => NaN
      end /\
  (Statista.enhanced_vulnerability e = NaN \/
   in_unit (Statista.enhanced_vulnerability e) = true).
Proof.
  unfold Statista.calculate_enhanced_vulnerability. intro He.
  apply in_map_iff in He. destruct He as (cf & <- & _).
  cbn [Statista.enhanced_risk_category Statista.rural_factor
       Statista.rural_status Statista.enhanced_vulnerability].
  split; [reflexivity | split; [reflexivity |]].
  apply clip_nan_or_unit.
Qed.

(** X15.  On a Statista table that names every county at most once (on
    a repeated name the conversion of the table to a dictionary raises),
    the Statista scorer keeps the counties, in order; a county that is
    not in the table gets the home value 300000 and the status suburban,
    hence the rural factor 0.4; a county whose status is none of rural,
    rural_coastal, suburban and urban has no rural factor and its
    enhanced score is [nan]. *)
Theorem statista_defaults_and_unknown_status
  (counties : list ProcessData.county)
  (statista_df : list Statista.statista_row)
  (Hunique : NoDup (map Statista.County statista_df)) :
  map Statista.base
      (Statista.calculate_enhanced_vulnerability counties statista_df)
    = counties /\
  Forall
    (fun e =>
       (Statista.find_county (ProcessData.NAME (Statista.base e)) statista_df
        = None ->
        Statista.median_home_value e = Fin 300000 /\
        Statista.rural_status e = "suburban"%string /\
        Statista.rural_factor e = Fin 0.4) /\
       (forall data,
          Statista.find_county (ProcessData.NAME (Statista.base e)) statista_df
          = Some data ->
          Statista.median_home_value e = Statista.s_median_home_value data /\
          Statista.rural_status e = Statista.s_rural_status data) /\
       (dict_get (Statista.rural_status e) Statista.rural_map = None ->
        Statista.rural_factor e = NaN /\
        Statista.enhanced_vulnerability e = NaN) /\
       Statista.enhanced_risk_category e
         = ProcessData.categorize_risk (Statista.enhanced_vulnerability e))
    (Statista.calculate_enhanced_vulnerability counties statista_df).
Proof.
  unfold Statista.calculate_enhanced_vulnerability.
  rewrite combine_map_self, !map_map. split.
  - cbn [Statista.base fst]. apply map_id.
  - apply Forall_forall. intros e He. apply in_map_iff in He.
    destruct He as (c & <- & _).
    cbn [Statista.base Statista.median_home_value Statista.rural_status
         Statista.rural_factor Statista.enhanced_vulnerability
         Statista.enhanced_risk_category fst snd].
    split; [| split; [| split]].
    + intros ->. repeat split; reflexivity.
    + intros data ->. split; reflexivity.
    + intros ->. split; [reflexivity |].
      rewrite xmul_nan_r, xadd_nan_r. reflexivity.
    + reflexivity.
Qed.

Lemma categorize_risk_at_least (x : xfloat) :
  xge x (Fin 0.6) = true ->
  ProcessData.categorize_risk x = "High"%string \/
  ProcessData.categorize_risk x = "Critical"%string.
Proof.
  intro H. unfold ProcessData.categorize_risk. rewrite H.
  destruct (xge x (Fin 0.8)); auto.
Qed.

Lemma xge_trans_fin (x : xfloat) (a b : Q) :
  b <= a -> xge x (Fin a) = true -> xge x (Fin b) = true.
Proof.
  intro Hab. destruct x as [q | | |]; try (intro H; exact H).
  rewrite !xge_fin. lra.
Qed.

(** X16.  A county flagged [critical_rural] by the Statista scorer is
    rural or rural-coastal -- its rural factor is at least 0.9 -- and its
    enhanced risk category is High or Critical. *)
Theorem critical_rural_is_high_risk
  (counties : list ProcessData.county)
  (statista_df : list Statista.statista_row) (e : Statista.enhanced)
  (He : In e (Statista.calculate_enhanced_vulnerability counties statista_df))
  (Hflag : StatistaFlags.critical_rural e = true) :
  (Statista.enhanced_risk_category e = "High"%string \/
   Statista.enhanced_risk_category e = "Critical"%string) /\
  (Statista.rural_factor e = Fin 1.0 \/ Statista.rural_factor e = Fin 0.9) /\
  in_unit (Statista.enhanced_vulnerability e) = true.
Proof.
  unfold StatistaFlags.critical_rural in Hflag.
  apply andb_true_iff in Hflag. destruct Hflag as [Hs Hr].
  destruct (statista_row_shape counties statista_df e He)
    as (Hcat & Hfac & Hunit).
  split; [| split].
  - rewrite Hcat. apply categorize_risk_at_least.
    eapply xge_trans_fin; [| exact Hs]. lra.
  - simpl in Hr. rewrite Hfac.
    destruct (String.eqb (Statista.rural_status e) "rural") eqn:E1.
    + apply String.eqb_eq in E1. rewrite E1. left. reflexivity.
    + destruct (String.eqb (Statista.rural_status e) "rural_coastal") eqn:E2;
        [| discriminate].
      apply String.eqb_eq in E2. rewrite E2. right. reflexivity.
  - destruct Hunit as [E | E]; [| exact E].
    rewrite E in Hs. discriminate.
Qed.

Lemma statista_defaults_and_unknown_status_witness :
  NoDup (map Statista.County MoreSamples.statista_table) /\
  map Statista.base
      (Statista.calculate_enhanced_vulnerability
         Samples.two_scored MoreSamples.statista_table)
  = Samples.two_scored.
Proof.
  assert (Hunique : NoDup (map Statista.County MoreSamples.statista_table)).
  { apply (NoDup_count_occ' string_dec). intros x Hx.
    repeat (destruct Hx as [<- | Hx]; [reflexivity |]). destruct Hx. }
  split; [exact Hunique |].
  exact (proj1 (statista_defaults_and_unknown_status
                  Samples.two_scored MoreSamples.statista_table Hunique)).
Defined.

Lemma critical_rural_is_high_risk_witness :
  let e := hd (Statista.Build_enhanced (MoreSamples.scored "x" 0 0 0)
                 NaN "x" NaN NaN NaN "x")
              (Statista.calculate_enhanced_vulnerability
                 MoreSamples.rural_and_urban MoreSamples.statista_table) in
  StatistaFlags.critical_rural e = true /\
  Statista.enhanced_risk_category e = "Critical"%string.
Proof.
  intro e.
  assert (Hflag : StatistaFlags.critical_rural e = true) by reflexivity.
  split; [exact Hflag |].
  destruct (critical_rural_is_high_risk MoreSamples.rural_and_urban
              MoreSamples.statista_table e (or_introl eq_refl) Hflag)
    as ([H | H] & _); [discriminate H | exact H].
Defined.

(** ** The storm service and the threat records *)







(** ** The request to the storm service *)

Lemma fetch_on_success_status (status : nat)
  (body : list (list (string * pyval))) :
  (status < 400 \/ 600 <= status)%nat ->
  fetch_active_storms (Responded status (Some body))
  = map_result storm_info body.
Proof.
  intro H. unfold fetch_active_storms.
  assert (E : ((400 <=? status)%nat && (status <? 600)%nat) = false).
  { apply andb_false_iff. destruct H as [H | H].
    - left. apply Nat.leb_gt. exact H.
    - right. apply Nat.ltb_ge. exact H. }
  rewrite E. destruct body; reflexivity.
Qed.

Lemma storm_info_raises (s : list (string * pyval)) (e : pyexn) :
  storm_info s = Raise e -> e = TypeError.
Proof.
  unfold storm_info, categorize_storm.
  destruct (storm_get s "windSpeed" (PyInt 0)); simpl; congruence.
Qed.

(** X18.  When the storm service answers with a status that is not an
    error, [fetch_active_storms] returns one entry per storm of the
    answer, in order, with the position, name and wind speed of the
    storm (or their defaults) and the category of its wind speed --
    provided every wind speed is a number.  A storm whose wind speed is
    not a number (null, a string) makes the comparison raise
    [TypeError], which the function does not catch. *)
Theorem fetch_needs_numeric_wind_speeds
  (status : nat) (body : list (list (string * pyval)))
  (Hstatus : (status < 400 \/ 600 <= status)%nat) :
  (Forall (fun s => exists w,
             as_number (storm_get s "windSpeed" (PyInt 0)) = Ok w) body ->
   exists storms,
     fetch_active_storms (Responded status (Some body)) = Ok storms /\
     Forall2
       (fun s info =>
          latitude info = storm_get s "latitude" (PyInt 0) /\
          longitude info = storm_get s "longitude" (PyInt 0) /\
          name info = storm_get s "name" (PyStr "Unnamed") /\
          wind_speed_kt info = storm_get s "windSpeed" (PyInt 0) /\
          categorize_storm (wind_speed_kt info) = Ok (category info))
       body storms) /\
  (Exists (fun s => as_number (storm_get s "windSpeed" (PyInt 0))
                    = Raise TypeError) body ->
   fetch_active_storms (Responded status (Some body)) = Raise TypeError).
Proof.
  rewrite (fetch_on_success_status status body Hstatus). split.
  - induction 1 as [| s rest (w & Hw) _ (storms & E & F)]; simpl.
    + exists []. split; [reflexivity | constructor].
    + unfold storm_info at 1, categorize_storm at 1.
      rewrite Hw. cbn [bind]. rewrite E. cbn [bind].
      eexists. split; [reflexivity |].
      constructor; [| exact F]. cbn.
      repeat (split; [reflexivity |]).
      unfold categorize_storm. rewrite Hw. reflexivity.
  - induction 1 as [s rest Hs | s rest _ IH]; simpl.
    + unfold storm_info, categorize_storm. rewrite Hs. reflexivity.
    + destruct (storm_info s) as [info | e] eqn:E; cbn [bind].
      * rewrite IH. reflexivity.
      * f_equal. apply (storm_info_raises s e E).
Qed.

Lemma fetch_needs_numeric_wind_speeds_witness :
  fetch_active_storms
    (Responded 200 (Some [[("name"%string, PyStr "Ian");
                           ("windSpeed"%string, PyNone)]]))
  = Raise TypeError.
Proof.
  apply (fetch_needs_numeric_wind_speeds 200); [left; lia |].
  constructor. reflexivity.
Defined.

(** ** The summary *)

Lemma count_levels_total (l : list county_threat) :
  (count_level extreme l + count_level high l + count_level moderate l
   + count_level low l + count_level none l = length l)%nat.
Proof.
  unfold count_level. induction l as [| c l IH]; simpl; [reflexivity |].
  destruct (current_threat_level c); simpl; lia.
Qed.

Lemma critical_at_most_extreme_high (l : list county_threat) :
  (length (filter is_critical l)
   <= count_level extreme l + count_level high l)%nat.
Proof.
  unfold count_level, is_critical.
  induction l as [| c l IH]; simpl; [lia |].
  destruct (current_threat_level c); simpl;
    try destruct (xge (enhanced_vulnerability c) (Fin 0.6)); simpl; lia.
Qed.

Lemma under_threat_count (l : list county_threat) :
  (count_level extreme l + count_level high l + count_level moderate l
   + count_level low l)%nat
  = length (filter (fun c => negb (threat_level_eqb (current_threat_level c)
                                                    none)) l).
Proof.
  unfold count_level. induction l as [| c l IH]; simpl; [reflexivity |].
  destruct (current_threat_level c); simpl; lia.
Qed.

(** X19.  In the summary of [generate_summary_stats] the five counts of
    the threat distribution add up to the number of counties analysed;
    [counties_under_threat] is the number of records whose level is not
    none, so together with the count of none it gives the total; the
    critical counties are at most ten, and at most as many as the
    counties at extreme or high threat. *)
Theorem summary_counts_partition
  (storms : list storm) (county_threats : list county_threat) :
  let s := generate_summary_stats storms county_threats in
  (threat_distribution s extreme + threat_distribution s high
   + threat_distribution s moderate + threat_distribution s low
   + threat_distribution s none = total_counties_analyzed s)%nat /\
  (counties_under_threat s + threat_distribution s none
   = total_counties_analyzed s)%nat /\
  counties_under_threat s
  = length (filter (fun c => negb (threat_level_eqb (current_threat_level c)
                                                    none)) county_threats) /\
  (length (critical_counties s) <= 10)%nat /\
  (length (critical_counties s)
   <= threat_distribution s extreme + threat_distribution s high)%nat /\
  active_storms_count s = length (active_storms s).
Proof.
  cbn [generate_summary_stats threat_distribution total_counties_analyzed
       counties_under_threat critical_counties active_storms_count
       active_storms].
  pose proof (count_levels_total county_threats) as T.
  split; [exact T |]. split; [exact T |].
  split; [apply under_threat_count |].
  split; [apply firstn_le_length |].
  split; [| reflexivity].
  rewrite length_firstn.
  unfold sort_by_vulnerability.
  rewrite <- (Permutation_length (sort_desc_perm _ _)).
  pose proof (critical_at_most_extreme_high county_threats). lia.
Qed.

(** ** The threat records *)

Lemma county_record_fields (pf : string -> option xfloat)
  (gc : xfloat -> xfloat -> xfloat -> xfloat -> xfloat)
  (centroids : list (string * (xfloat * xfloat)))
  (storms : list storm) (county : row) (t : county_threat) :
  county_record pf gc centroids storms county = Ok (Some t) ->
  exists lat lon m ns,
    dict_get "NAME" county = Some (CStr (NAME t)) /\
    dict_get (NAME t) centroids = Some (lat, lon) /\
    nearest_loop pf gc lat lon storms PInf None = Ok (m, ns) /\
    county_score pf county = Ok (enhanced_vulnerability t) /\
    current_threat_level t = determine_threat_level m ns /\
    has_active_threat t
      = negb (threat_level_eqb (current_threat_level t) none) /\
    nearest_storm_distance_km t
      = (if xeq m PInf then None else Some (py_round m 1)) /\
    nearest_storm_name t
      = match ns with Some s => name s | None => PyNone end /\
    nearest_storm_category t = option_map category ns /\
    nearest_storm_wind_speed t
      = match ns with Some s => wind_speed_kt s | None => PyNone end.
Proof.
  unfold county_record.
  destruct (dict_get "NAME" county) as [[x | nm] |]; try discriminate.
  destruct (dict_get nm centroids) as [[lat lon] |] eqn:Ec; try discriminate.
  destruct (nearest_loop pf gc lat lon storms PInf None) as [[m ns] |] eqn:E;
    simpl; [| discriminate].
  destruct (county_score pf county) as [x |]; simpl; [| discriminate].
  intro H. injection H as <-. exists lat, lon, m, ns. simpl.
  repeat (split; [first [reflexivity | assumption] |]). reflexivity.
Qed.

Lemma xeq_PInf (m : xfloat) : xeq m PInf = true <-> m = PInf.
Proof. destruct m; simpl; split; congruence. Qed.

Lemma determine_threat_level_far (ns : option storm) :
  determine_threat_level PInf ns = none.
Proof. destruct ns; reflexivity. Qed.

(** X20.  Every record of the classifier is consistent: it is the
    record of a county of the table that has a centroid;
    [has_active_threat] holds exactly when the level is not none; the
    distance is missing exactly when no storm was nearest, that is when
    the category is missing, and then the name and the wind speed are
    [None] and the level is none; otherwise the name, the category and
    the wind speed are those of one storm of the list (a name or a wind
    speed that is null in the feed stays null in the record). *)
Theorem threat_record_consistent
  (pf : string -> option xfloat)
  (gc : xfloat -> xfloat -> xfloat -> xfloat -> xfloat)
  (counties : list row) (centroids : list (string * (xfloat * xfloat)))
  (storms : list storm) (threats : list county_threat) (t : county_threat)
  (Hrun : calculate_county_threats pf gc counties centroids storms
          = Ok threats)
  (Ht : In t threats) :
  (exists county,
     In county counties /\
     dict_get "NAME" county = Some (CStr (NAME t)) /\
     dict_get (NAME t) (dict_of_zip centroids) <> None /\
     county_score pf county = Ok (enhanced_vulnerability t)) /\
  (has_active_threat t = true <-> current_threat_level t <> none) /\
  (nearest_storm_distance_km t = None <-> nearest_storm_category t = None) /\
  (nearest_storm_category t = None ->
   current_threat_level t = none /\
   has_active_threat t = false /\
   nearest_storm_name t = PyNone /\
   nearest_storm_wind_speed t = PyNone) /\
  (nearest_storm_category t <> None ->
   exists s,
     In s storms /\
     nearest_storm_name t = name s /\
     nearest_storm_category t = Some (category s) /\
     nearest_storm_wind_speed t = wind_speed_kt s).
Proof.
  destruct (calculate_county_threats_In pf gc _ _ _ _ _ Hrun Ht)
    as (county & Hc & Hrec).
  destruct (county_record_fields pf gc _ _ _ _ Hrec)
    as (lat & lon & m & ns & Hn & Hcen & Hloop & Hsc & Hlvl & Hact & Hd
        & Hnm & Hcat & Hw).
  destruct (nearest_loop_spec pf gc lat lon storms PInf None m ns
              eq_refl Hloop) as (Nm & _ & _ & Hsrc).
  assert (Hns : ns = None <-> m = PInf).
  { split.
    - intros ->. destruct Hsrc as [[E _] | (s' & _ & E & _)];
        [exact E | discriminate].
    - intros ->. destruct Hsrc as [[_ E] | (s' & _ & _ & _ & F)];
        [exact E | discriminate F]. }
  split.
  { exists county. split; [exact Hc |]. split; [exact Hn |].
    split; [rewrite Hcen; discriminate | exact Hsc]. }
  split.
  { rewrite Hact. destruct (current_threat_level t); simpl;
      split; intro H; congruence. }
  split.
  { rewrite Hd, Hcat. destruct (xeq m PInf) eqn:E.
    - apply xeq_PInf in E. apply Hns in E. subst ns. simpl. tauto.
    - split; [discriminate |]. intro H.
      destruct ns as [s |]; [discriminate H |].
      assert (m = PInf) by (apply Hns; reflexivity).
      subst m. discriminate E. }
  split.
  { rewrite Hact, Hnm, Hw, Hcat, Hlvl.
    destruct ns; [discriminate |]. intros _. repeat split. }
  rewrite Hnm, Hcat, Hw. destruct ns as [s |]; simpl; [| congruence].
  intros _. exists s. split; [| repeat split].
  destruct Hsrc as [[_ E] | (s' & Hs' & E & _)]; [discriminate |].
  injection E as ->. exact Hs'.
Qed.

Lemma threat_record_consistent_witness :
  exists t,
    calculate_county_threats Samples.no_parse (Samples.fixed_distance 100)
      [Samples.lee_row] Samples.lee_centroid
      [Samples.storm_at (PyFloat (Fin 26)) (PyFloat (Fin (-82)))] = Ok [t]
    /\ (has_active_threat t = true <-> current_threat_level t <> none).
Proof.
  eexists. split; [reflexivity |].
  apply (threat_record_consistent Samples.no_parse
           (Samples.fixed_distance 100) [Samples.lee_row]
           Samples.lee_centroid
           [Samples.storm_at (PyFloat (Fin 26)) (PyFloat (Fin (-82)))]
           _ _ eq_refl (or_introl eq_refl)).
Defined.

(** ** More storms *)

Lemma nearest_loop_app (pf : string -> option xfloat)
  (gc : xfloat -> xfloat -> xfloat -> xfloat -> xfloat)
  (lat lon : xfloat) (l1 l2 : list storm) :
  forall m0 ns0,
    nearest_loop pf gc lat lon (l1 ++ l2) m0 ns0
    = bind (nearest_loop pf gc lat lon l1 m0 ns0)
           (fun st => nearest_loop pf gc lat lon l2 (fst st) (snd st)).
Proof.
  induction l1 as [| s l1 IH]; intros m0 ns0; simpl; [reflexivity |].
  destruct (haversine_distance pf gc (PyFloat lat) (PyFloat lon)
              (latitude s) (longitude s)) as [d |]; simpl; [| reflexivity].
  destruct (xlt d m0); apply IH.
Qed.

Lemma xle_fin (a b : Q) : xle (Fin a) (Fin b) = true <-> a <= b.
Proof. apply (xge_fin b a). Qed.

Lemma threat_level_closer (m m' : xfloat) (s s' : storm) :
  is_nan m = false -> is_nan m' = false -> xlt m m' = false ->
  (Severity.threat_severity (determine_threat_level m (Some s))
   <= Severity.threat_severity (determine_threat_level m' (Some s')))%nat.
Proof.
  intros N N' H.
  destruct m as [p | | |], m' as [q | | |];
    try discriminate; try (vm_compute; lia); simpl in H.
  - apply Qltb_ge in H.
    unfold determine_threat_level, threshold. cbn [threshold_in
      THREAT_THRESHOLDS threat_level_eqb].
    destruct (xle (Fin p) (Fin 100)) eqn:E1.
    { apply xle_fin in E1.
      rewrite (proj2 (xle_fin q 100)) by lra. simpl. lia. }
    destruct (xle (Fin q) (Fin 100)) eqn:F1;
      [destruct (xle (Fin p) (Fin 250)), (xle (Fin p) (Fin 500)),
                (xle (Fin p) (Fin 1000)); simpl; lia |].
    destruct (xle (Fin p) (Fin 250)) eqn:E2.
    { apply xle_fin in E2.
      rewrite (proj2 (xle_fin q 250)) by lra. simpl. lia. }
    destruct (xle (Fin q) (Fin 250)) eqn:F2;
      [destruct (xle (Fin p) (Fin 500)), (xle (Fin p) (Fin 1000));
       simpl; lia |].
    destruct (xle (Fin p) (Fin 500)) eqn:E3.
    { apply xle_fin in E3.
      rewrite (proj2 (xle_fin q 500)) by lra. simpl. lia. }
    destruct (xle (Fin q) (Fin 500)) eqn:F3;
      [destruct (xle (Fin p) (Fin 1000)); simpl; lia |].
    destruct (xle (Fin p) (Fin 1000)) eqn:E4.
    { apply xle_fin in E4.
      rewrite (proj2 (xle_fin q 1000)) by lra. simpl. lia. }
    simpl. lia.
  - unfold determine_threat_level, threshold. cbn [threshold_in
      THREAT_THRESHOLDS threat_level_eqb].
    destruct (xle (Fin p) (Fin 100)), (xle (Fin p) (Fin 250)),
             (xle (Fin p) (Fin 500)), (xle (Fin p) (Fin 1000));
      vm_compute; lia.
Qed.

(** X21.  More storms never lower a county's threat: when the
    classifier is run on a storm list and on that list with further
    storms appended, the threat level of a county with the longer list
    is at least as severe, and a county under threat stays under
    threat. *)
Theorem more_storms_never_lower_threat
  (pf : string -> option xfloat)
  (gc : xfloat -> xfloat -> xfloat -> xfloat -> xfloat)
  (centroids : list (string * (xfloat * xfloat)))
  (storms further : list storm) (county : row) (t t' : county_threat)
  (Hrun : county_record pf gc centroids storms county = Ok (Some t))
  (Hrun' : county_record pf gc centroids (storms ++ further) county
           = Ok (Some t')) :
  (Severity.threat_severity (current_threat_level t)
   <= Severity.threat_severity (current_threat_level t'))%nat /\
  (has_active_threat t = true -> has_active_threat t' = true).
Proof.
  assert (Hsev : (Severity.threat_severity (current_threat_level t)
     <= Severity.threat_severity (current_threat_level t'))%nat).
  { unfold county_record in Hrun, Hrun'.
    destruct (dict_get "NAME" county) as [[x | nm] |]; try discriminate.
    destruct (dict_get nm centroids) as [[lat lon] |]; try discriminate.
    rewrite nearest_loop_app in Hrun'.
    destruct (nearest_loop pf gc lat lon storms PInf None)
      as [[m ns] |] eqn:E1; cbn [bind fst snd] in Hrun, Hrun';
      [| discriminate].
    destruct (nearest_loop pf gc lat lon further m ns)
      as [[m' ns'] |] eqn:E2; cbn [bind fst snd] in Hrun';
      [| discriminate].
    destruct (county_score pf county) as [x |]; cbn [bind] in Hrun, Hrun';
      [| discriminate].
    injection Hrun as <-. injection Hrun' as <-.
    cbn [current_threat_level].
    destruct (nearest_loop_spec pf gc lat lon storms PInf None m ns
                eq_refl E1) as (Nm & _ & _ & _).
    destruct (nearest_loop_spec pf gc lat lon further m ns m' ns' Nm E2)
      as (Nm' & Hle & _ & Hsrc).
    destruct ns as [s |]; [| simpl; lia].
    destruct Hsrc as [[-> ->] | (s' & _ & -> & _ & _)]; [lia |].
    apply threat_level_closer; assumption. }
  split; [exact Hsev |].
  unfold county_record in Hrun, Hrun'.
  destruct (dict_get "NAME" county) as [[x | nm] |]; try discriminate.
  destruct (dict_get nm centroids) as [[lat lon] |]; try discriminate.
  destruct (nearest_loop pf gc lat lon storms PInf None)
    as [[m ns] |]; cbn [bind fst snd] in Hrun; [| discriminate].
  destruct (nearest_loop pf gc lat lon (storms ++ further) PInf None)
    as [[m' ns'] |]; cbn [bind fst snd] in Hrun'; [| discriminate].
  destruct (county_score pf county) as [x |]; cbn [bind] in Hrun, Hrun';
    [| discriminate].
  injection Hrun as <-. injection Hrun' as <-.
  cbn [current_threat_level has_active_threat] in *.
  destruct (determine_threat_level m ns), (determine_threat_level m' ns');
    simpl in *; try reflexivity; try discriminate; lia.
Qed.

Lemma more_storms_never_lower_threat_witness :
  exists t t',
    county_record Samples.no_parse (Samples.fixed_distance 100)
      (dict_of_zip Samples.lee_centroid) [] Samples.lee_row = Ok (Some t) /\
    county_record Samples.no_parse (Samples.fixed_distance 100)
      (dict_of_zip Samples.lee_centroid)
      ([] ++ [Samples.storm_at (PyFloat (Fin 26)) (PyFloat (Fin (-82)))])
      Samples.lee_row = Ok (Some t') /\
    (Severity.threat_severity (current_threat_level t)
     <= Severity.threat_severity (current_threat_level t'))%nat.
Proof.
  eexists. eexists. split; [reflexivity |]. split; [reflexivity |].
  apply (more_storms_never_lower_threat Samples.no_parse
           (Samples.fixed_distance 100) (dict_of_zip Samples.lee_centroid)
           [] [Samples.storm_at (PyFloat (Fin 26)) (PyFloat (Fin (-82)))]
           Samples.lee_row _ _ eq_refl eq_refl).
Defined.

(** ** The vulnerability rank *)

Lemma count_above_le (x y : Q) (l : list Q) :
  x <= y -> (count_above y l <= count_above x l)%nat.
Proof.
  intro H. unfold count_above. induction l as [| z l IH]; simpl; [lia |].
  destruct (Qltb y z) eqn:E1.
  - apply Qltb_lt in E1. rewrite (proj2 (Qltb_lt x z)) by lra. simpl. lia.
  - destruct (Qltb x z); simpl; lia.
Qed.

Lemma count_above_lt (x y : Q) (l : list Q) :
  In y l -> x < y -> (count_above y l < count_above x l)%nat.
Proof.
  intros Hy H. induction l as [| z l IH]; [destruct Hy |].
  unfold count_above in *. simpl.
  destruct Hy as [-> | Hy].
  - rewrite (proj2 (Qltb_ge y y)) by lra.
    rewrite (proj2 (Qltb_lt x y)) by lra. simpl.
    assert (Hle : x <= y) by lra.
    pose proof (count_above_le x y l Hle) as L. unfold count_above in L. lia.
  - specialize (IH Hy).
    destruct (Qltb y z) eqn:E1.
    + apply Qltb_lt in E1. rewrite (proj2 (Qltb_lt x z)) by lra. simpl. lia.
    + destruct (Qltb x z); simpl; lia.
Qed.

Lemma count_above_below_length (x : Q) (l : list Q) :
  In x l -> (count_above x l < length l)%nat.
Proof.
  intro Hx. induction l as [| z l IH]; [destruct Hx |].
  unfold count_above in *. simpl.
  assert (L : (length (filter (fun y => Qltb x y) l) <= length l)%nat)
    by apply filter_length_le.
  destruct Hx as [-> | Hx].
  - rewrite (proj2 (Qltb_ge x x)) by lra. lia.
  - specialize (IH Hx). destruct (Qltb x z); simpl; lia.
Qed.

(** X22.  The vulnerability ranks order the counties: every rank lies
    between 1 and the number of counties, a county with a strictly
    higher score gets a strictly better (smaller) rank, and a county
    with the highest score has rank 1. *)
Theorem rank_orders_counties
  (qs : list Q) (i j : nat) (x y : Q)
  (Hi : nth_error qs i = Some x)
  (Hj : nth_error qs j = Some y) :
  exists ri rj,
    nth_error (IntegrateData.rank_scores (map Fin qs)) i = Some ri /\
    nth_error (IntegrateData.rank_scores (map Fin qs)) j = Some rj /\
    (1 <= ri <= length qs)%nat /\
    (x < y -> (rj < ri)%nat) /\
    (x <= y -> (rj <= ri)%nat) /\
    (is_maximum x qs -> ri = 1%nat).
Proof.
  rewrite rank_scores_fin, !nth_error_map, Hi, Hj. simpl option_map.
  exists (S (count_above x qs)), (S (count_above y qs)).
  pose proof (nth_error_In _ _ Hi) as Ix.
  pose proof (nth_error_In _ _ Hj) as Iy.
  split; [reflexivity |]. split; [reflexivity |].
  split; [pose proof (count_above_below_length x qs Ix); lia |].
  split; [intro H; pose proof (count_above_lt x y qs Iy H); lia |].
  split; [intro H; pose proof (count_above_le x y qs H); lia |].
  intros [_ Hmax]. f_equal. apply count_above_none.
  apply Forall_forall. intros z Hz. apply Qltb_ge. apply Hmax, Hz.
Qed.

Lemma rank_orders_counties_witness :
  exists ri rj,
    nth_error (IntegrateData.rank_scores (map Fin [0.9; 0.9; 0.7])) 2
      = Some ri /\
    nth_error (IntegrateData.rank_scores (map Fin [0.9; 0.9; 0.7])) 0
      = Some rj /\
    (rj < ri)%nat.
Proof.
  assert (H2 : nth_error [0.9; 0.9; 0.7] 2 = Some 0.7) by reflexivity.
  assert (H0 : nth_error [0.9; 0.9; 0.7] 0 = Some 0.9) by reflexivity.
  destruct (rank_orders_counties [0.9; 0.9; 0.7] 2 0 0.7 0.9 H2 H0)
    as (ri & rj & Ei & Ej & _ & Hlt & _).
  exists ri, rj. split; [exact Ei |]. split; [exact Ej |].
  apply Hlt. lra.
Defined.

(** ** The endpoints of [app/main.py] *)

Import AppEndpoints.

Lemma StronglySorted_app_inv {A : Type} (R : A -> A -> Prop)
  (l1 l2 : list A) :
  StronglySorted R (l1 ++ l2) ->
  StronglySorted R l1 /\
  forall a b, In a l1 -> In b l2 -> R a b.
Proof.
  induction l1 as [| x l1 IH]; simpl; intro H.
  - split; [constructor | intros a b []].
  - inversion H as [| ? ? Hs Hall]; subst.
    destruct (IH Hs) as (S1 & Hcross).
    rewrite Forall_forall in Hall. split.
    + constructor; [exact S1 |]. apply Forall_forall.
      intros z Hz. apply Hall. apply in_or_app. now left.
    + intros a b [<- | Ha] Hb.
      * apply Hall. apply in_or_app. now right.
      * apply Hcross; assumption.
Qed.

(** X23.  [get_top_vulnerable(limit)]: a limit below 1 or above 67 is
    refused with status 400 whatever the layer holds.  Otherwise, on a
    layer whose scores are numbers, the answer reports ["count"] as the
    limit itself and serves the first [limit] counties of the layer
    sorted by descending score -- fewer when the layer has fewer
    counties, so the count can exceed the number of counties served --
    and no county left out has a higher score than a county served. *)
Theorem top_vulnerable_spec (limit : Z) (features : list properties) :
  ((limit < 1 \/ 67 < limit)%Z ->
   get_top_vulnerable limit features = HTTPException 400) /\
  ((1 <= limit <= 67)%Z ->
   Forall (fun p => is_nan (score_of p) = false) features ->
   exists served left_out,
     get_top_vulnerable limit features = Served (limit, served) /\
     length served = Nat.min (Z.to_nat limit) (length features) /\
     Permutation (map entry_of features) (served ++ left_out) /\
     descending
       (fun a b => xlt (vulnerability_score a) (vulnerability_score b))
       served /\
     (forall a b, In a served -> In b left_out ->
        xge (vulnerability_score a) (vulnerability_score b) = true)).
Proof.
  unfold get_top_vulnerable. split.
  - intro H.
    assert (E : ((limit <? 1) || (limit >? 67))%Z = true).
    { apply orb_true_iff. destruct H as [H | H].
      - left. apply Z.ltb_lt, H.
      - right. rewrite Z.gtb_ltb. apply Z.ltb_lt, H. }
    rewrite E. reflexivity.
  - intros H G.
    assert (E : ((limit <? 1) || (limit >? 67))%Z = false).
    { apply orb_false_iff. split.
      - apply Z.ltb_ge. lia.
      - rewrite Z.gtb_ltb. apply Z.ltb_ge. lia. }
    rewrite E.
    set (lt := fun a b : top_county =>
                 xlt (vulnerability_score a) (vulnerability_score b)).
    set (sorted := Order.sort_desc lt (map entry_of features)).
    exists (firstn (Z.to_nat limit) sorted), (skipn (Z.to_nat limit) sorted).
    assert (P : Permutation (map entry_of features) sorted)
      by apply sort_desc_perm.
    assert (Gs : Forall (fun c => is_nan (vulnerability_score c) = false)
                        sorted).
    { eapply Permutation_Forall; [exact P |].
      apply Forall_forall. intros c Hc. apply in_map_iff in Hc.
      destruct Hc as (p & <- & Hp). rewrite Forall_forall in G.
      apply (G p Hp). }
    assert (S : descending lt sorted).
    { apply (sort_desc_sorted lt
               (fun c => is_nan (vulnerability_score c) = false)).
      - intros x y _ _. apply xlt_asym.
      - intros x y z _ Hy _. apply xlt_ge_trans. exact Hy.
      - eapply Permutation_Forall; [apply Permutation_sym, P | exact Gs]. }
    unfold descending in S.
    rewrite <- (firstn_skipn (Z.to_nat limit) sorted) in S.
    destruct (StronglySorted_app_inv _ _ _ S) as (S1 & Hcross).
    split; [reflexivity |].
    split.
    { rewrite length_firstn.
      rewrite <- (Permutation_length P), length_map. reflexivity. }
    split; [rewrite firstn_skipn; exact P |].
    split; [exact S1 |].
    intros a b Ha Hb. rewrite Forall_forall in Gs.
    apply not_xlt_xge.
    + apply Gs. eapply In_firstn, Ha.
    + apply Gs. rewrite <- (firstn_skipn (Z.to_nat limit) sorted).
      apply in_or_app. now right.
    + apply Hcross; assumption.
Qed.

Lemma top_vulnerable_spec_witness :
  exists served,
    get_top_vulnerable 5 MoreSamples.three_features = Served (5%Z, served) /\
    length served = 3%nat.
Proof.
  destruct (proj2 (top_vulnerable_spec 5 MoreSamples.three_features))
    as (served & left_out & E & L & _).
  - lia.
  - repeat constructor.
  - exists served. split; [exact E | exact L].
Defined.

(** ** The statistics computed without a summary file *)

Lemma py_max_fin (l : list Q) :
  forall a, exists mx,
    py_max (Fin a) (map Fin l) = Fin mx /\ is_maximum mx (a :: l).
Proof.
  unfold py_max.
  induction l as [| y l IH]; intro a; simpl.
  - exists a. split; [reflexivity |]. split.
    + exists a. split; [now left | reflexivity].
    + intros x [<- | []]. lra.
  - destruct (Qltb a y) eqn:E.
    + apply Qltb_lt in E. destruct (IH y) as (mx & -> & (w & Hw & Ew) & Hall).
      exists mx. split; [reflexivity |]. split.
      * exists w. split; [now right | exact Ew].
      * intros x [<- | Hx]; [| apply Hall, Hx].
        pose proof (Hall y (or_introl eq_refl)). lra.
    + apply Qltb_ge in E. destruct (IH a) as (mx & -> & (w & Hw & Ew) & Hall).
      exists mx. split; [reflexivity |]. split.
      * exists w. split; [| exact Ew].
        destruct Hw as [<- | Hw]; [now left | right; now right].
      * intros x [<- | [<- | Hx]].
        -- apply Hall. now left.
        -- pose proof (Hall a (or_introl eq_refl)). lra.
        -- apply Hall. now right.
Qed.

Lemma py_min_fin (l : list Q) :
  forall a, exists mn,
    py_min_of (Fin a) (map Fin l) = Fin mn /\ is_minimum mn (a :: l).
Proof.
  unfold py_min_of.
  induction l as [| y l IH]; intro a; simpl.
  - exists a. split; [reflexivity |]. split.
    + exists a. split; [now left | reflexivity].
    + intros x [<- | []]. lra.
  - destruct (Qltb y a) eqn:E.
    + apply Qltb_lt in E. destruct (IH y) as (mn & -> & (w & Hw & Ew) & Hall).
      exists mn. split; [reflexivity |]. split.
      * exists w. split; [now right | exact Ew].
      * intros x [<- | Hx]; [| apply Hall, Hx].
        pose proof (Hall y (or_introl eq_refl)). lra.
    + apply Qltb_ge in E. destruct (IH a) as (mn & -> & (w & Hw & Ew) & Hall).
      exists mn. split; [reflexivity |]. split.
      * exists w. split; [| exact Ew].
        destruct Hw as [<- | Hw]; [now left | right; now right].
      * intros x [<- | [<- | Hx]].
        -- apply Hall. now left.
        -- pose proof (Hall a (or_introl eq_refl)). lra.
        -- apply Hall. now right.
Qed.

Lemma inject_length_succ (n : nat) :
  inject_Z (Z.of_nat (S n)) == inject_Z (Z.of_nat n) + 1.
Proof. rewrite Nat2Z.inj_succ, <- Z.add_1_r, inject_Z_plus. reflexivity. Qed.

Lemma inject_length_nonneg (n : nat) : 0 <= inject_Z (Z.of_nat n).
Proof.
  change 0 with (inject_Z 0). rewrite <- Zle_Qle. lia.
Qed.

Lemma py_sum_unit (l : list Q) :
  forall a,
    0 <= a ->
    a + inject_Z (Z.of_nat (length l)) <= 1000000000000 ->
    (forall x, In x l -> 0 <= x <= 1) ->
    exists s, fold_left xadd (map Fin l) (Fin a) = Fin s /\
              s == a + fold_right Qplus 0 l /\
              a <= s <= a + inject_Z (Z.of_nat (length l)).
Proof.
  induction l as [| x l IH]; intros a Ha Hlen Hunit.
  - exists a. split; [reflexivity |]. simpl. change (inject_Z 0) with 0.
    split; lra.
  - pose proof (Hunit x (or_introl eq_refl)) as Hx.
    pose proof (inject_length_succ (length l)) as Hsucc.
    pose proof (inject_length_nonneg (length l)) as Hn.
    change (length (x :: l)) with (S (length l)) in Hlen |- *.
    generalize dependent (inject_Z (Z.of_nat (S (length l)))).
    intros n' Hlen Hsucc.
    cbn [map fold_left xadd]. rewrite finite_small by lra.
    destruct (IH (a + x)) as (s & Es & Hsum & Hs);
      [lra | lra | intros z Hz; apply Hunit; now right |].
    exists s. split; [exact Es |]. cbn [fold_right]. split; lra.
Qed.

(** X24.  [get_stats()] without a summary file, on a layer whose scores
    are finite numbers: it reports the number of counties, the largest
    and the least score and, when the scores lie in [0,1] and the layer
    has at most a thousand counties, an average in [0,1] that is the sum
    of the scores divided by their number, within rounding; on an empty
    layer every figure is 0. *)
Theorem stats_fallback_bounds (features : list properties) (qs : list Q)
  (Hfin : map score_of features = map Fin qs) :
  total_counties (get_stats features) = length features /\
  (features = [] ->
   avg_vulnerability (get_stats features) = Fin 0 /\
   max_vulnerability (get_stats features) = Fin 0 /\
   min_vulnerability (get_stats features) = Fin 0) /\
  (features <> [] ->
   exists mx mn,
     max_vulnerability (get_stats features) = Fin mx /\
     min_vulnerability (get_stats features) = Fin mn /\
     is_maximum mx qs /\ is_minimum mn qs /\ mn <= mx) /\
  (features <> [] ->
   (forall q, In q qs -> 0 <= q <= 1) ->
   (length qs <= 1000)%nat ->
   exists avg,
     avg_vulnerability (get_stats features) = Fin avg /\ 0 <= avg <= 1 /\
     Qabs (avg - fold_right Qplus 0 qs / inject_Z (Z.of_nat (length qs)))
       <= 1 # 1000000000).
Proof.
  unfold get_stats. rewrite Hfin.
  assert (Hlen : length features = length qs).
  { rewrite <- (length_map score_of features), Hfin. apply length_map. }
  split.
  { rewrite Hlen. destruct qs; simpl; [| rewrite length_map]; reflexivity. }
  split.
  { intros ->. destruct qs; [| discriminate Hfin]. repeat split. }
  split.
  - intro Hne.
    destruct qs as [| q0 qr];
      [destruct features; [congruence | discriminate Hfin] |].
    cbn [map max_vulnerability min_vulnerability].
    destruct (py_max_fin qr q0) as (mx & Emx & Hmx).
    destruct (py_min_fin qr q0) as (mn & Emn & Hmn).
    rewrite Emx, Emn. exists mx, mn.
    repeat (split; [first [reflexivity | assumption] |]).
    pose proof (proj2 Hmx q0 (or_introl eq_refl)).
    pose proof (proj2 Hmn q0 (or_introl eq_refl)). lra.
  - intros Hne Hunit Hsmall.
    destruct qs as [| q0 qr];
      [destruct features; [congruence | discriminate Hfin] |].
    cbn [map avg_vulnerability].
    change (Fin q0 :: map Fin qr) with (map Fin (q0 :: qr)).
    unfold py_sum. rewrite length_map.
    assert (Hcount : inject_Z (Z.of_nat (length (q0 :: qr))) <= 1000).
    { change 1000 with (inject_Z 1000). rewrite <- Zle_Qle. lia. }
    destruct (py_sum_unit (q0 :: qr) 0) as (s & -> & Hsum & Hs);
      [lra | lra | exact Hunit |].
    set (n := inject_Z (Z.of_nat (length (q0 :: qr)))) in *.
    assert (Hn : 0 < n).
    { unfold n. change (length (q0 :: qr)) with (S (length qr)).
      rewrite inject_length_succ.
      pose proof (inject_length_nonneg (length qr)). lra. }
    assert (D : Qeq_bool n 0 = false) by (apply Qeq_bool_false; lra).
    assert (H0 : 0 <= s / n) by (apply Qle_shift_div_l; lra).
    assert (H1 : s / n <= 1) by (apply Qle_shift_div_r; lra).
    cbn [xdiv]. rewrite D, finite_small by lra.
    exists (s / n). split; [reflexivity |]. split; [split; assumption |].
    apply Qabs_of_eq. rewrite Hsum. field. lra.
Qed.

Lemma stats_fallback_bounds_witness :
  exists mx mn,
    max_vulnerability (get_stats MoreSamples.three_features) = Fin mx /\
    min_vulnerability (get_stats MoreSamples.three_features) = Fin mn /\
    mn <= mx.
Proof.
  destruct (stats_fallback_bounds MoreSamples.three_features
              [0.3; 0.8; 0.5] eq_refl)
    as (_ & _ & H & _).
  destruct H as (mx & mn & Emx & Emn & _ & _ & Hb); [discriminate |].
  exists mx, mn. repeat split; assumption.
Defined.

(** ** The integrated layer *)

Lemma map_result_length {A B : Type} (f : A -> result B) (l : list A)
  (bs : list B) :
  map_result f l = Ok bs -> length bs = length l.
Proof.
  revert bs. induction l as [| a l IH]; simpl; intros bs H.
  - injection H as <-. reflexivity.
  - destruct (f a) as [b |]; simpl in H; [| discriminate].
    destruct (map_result f l) as [bs' |]; simpl in H; [| discriminate].
    injection H as <-. simpl. f_equal. apply IH. reflexivity.
Qed.

Lemma merge_left_length_ge (left right : frame) (key suffix : string) :
  (length (rows left) <= length (rows (merge_left left right key suffix)))%nat.
Proof.
  unfold merge_left. cbn [rows]. apply flat_map_length_ge.
  intros l _. destruct (filter _ (rows right)); simpl; lia.
Qed.

Lemma gdp_per_capita_column_length (m : frame) (cells : list cell) :
  IntegrateData.gdp_per_capita_column m = Ok cells ->
  length cells = length (rows m).
Proof.
  unfold IntegrateData.gdp_per_capita_column.
  destruct (has_column m "E_TOTPOP").
  - apply map_result_length.
  - intro H. injection H as <-. apply length_map.
Qed.

Lemma first_index_below_length {A : Type} (eqb : A -> A -> bool) (x : A)
  (l : list A) :
  (exists y, In y l /\ eqb x y = true) ->
  (Order.first_index eqb x l < length l)%nat.
Proof.
  induction l as [| z l IH]; intros (y & Hy & E); [destruct Hy |].
  simpl. destruct (eqb x z) eqn:Ez; [lia |].
  destruct Hy as [-> | Hy]; [congruence |].
  assert (Order.first_index eqb x l < length l)%nat
    by (apply IH; exists y; auto).
  lia.
Qed.

Lemma xeq_refl (x : xfloat) : is_nan x = false -> xeq x x = true.
Proof.
  destruct x; simpl; try congruence. intros _. apply Qeq_bool_iff. reflexivity.
Qed.

Lemma integrate_datasets_shape
  (counties gdp svi_subset nri_subset : frame)
  (out : IntegrateData.integrated) :
  IntegrateData.integrate_datasets counties gdp svi_subset nri_subset
  = Ok out ->
  (length (rows counties)
   <= length (rows (IntegrateData.vulnerability_map out)))%nat /\
  length (IntegrateData.VULNERABILITY_SCORE out)
  = length (rows (IntegrateData.vulnerability_map out)) /\
  existsb is_nan (IntegrateData.VULNERABILITY_SCORE out) = false /\
  IntegrateData.RISK_CATEGORY out
  = map IntegrateData.calculate_risk_category
        (IntegrateData.VULNERABILITY_SCORE out) /\
  IntegrateData.VULNERABILITY_RANK out
  = IntegrateData.rank_scores (IntegrateData.VULNERABILITY_SCORE out).
Proof.
  intro Hrun.
  unfold IntegrateData.integrate_datasets, IntegrateData.score_layer in Hrun.
  set (merged := IntegrateData.merge_all counties gdp svi_subset nri_subset)
    in Hrun.
  destruct (IntegrateData.gdp_per_capita_column merged) as [cells |] eqn:Ec;
    cbn [bind] in Hrun; [| discriminate].
  destruct (map_result IntegrateData.calculate_vulnerability_score _)
    as [scores |] eqn:Es; cbn [bind fst snd] in Hrun; [| discriminate].
  destruct (existsb is_nan scores) eqn:Enan; [discriminate |].
  injection Hrun as <-.
  cbn [IntegrateData.vulnerability_map IntegrateData.VULNERABILITY_SCORE
       IntegrateData.RISK_CATEGORY IntegrateData.VULNERABILITY_RANK].
  apply map_result_length in Es.
  apply gdp_per_capita_column_length in Ec.
  assert (Hrows : length (rows (set_column merged "GDP_PER_CAPITA" cells))
                  = length (rows merged)).
  { unfold set_column. cbn [rows].
    rewrite length_map, length_combine, Ec. apply Nat.min_id. }
  assert (Hbase : (length (rows counties) <= length (rows merged))%nat).
  { unfold merged, IntegrateData.merge_all.
    eapply Nat.le_trans; [| apply merge_left_length_ge].
    eapply Nat.le_trans; [| apply merge_left_length_ge].
    apply merge_left_length_ge. }
  split; [rewrite Hrows; exact Hbase |].
  split; [exact Es |].
  split; [exact Enan |]. split; reflexivity.
Qed.

(** X25.  When [integrate_datasets] completes, its columns are aligned
    with the merged layer: there is one score, one category and one rank
    per row; the layer has at least the rows of the base layer; no score
    is [nan]; and every rank lies between 1 and the number of rows. *)
Theorem integrated_columns_aligned
  (counties gdp svi_subset nri_subset : frame)
  (out : IntegrateData.integrated)
  (Hrun : IntegrateData.integrate_datasets counties gdp svi_subset nri_subset
          = Ok out) :
  let n := length (rows (IntegrateData.vulnerability_map out)) in
  (length (rows counties) <= n)%nat /\
  length (IntegrateData.VULNERABILITY_SCORE out) = n /\
  length (IntegrateData.RISK_CATEGORY out) = n /\
  length (IntegrateData.VULNERABILITY_RANK out) = n /\
  Forall (fun s => is_nan s = false) (IntegrateData.VULNERABILITY_SCORE out) /\
  Forall (fun r => (1 <= r <= n)%nat) (IntegrateData.VULNERABILITY_RANK out).
Proof.
  destruct (integrate_datasets_shape _ _ _ _ out Hrun)
    as (Hbase & Es & Enan & -> & ->).
  set (scores := IntegrateData.VULNERABILITY_SCORE out) in *.
  assert (Hnan : Forall (fun s => is_nan s = false) scores).
  { apply Forall_forall. intros s Hs.
    destruct (is_nan s) eqn:E; [| reflexivity].
    assert (existsb is_nan scores = true)
      by (apply existsb_exists; exists s; auto).
    congruence. }
  cbv zeta. rewrite <- Es.
  split; [rewrite Es; exact Hbase |].
  split; [reflexivity |].
  split; [apply length_map |].
  unfold IntegrateData.rank_scores, Order.rank_min_desc.
  split; [apply length_map |].
  split; [exact Hnan |].
  apply Forall_forall. intros r Hr. apply in_map_iff in Hr.
  destruct Hr as (x & <- & Hx).
  assert (L : (Order.first_index xeq x (Order.sort_desc xlt scores)
               < length (Order.sort_desc xlt scores))%nat).
  { apply first_index_below_length. exists x. split.
    - eapply Permutation_in; [apply sort_desc_perm | exact Hx].
    - apply xeq_refl. rewrite Forall_forall in Hnan. apply Hnan, Hx. }
  rewrite <- (Permutation_length (sort_desc_perm xlt scores)) in L.
  lia.
Qed.

Lemma integrated_columns_aligned_witness :
  exists out,
    IntegrateData.integrate_datasets
      (MoreSamples.head_rows 3 Samples.counties67)
      (MoreSamples.head_rows 3 Samples.gdp67)
      (MoreSamples.head_rows 3 Samples.svi40)
      (MoreSamples.head_rows 3 Samples.nri67) = Ok out /\
    length (IntegrateData.VULNERABILITY_RANK out) = 3%nat.
Proof.
  eexists. split; [vm_compute; reflexivity |].
  apply (integrated_columns_aligned
           (MoreSamples.head_rows 3 Samples.counties67)
           (MoreSamples.head_rows 3 Samples.gdp67)
           (MoreSamples.head_rows 3 Samples.svi40)
           (MoreSamples.head_rows 3 Samples.nri67) _ eq_refl).
Defined.

(** ** The report *)

(** X26.  [integrate_datasets] cannot get past its report on a layer
    with at least one county: the list of the ten most vulnerable
    counties is restricted to five columns, none of which is
    VULNERABILITY_RANK, and the first printed line reads that column, so
    the run ends with an exception ([KeyError] when the ranking had
    succeeded) before anything is saved. *)
Theorem report_raises_on_nonempty_layer
  (counties gdp svi_subset nri_subset : frame)
  (Hne : rows counties <> []) :
  (forall out,
     IntegrateData.integrate_datasets counties gdp svi_subset nri_subset
     = Ok out ->
     IntegrateReport.report_top_10 (IntegrateReport.final_layer out)
     = Raise KeyError) /\
  exists e,
    IntegrateReport.integrate_and_report counties gdp svi_subset nri_subset
    = Raise e.
Proof.
  assert (H : forall out,
     IntegrateData.integrate_datasets counties gdp svi_subset nri_subset
     = Ok out ->
     IntegrateReport.report_top_10 (IntegrateReport.final_layer out)
     = Raise KeyError).
  { intros out Hrun.
    destruct (integrate_datasets_shape _ _ _ _ out Hrun)
      as (Hbase & Hs & _ & Hc & Hr).
    unfold IntegrateReport.report_top_10, IntegrateReport.getitem_columns.
    destruct (forallb _ IntegrateReport.top_10_columns); [| reflexivity].
    cbn [bind]. unfold select, IntegrateReport.nlargest. cbn [rows].
    set (sorted := Order.sort_desc _ _).
    assert (L : (1 <= length sorted)%nat).
    { unfold sorted.
      rewrite <- (Permutation_length (sort_desc_perm _ _)).
      unfold IntegrateReport.final_layer, set_column. cbn [rows].
      rewrite Hc, Hr.
      unfold IntegrateData.rank_scores, Order.rank_min_desc.
      repeat first [rewrite length_map | rewrite length_combine].
      rewrite Hs.
      destruct (rows counties); [congruence |]. simpl in Hbase. lia. }
    destruct sorted as [| r0 rest]; [simpl in L; lia |].
    reflexivity. }
  split; [exact H |].
  unfold IntegrateReport.integrate_and_report.
  destruct (IntegrateData.integrate_datasets counties gdp svi_subset
              nri_subset) as [out | e] eqn:E; cbn [bind].
  - rewrite (H out eq_refl). eexists. reflexivity.
  - eexists. reflexivity.
Qed.

Lemma report_raises_on_nonempty_layer_witness :
  exists e,
    IntegrateReport.integrate_and_report
      (MoreSamples.head_rows 3 Samples.counties67)
      (MoreSamples.head_rows 3 Samples.gdp67)
      (MoreSamples.head_rows 3 Samples.svi40)
      (MoreSamples.head_rows 3 Samples.nri67) = Raise e.
Proof.
  refine (proj2 (report_raises_on_nonempty_layer
                   (MoreSamples.head_rows 3 Samples.counties67)
                   (MoreSamples.head_rows 3 Samples.gdp67)
                   (MoreSamples.head_rows 3 Samples.svi40)
                   (MoreSamples.head_rows 3 Samples.nri67) _)).
  discriminate.
Defined.
